(* ===== verification/_CoqProject ===== *)
-Q . S2P
Prelude.v
Jsx.v
Icons.v
Models.v
Browser.v
Shared.v
ModelSelect.v
ModelSelectFacts.v
Hooks.v
Runtime.v
Component.v
Invariant.v
Independence.v
Morphism.v
Multi.v
Frame.v
Behaviour.v
Spec.v
Strict.v
Bounds.v
Instances.v
Together.v
Scenarios.v
TwoSelectors.v
