(* ===== verification/Prelude.v ===== *)
(** * Verification of the chat panel's model selector (ModelSelect.tsx, Icons.tsx)

    ** The program

    The repository fragment holds one React function component and three
    static icons:

    - [src/webview/src/components/ChatInputBox/selectors/ModelSelect.tsx]:
      the component [ModelSelect].  It receives the props [value] (the id of
      the selected model, owned by the parent) and [onChange] (the parent's
      callback), keeps one piece of hook state ([isOpen], [useState(false)])
      and two refs ([buttonRef], [dropdownRef]).  It has two event handlers
      ([handleToggle], [handleSelect]), one effect ([useEffect] with the
      dependency [isOpen]) which, while the dropdown is open, installs a
      [mousedown] listener on [document] from a zero-delay timer and returns
      a cleanup that clears the timer and removes the listener, and a render
      body that returns the trigger button and, when open, the dropdown with
      one row per entry of [AVAILABLE_MODELS].
    - [src/webview/src/components/Icons.tsx]: [BackIcon], [StopIcon],
      [SendIcon], three parameterless SVG elements.

    The component interacts with three things that are not in the fragment:
    the registry [AVAILABLE_MODELS] (imported from [../types]), the React
    runtime (which re-renders after [setIsOpen], commits refs, and runs and
    cleans up effects) and the browser (the timer queue, the listeners of
    [document], the DOM tree against which [Node.contains] is evaluated).

    ** The files

    - [Prelude] (this file): the values JavaScript code produces that Rocq
      has no direct counterpart for ([Result] for an evaluation that may
      throw, [js_find] for [Array.prototype.find], [js_or] and [js_and] for
      [||] and [&&] on a value that is an object or [undefined], [js_get]
      for a property read), list facts shared by the components, the hint
      database [ui] and the tactics of the development.
    - [Jsx] (module [Jsx]): React elements as data ([VNode]): element,
      text, component reference and the falsy child that [cond && <x/>]
      leaves behind; DOM children, lookup by path ([node_at]), the click
      handlers met between the root and a target ([handlers_to], [bubble])
      and the element a ref is attached to ([find_ref]).
    - [Icons] (module [Icons]): the three icons of Icons.tsx as [VNode]
      values, attribute by attribute.
    - [Models] (module [Registry]): the registry entries [Model] with the
      fields [id] and [label], and [currentModel], line 19 of
      ModelSelect.tsx.
    - [Browser] (module [Browser]): the part of the browser the effect talks
      to, as the type class [Surface]: the observations [timers] and
      [listeners], the operations [setTimeout], [clearTimeout],
      [takeTimer], [addEventListener], [removeEventListener], and the laws
      that relate them; the instance [Page] (lists and a counter of timer
      ids) implements it.  [contains] is [Node.contains] on nodes named by
      their path in the document.
    - [Shared] (module [Shared]): a page shared with other code
      ([SharedPage]): every closure in the timer queue and among the
      listeners is the component's or other code's, timer ids come from one
      counter; it implements [Surface] (the component sees its own share),
      and other code acts through [foreign_op].
    - [ModelSelect] (module [ModelSelect]): the component's own code:
      [ModelSelectProps], the closures [Handler] with what they capture,
      [handleToggle] and [handleSelect] (returning the commands [Cmd] they
      issue), [handleClickOutside], the effect body [effect] with the timer
      callback [arm] and the [cleanup] it returns (all three against any
      [Surface]), the returned element as a function of the locals it
      reads ([return_el], [button_el], [dropdown_el], [row_el], with the
      attributes and children of each element as definitions of their
      own), and [render] with [view], [trigger], [dropdown] and
      [option_row], where each render creates its closures anew.  The file
      holds definitions only.
    - [ModelSelectFacts] (module [ModelSelectFacts]): what these functions
      do on every branch, and the shape of the rendered tree.
    - [Hooks] (module [Hooks]): [useCallback] with its cells, and the two
      [useCallback] calls of lines 24-35 with their dependency arrays, for
      the [isOpen] of the render ([ModelSelect_fn]).
    - [Runtime] (module [Runtime]): the life cycle React and the browser
      give the component: the record [Fiber] (props, [isOpen], queued
      updates, committed tree, the two refs, the dependency and cleanup of
      the effect's last run), the [World] (fiber, surface, closure counter,
      trace), and a total step function over the events [Click],
      [MouseDown], [Tick], [Render], [Flush], [SetProps] and [Unmount]
      ([click], [mousedown], [tick], [rerender], [flush_effects],
      [rerender_with], [unmount]); [run], the inductive set [reachable],
      and [settle], the render and effect flush React performs
      synchronously after a discrete event; and [reconnect], React running
      the cleanup and the effect once more without a change of state.
    - [Component] (module [Component]): the function of lines 14-107 hook
      call by hook call ([ModelSelect_component]), in a state monad over
      the cells React keeps for an instance ([Store], [useState],
      [useRef], [useCallback_at], [useEffect]), and what React does with
      the effect after the commit ([commit_effect]).
    - [Invariant] (module [Invariant]): the well-formedness invariant [wf],
      its preservation by every operation of [Runtime], and the safety
      properties that follow by induction on [reachable].
    - [Independence] (module [Independence]): worlds without timer ids
      ([observe]) and the proof that every step respects them, for any two
      implementations of [Surface]; on one page, the partial equivalence
      [similar] with [step] and [run] as its morphisms ([Proper]).
    - [Morphism] (module [Morphism]): maps between pages that commute
      with the five calls ([SurfaceMorphism]); every operation of the life
      cycle commutes with them ([morph_step]); a type of states that maps
      into a page is a page ([pullback]).
    - [Multi] (module [Multi]): a page with several instances of the
      component and other code ([MultiPage]): every closure carries who
      created it, an instance or other code; the calls of one instance
      ([multi_setTimeout], [clear_timer], [multi_takeTimer],
      [multi_addEventListener], [multi_removeEventListener]), the page
      they form for it ([multi_surface]), the calls of other code
      ([elsewhere_op]), and the page as one instance sees it ([view_of], a
      [SharedPage] on which the other instances are other code).
    - [Frame] (module [Frame]): the life cycle on a [SharedPage]: the
      component's events, the event loop running the head of the queue
      ([turn]) and other code acting in between ([other_code]); the
      reachable worlds [shared_reachable] and the invariant [shared_wf].
    - [Behaviour] (module [Behaviour]): what each event does to a quiescent
      world once React has settled: the four user-level transitions, the
      timer turn, two clicks in one batch, and what reaches the trace.
    - [Spec] (module [Spec]): the state machine of the specification
      ([Phase], [State], [Action], [spec_step], [spec_run]), the abstraction
      [abs] from worlds to its states, [action_of] from events to its
      inputs, and the refinement and liveness theorems.
    - [Strict] (module [Strict]): what the component is after React has
      run its effect again ([Runtime.reconnect]).
    - [Bounds] (module [Bounds]): what a run can add to the trace and to
      the closure counter, and the measure [pending_work] by which the
      widget comes to rest.
    - [Instances] (module [Instances]): several instances on one page:
      the [Document] (the instances by number, and the [MultiPage] they
      share), its events [DocEvent] (React mounting, rendering, flushing,
      updating and unmounting one instance; the browser dispatching a
      click, calling every registered [mousedown] listener, running the
      timer at the head of the queue; other code calling the page),
      [doc_step], [doc_run] and the inductive set [doc_reachable]; the
      projection [proj] to the shared page of one instance, and the
      invariant [doc_wf].
    - [Together] (module [Together]): the instances together: the frame,
      the bound on what the page holds, the plans [unmount_all] and
      [close_plan], and the refinement of [Spec] by each instance.
    - [Scenarios] (module [Scenarios]): the component on [Page] with the
      registry of the specification's concrete scenario; the scenario
      evaluated by [vm_compute], a run on a page that other code uses,
      and the general theorems applied at these worlds.
    - [TwoSelectors] (module [TwoSelectors]): two instances side by side
      on a page that other code uses: the user opens the first and switches
      to the second; the runs evaluated, and the theorems of [Instances]
      and [Together] applied to them.

    ** How the model corresponds to the code

    - Two kinds of definitions are kept apart.  The definitions of
      [ModelSelect], [Registry.currentModel], [Icons] and
      [Component.ModelSelect_component] translate lines of the two source
      files; each says which.  The definitions of [Jsx], [Browser],
      [Runtime], [Hooks.useCallback] and the hooks of [Component], of
      [Shared], [Multi] and [Instances] model what is not in the
      fragment: React (hooks, commit, effects, event dispatch), the
      browser (timers, listeners, the event loop, [Node.contains]) and
      other code on the page.  They run the translated functions; they
      translate no line of the sources.
    - A function of the component is a Rocq function of the values its
      closure captures.  [handleToggle] captures [isOpen] of the render that
      created it (it calls [setIsOpen(!isOpen)], not an updater function),
      so a [Fiber] keeps the rendered [isOpen] apart from the queue
      [updates], and the closure [ToggleClosure] in the committed tree
      carries the former.
    - A handler returns its statements as commands, in order; [exec]
      interprets them: [setIsOpen(v)] appends [v] to [updates], a call of
      [onChange] is recorded on the trace, [stopPropagation] ends the
      dispatch of the click ([dispatch]).
    - The life cycle of [Runtime] builds the [Fiber] from [render] and
      [effect] directly, without the hook calls; [Component] shows that
      it is what the hooks, called in the order of the source, leave in
      React's cells ([life_cycle_runs_component]).
    - A render takes the last queued value ([next_isOpen]); refs are
      written at commit ([committed]); passive effects run after commit as
      a step of their own ([flush_effects]: the cleanup of the last run,
      then the effect body, when [isOpen] differs from the last run's), and
      are flushed before the next render.
    - The closure [handleClickOutside], which [addEventListener] and
      [removeEventListener] compare by identity, is named by a number taken
      from the counter [next_closure] of the world; a timer is named by the
      id [setTimeout] returns.
    - DOM nodes are paths in the document tree (lists of child indexes);
      [a.contains(b)] is "[a] is a prefix of [b]".  The component is mounted
      at a path [root]; the node of the element at path [p] of the rendered
      tree is [root ++ p].
    - What the component does to the outside world is recorded in the trace
      ([Output]): a call of [onChange], a click that leaves the component
      without having been stopped, a render that throws.
    - With several instances, each has its own fiber, closure counter and
      trace and is mounted at its own path [root j]; a closure on the page
      is the pair of who created it (an instance, or other code) and the
      closure's number there, the identity [removeEventListener] compares.
      An instance calls the page under its own name and can name no
      closure of another; only [clearTimeout] takes a bare number.  An
      instance number names one mount: a component mounted again at the
      same place is a new number with the same [root].

    ** What the theorems show

    - [Models]: [currentModel] returns the first entry with the selected id,
      falls back to the first entry when there is none, and is undefined
      exactly for an empty registry.
    - [ModelSelectFacts]: [handleClickOutside] on every branch (a lemma);
      the cleanup undoes the effect on a page shared with other code,
      before and after the timer has fired; the
      shape of the rendered tree: the dropdown is present exactly when
      [isOpen], its rows are the registry in order, a row is marked exactly
      when its id is [value], the button shows the fallback label, and
      render throws exactly when the registry is empty.
    - [Hooks]: memoising the handlers is invisible: in every sequence of
      renders the component with its [useCallback] cells returns what
      [render] returns, and the handlers keep their identity while their
      dependencies do.
    - [Component]: in the first and in every later render the function
      component returns what [mount] and [rerender_with] render and
      leaves the store of the fiber they commit, and React's run of the
      effect after the commit is [flush_effects].
    - [Icons]: lemmas only (the icons carry no handler and paint with
      [currentColor]); the icons are constants, so nothing is claimed of
      them beyond their definitions.
    - [Invariant]: [wf] holds in every reachable world; hence at most one
      timer or listener of the component exists, a registered listener is
      the one the stored cleanup removes, a press while the timer is
      pending does nothing, a closed or unmounted component holds nothing
      in the browser, and an unmounted component is inert.
    - [Independence]: the behaviour does not depend on the page: the same
      events on any two implementations of [Surface] lead to worlds that
      differ in timer ids at most.
    - [Frame]: on a shared page the invariant holds whatever other code
      does; the component changes no listener and no timer of other code
      (its cleanup clears only the id [setTimeout] gave it); and a run on
      the shared page is, for the component, the run of its own events on
      a page of its own.
    - [Morphism]: a step on the image of a page is the image of the step.
    - [Instances]: every step of the document is, for each instance, a run
      on its shared page in which the other instances do what other code
      may do (what an instance guarantees in [Frame] is what the others
      rely on).  Hence the invariant holds for every instance in every
      reachable document, and an instance behaves as it does alone on a
      page, whatever happens to the others.
    - [Together]: each instance implements the specification's machine
      on the inputs it sees ([document_refines]); a step of which
      an instance sees nothing (of React on another instance, of the event
      loop, of other code) and a click outside it change nothing of it
      ([instances_frame]); the instances change no timer and no listener
      of other code ([instances_keep_elsewhere]); a press outside an
      instance, on another one say, closes it; the page never holds more
      timers and listeners of instances than there are open instances
      ([page_bounded]); unmounting every instance leaves the page to
      other code ([unmount_all_releases]); and every mounted instance can
      be closed: the event loop drains the queue in as many turns as
      timers are pending, after which a press outside closes it
      ([instance_can_close]).
    - [Behaviour]: a click on the trigger toggles and calls nothing; a click
      on a row calls [onChange] once with that row's id and closes; a press
      outside closes, a press inside does not; the timer registers the
      listener; two clicks before a render toggle once; a render with new
      props shows the new selection and keeps the state; only clicks add
      to the trace.
    - [Spec]: every event followed by [settle] is the specification's
      transition on the corresponding input, with the same calls of the
      callback; so is every such run from the first render; and a mounted
      component can always be brought to the closed state.
    - [Strict]: running the cleanup and the effect once more leaves the
      component at rest, open or closed as it was, and tells the owner
      nothing; an open dropdown is back in the turn after its opening and
      its detector is live again after the next turn
      ([reconnect_rearms]); the double run of the effect at the first
      mount under StrictMode is invisible ([strict_mount_same]).
    - [Bounds]: a click adds at most two entries to the trace and one call
      of [onChange], nothing else adds any; left alone the widget comes
      to rest: every render, effect flush and turn of the event loop that
      changes the world lowers [pending_work], which is at most 7 in a
      reachable world, and React's schedule (render, flush, one turn)
      leaves none ([comes_to_rest]).

    ** Bounds

    Nothing is bounded: the registry is any list, the document any set of
    paths, runs any length, the instances and the entries of other code
    any number.  No definition uses fuel: every function is structurally
    recursive (on the registry, on a path, on a tree or on the event
    list), and [step] is total.  The one count in a statement is the
    number of turns in [Together.close_plan], the length of the timer
    queue: the queue is first in, first out, so that many turns run every
    timer that was pending ([turns_drain]).  The weights of
    [Bounds.pending_work] (4 for queued updates, 2 for an effect that is
    due, 1 for each pending timer) are the least for which every step
    lowers it: a render may make the effect due and leave a timer pending
    (2 + 1 < 4), the run of the effect may set one timer (1 < 2).

    ** Not modelled

    The layout and CSS of the rendered elements beyond the attribute values
    the source writes, and what the icons of Icons.tsx draw (their path
    data is kept as the strings the source writes); the [Claude.Color] icon component of [@lobehub/icons]
    (kept as an opaque component reference); the concrete entries of
    [AVAILABLE_MODELS] (the registry is a parameter).  Instances of the
    component nested in one another do not occur (the component renders no
    children).  Other code on the page is modelled by what it does to the
    timer queue and to the listeners ([Shared.foreign_op] beside one
    instance in [Frame], [Multi.elsewhere_op] beside several in
    [Instances]); it is assumed to clear only timers it has set, and what
    its callbacks compute is not modelled (they do not reach the
    component).  The model does not keep two mounted instances from
    having the same [root]; the theorems hold for any placement.
    React's scheduling priorities are not modelled: the model allows any
    interleaving of events with renders and effect flushes, of which
    React's is one, and the theorems of [Behaviour] and [Spec] are stated
    for the synchronous one.  [Runtime.reconnect] is not an event of
    [step]: the theorems on reachable worlds are about runs without it,
    and [Strict] shows that it preserves the invariant they rest on.
    [Surface] has no law that [setTimeout] returns an id that is not
    pending: that is a property of the states a page goes through (the
    counter of [Page] and of the shared pages is above every pending id,
    [Browser.page_ok]), and the one theorem that needs it of an arbitrary
    page takes it as a hypothesis ([effect_then_cleanup]).  The owner's
    [onChange] is not run: its call is recorded on the trace. *)

From stdpp Require Export base tactics option list sets strings.

(** ** Results of code that can throw *)

Inductive JsError : Type :=
| TypeError (msg : string).

Inductive Result (A : Type) : Type :=
| Ok (a : A)
| Throw (e : JsError).

Arguments Ok {A} a.
Arguments Throw {A} e.

#[export] Instance JsError_eq_dec : EqDecision JsError.
Proof. solve_decision. Defined.

#[export] Instance Result_eq_dec `{EqDecision A} : EqDecision (Result A).
Proof. solve_decision. Defined.

#[export] Instance Result_ret : MRet Result := λ A a, Ok a.

#[export] Instance Result_bind : MBind Result := λ A B f r,
  match r with
  | Ok a => f a
  | Throw e => Throw e
  end.

#[export] Instance Result_fmap : FMap Result := λ A B f r,
  match r with
  | Ok a => Ok (f a)
  | Throw e => Throw e
  end.

Definition is_Ok {A} (r : Result A) : bool :=
  match r with
  | Ok _ => true
  | Throw _ => false
  end.

(** Reading a property of a value that may be [undefined]: [x.f] throws a
    [TypeError] when [x] is [undefined]. *)
Definition js_get {A B} (what : string) (f : A → B) (x : option A) : Result B :=
  match x with
  | Some a => Ok (f a)
  | None => Throw (TypeError what)
  end.

(** ** Arrays and truthiness *)

(** [Array.prototype.find]: the first element that satisfies the test, or
    [undefined]. *)
Fixpoint js_find {A} (p : A → bool) (l : list A) : option A :=
  match l with
  | [] => None
  | x :: l' => if p x then Some x else js_find p l'
  end.

(** [a || b] where [a] is an object or [undefined]: objects are truthy. *)
Definition js_or {A} (a b : option A) : option A :=
  match a with
  | Some x => Some x
  | None => b
  end.

(** [c && x] as a JSX child: [x] when [c] holds, the value [false]
    otherwise. *)
Definition js_and {A} (c : bool) (x : A) : option A :=
  if c then Some x else None.

Declare Scope js_scope.
Delimit Scope js_scope with js.
Infix "|||" := js_or (at level 50, left associativity) : js_scope.
Infix "&&&" := js_and (at level 40, left associativity) : js_scope.
Open Scope js_scope.

(** ** Hints and tactics *)

Create HintDb ui discriminated.
Create Rewrite HintDb ui.

(** Case analysis on every boolean test, decision and match in the goal,
    then the closing tactic. *)
Ltac ui_cases :=
  repeat first
    [ progress simplify_eq/=
    | case_bool_decide
    | case_decide
    | case_match ];
  try done.

(** A property of every element of a list written out: one goal per
    element. *)
Ltac Forall_elems := repeat first [apply Forall_nil_2 | apply Forall_cons_2].

(** Split every boolean variable of the context. *)
Ltac destruct_bools :=
  repeat match goal with
  | b : bool |- _ => destruct b
  end.

(** ** Facts on [js_find], [js_or] and [js_and] *)

Section js_facts.
Context {A : Type}.
Implicit Types (p : A → bool) (l : list A) (x : A).

Lemma js_find_Some p l x :
  js_find p l = Some x ↔
  ∃ pre post, l = pre ++ x :: post ∧ p x = true ∧ Forall (λ y, p y = false) pre.
Proof.
  revert x. induction l as [|y l IH]; intros x; simpl.
  - split; [done|]. intros ([|??] & ? & ? & _); done.
  - destruct (p y) eqn:Hy.
    + split.
      * intros [= ->]. by exists [], l.
      * intros ([|z pre] & post & Hl & Hx & Hpre); simplify_eq/=; [done|].
        apply Forall_cons in Hpre as [??]. congruence.
    + rewrite IH. split.
      * intros (pre & post & -> & ? & ?). exists (y :: pre), post.
        split_and!; [done..|]. by constructor.
      * intros ([|z pre] & post & Hl & Hx & Hpre); simplify_eq/=; [congruence|].
        apply Forall_cons in Hpre as [??]. by exists pre, post.
Qed.

Lemma js_find_None p l :
  js_find p l = None ↔ Forall (λ y, p y = false) l.
Proof.
  induction l as [|y l IH]; simpl.
  - split; [constructor|done].
  - destruct (p y) eqn:Hy.
    + split; [done|]. intros [??]%Forall_cons. congruence.
    + rewrite IH. split; [by constructor|]. by intros [??]%Forall_cons.
Qed.

Lemma js_find_elem_of p l x : js_find p l = Some x → x ∈ l ∧ p x = true.
Proof.
  intros (pre & post & -> & ? & _)%js_find_Some. split; [|done].
  apply elem_of_app. right. by left.
Qed.

Lemma js_find_is_Some p l : is_Some (js_find p l) ↔ ∃ x, x ∈ l ∧ p x = true.
Proof.
  split.
  - intros [x Hx]. exists x. by apply js_find_elem_of.
  - intros (x & Hin & Hx). destruct (js_find p l) eqn:Hf; [done|].
    apply js_find_None in Hf. rewrite Forall_forall in Hf.
    specialize (Hf x Hin). congruence.
Qed.

Lemma js_or_Some_l (a : A) (b : option A) : Some a ||| b = Some a.
Proof. done. Qed.

Lemma js_or_None_l (b : option A) : None ||| b = b.
Proof. done. Qed.

Lemma js_or_is_None (a b : option A) : a ||| b = None ↔ a = None ∧ b = None.
Proof. destruct a; simpl; naive_solver. Qed.

Lemma js_and_Some c x y : c &&& x = Some y ↔ c = true ∧ x = y.
Proof. destruct c; simpl; naive_solver. Qed.

Lemma js_and_None c x : c &&& x = None ↔ c = false.
Proof. destruct c; simpl; naive_solver. Qed.

End js_facts.

#[export] Hint Rewrite @js_or_Some_l @js_or_None_l : ui.
#[export] Hint Resolve js_find_elem_of : ui.

(** ** Facts on results *)

Lemma js_get_Ok {A B} what (f : A → B) (x : option A) (b : B) :
  js_get what f x = Ok b ↔ ∃ a, x = Some a ∧ f a = b.
Proof. destruct x; simpl; naive_solver. Qed.

Lemma js_get_Throw {A B} what (f : A → B) (x : option A) e :
  js_get what f x = Throw e ↔ x = None ∧ e = TypeError what.
Proof. destruct x; simpl; naive_solver. Qed.

Lemma is_Ok_true {A} (r : Result A) : is_Ok r = true ↔ ∃ a, r = Ok a.
Proof. destruct r; simpl; naive_solver. Qed.

Lemma Result_bind_Ok {A B} (f : A → Result B) (r : Result A) (b : B) :
  r ≫= f = Ok b ↔ ∃ a, r = Ok a ∧ f a = Ok b.
Proof. destruct r; simpl; naive_solver. Qed.

(** ** Facts on lists shared by the components *)

Section list_facts.
Context {A : Type}.
Implicit Types (l k : list A) (x y : A).

Lemma fmap_lookup_Some {B} (f : A → B) l i (b : B) :
  (f <$> l) !! i = Some b ↔ ∃ a, l !! i = Some a ∧ b = f a.
Proof. rewrite list_lookup_fmap. destruct (l !! i); simpl; naive_solver. Qed.

Lemma head_lookup_0 l : head l = l !! 0.
Proof. by destruct l. Qed.

Lemma filter_Forall_id (P : A → Prop) `{∀ x, Decision (P x)} l :
  Forall P l → filter P l = l.
Proof.
  induction 1 as [|y l Hy _ IH]; [done|].
  rewrite filter_cons_True by done. by rewrite IH.
Qed.

Lemma filter_id_not_elem_of `{EqDecision A} l x :
  x ∉ l → filter (λ y, y ≠ x) l = l.
Proof.
  intros Hx. apply filter_Forall_id, Forall_forall. by intros y Hy ->.
Qed.

Lemma not_elem_of_filter_ne `{EqDecision A} l x : x ∉ filter (λ y, y ≠ x) l.
Proof. rewrite list_elem_of_filter. naive_solver. Qed.

Lemma prefix_of_app_cons_r l k x : l ++ [x] `prefix_of` k → l `prefix_of` k.
Proof. apply prefix_app_l. Qed.

End list_facts.

#[export] Hint Resolve not_elem_of_filter_ne : ui.

(** Filtering the image of a list is the image of filtering it. *)
Lemma filter_fmap {A B : Type} (f : A → B) (P : B → Prop) `{!∀ y, Decision (P y)}
    (l : list A) :
  filter P (f <$> l) = f <$> filter (λ x, P (f x)) l.
Proof.
  induction l as [|x l IH]; [done|]. rewrite fmap_cons, !filter_cons.
  destruct (decide (P (f x))); by rewrite ?fmap_cons, IH.
Qed.

(** A map that is injective on what a list holds determines the list. *)
Lemma fmap_inj_on {A B : Type} (f : A → B) (P : A → Prop) (l1 l2 : list A) :
  (∀ x y, P x → P y → f x = f y → x = y) →
  Forall P l1 → Forall P l2 → f <$> l1 = f <$> l2 → l1 = l2.
Proof.
  intros Hf. revert l2. induction l1 as [|x l1 IH]; intros [|y l2] H1 H2 Heq; try done.
  apply Forall_cons_1 in H1 as [Hx H1], H2 as [Hy H2]. simplify_eq/=.
  f_equal; [by apply Hf|by apply IH].
Qed.

(** A list in which nothing occurs twice. *)
Lemma NoDup_filter_length {A : Type} `{EqDecision A} (l : list A) :
  (∀ x, length (filter (λ y, y = x) l) ≤ 1) → NoDup l.
Proof.
  induction l as [|a l IH]; intros Hl; [by apply NoDup_nil|]. apply NoDup_cons. split.
  - intros Ha. specialize (Hl a). rewrite filter_cons_True in Hl by done. simpl in Hl.
    assert (a ∈ filter (λ y, y = a) l) as Hin by by apply list_elem_of_filter.
    destruct (filter (λ y, y = a) l); [by apply elem_of_nil in Hin|simpl in Hl; lia].
  - apply IH. intros x. specialize (Hl x). rewrite filter_cons in Hl.
    destruct (decide (a = x)); simpl in Hl; lia.
Qed.

(** Filtering by a weaker predicate first changes nothing. *)
Lemma filter_filter_l {A : Type} (P Q : A → Prop)
    `{!∀ x, Decision (P x)} `{!∀ x, Decision (Q x)} (l : list A) :
  (∀ x, P x → Q x) → filter P (filter Q l) = filter P l.
Proof.
  intros HPQ. rewrite list_filter_filter. apply list_filter_iff. naive_solver.
Qed.

(** A filter that drops nothing is the identity. *)
Lemma filter_length_same {A : Type} (P : A → Prop) `{!∀ x, Decision (P x)} (l : list A) :
  length l ≤ length (filter P l) → filter P l = l.
Proof.
  induction l as [|x l IH]; [done|]. rewrite filter_cons.
  pose proof (length_filter P l). destruct (decide (P x)); simpl; intros Hlen.
  - f_equal. apply IH. lia.
  - lia.
Qed.

(** ** [omap] and [filter] *)

Section omap.
Context {A B : Type} (f : A → option B).
Implicit Types (l : list A).

Lemma omap_cons x l :
  omap f (x :: l) = match f x with Some y => y :: omap f l | None => omap f l end.
Proof. done. Qed.

(** What [omap] keeps and what it drops. *)
Lemma length_omap_filter l :
  length l = length (omap f l) + length (filter (λ x, f x = None) l).
Proof.
  induction l as [|x l IH]; [done|]. rewrite omap_cons, filter_cons.
  destruct (f x) eqn:Hx; case_decide; simplify_eq/=; lia.
Qed.

Lemma length_filter_omap `{EqDecision B} (y : B) l :
  length (filter (λ y', y' = y) (omap f l)) = length (filter (λ x, f x = Some y) l).
Proof.
  induction l as [|x l IH]; [done|]. rewrite omap_cons, (filter_cons _ x).
  destruct (f x) as [y'|] eqn:Hx; rewrite ?filter_cons;
    repeat case_decide; simplify_eq/=; by rewrite ?IH.
Qed.

(** Filtering before or after [omap], by predicates that agree on what [f]
    maps to what. *)
Lemma omap_filter (P : A → Prop) (Q : B → Prop)
    `{!∀ x, Decision (P x)} `{!∀ y, Decision (Q y)} l :
  (∀ x y, f x = Some y → P x ↔ Q y) →
  omap f (filter P l) = filter Q (omap f l).
Proof.
  intros HPQ. induction l as [|x l IH]; [done|].
  rewrite filter_cons, (omap_cons x l).
  destruct (decide (P x)) as [HP|HP]; rewrite ?omap_cons;
    destruct (f x) as [y|] eqn:Hx; rewrite ?filter_cons; try done.
  - rewrite decide_True by by apply (HPQ x). by rewrite IH.
  - rewrite decide_False by by rewrite <-(HPQ x). done.
Qed.

(** A filter that drops only what [f] drops anyway. *)
Lemma omap_filter_None (P : A → Prop) `{!∀ x, Decision (P x)} l :
  (∀ x, ¬ P x → f x = None) → omap f (filter P l) = omap f l.
Proof.
  intros HP. induction l as [|x l IH]; [done|].
  rewrite filter_cons, (omap_cons x l).
  destruct (decide (P x)) as [Hx|Hx]; [by rewrite omap_cons, IH|].
  by rewrite (HP x Hx).
Qed.

End omap.
