(* ===== verification/Jsx.v ===== *)
(** * React elements as data

    What a JSX expression evaluates to: an element with a tag, props and
    children, a reference to another component, a text child, or the value
    [false] that [cond && <x/>] leaves among the children (React renders
    nothing for it).  The types are parameterised by the type [H] of event
    handlers (the closures passed as [onClick]) and the type [R] of refs, so
    that the same trees serve a component with handlers (ModelSelect.tsx)
    and plain markup (Icons.tsx).

    On top of the trees: the DOM children of an element (the children that
    produce a node), the node at a path, the [onClick] handlers met on the
    way from the root to a target (in the order a click bubbles through
    them, innermost first), and the path of the element a ref is attached
    to. *)

From S2P Require Import Prelude.

Module Jsx.

(** A value of a [style] object: a string (['4px']) or a number
    ([10000]). *)
Inductive StyleVal : Type :=
| SStr (s : string)
| SNum (n : N).

(** The value of a prop. *)
Inductive PropVal (H R : Type) : Type :=
| PStr (s : string)
| PNum (n : N)
| PStyle (decls : list (string * StyleVal))
| PHandler (h : H)
| PRef (r : R).

Arguments PStr {H R} s.
Arguments PNum {H R} n.
Arguments PStyle {H R} decls.
Arguments PHandler {H R} h.
Arguments PRef {H R} r.

(** A React element. *)
Inductive VNode (H R : Type) : Type :=
| Elem (tag : string) (props : list (string * PropVal H R)) (children : list (VNode H R))
| Comp (name : string) (props : list (string * PropVal H R))
| Text (s : string)
| Falsy.

Arguments Elem {H R} tag props children.
Arguments Comp {H R} name props.
Arguments Text {H R} s.
Arguments Falsy {H R}.

(** A path from a node to one of its descendants: child indexes, outermost
    first. *)
Abbreviation Path := (list nat).

Section jsx.
Context {H R : Type}.
Implicit Types (v c : VNode H R) (cs : list (VNode H R)).
Implicit Types (props : list (string * PropVal H R)) (p q : Path).

(** [{c && x}] as a child. *)
Definition child (o : option (VNode H R)) : VNode H R :=
  match o with
  | Some v => v
  | None => Falsy
  end.

(** The props of an element or component reference. *)
Definition Elem_props v : list (string * PropVal H R) :=
  match v with
  | Elem _ props _ | Comp _ props => props
  | Text _ | Falsy => []
  end.

Definition is_node v : bool :=
  match v with
  | Falsy => false
  | _ => true
  end.

(** The children that produce a DOM node, in order: [false] produces
    none. *)
Definition dom_children cs : list (VNode H R) := filter (λ c, is_node c) cs.

(** The value of the prop [key], if it is set (the last setting wins, as in
    an object literal). *)
Definition get_prop (key : string) props : option (PropVal H R) :=
  snd <$> js_find (λ kv, bool_decide (kv.1 = key)) (reverse props).

(** The [onClick] handler of an element, as a list of zero or one. *)
Definition on_click props : list H :=
  match get_prop "onClick" props with
  | Some (PHandler h) => [h]
  | _ => []
  end.

Definition has_ref `{EqDecision R} (r : R) props : bool :=
  match get_prop "ref" props with
  | Some (PRef r') => bool_decide (r' = r)
  | _ => false
  end.

(** The node at path [p] below [v].  What a referenced component renders is
    not known here: every path into it stays at the component. *)
Fixpoint node_at v p {struct p} : option (VNode H R) :=
  match p with
  | [] => if is_node v then Some v else None
  | i :: p' =>
      match v with
      | Elem _ _ cs => dom_children cs !! i ≫= λ c, node_at c p'
      | Comp _ _ => Some v
      | Text _ | Falsy => None
      end
  end.

(** The [onClick] handlers of the elements from [v] down to the target at
    [p], outermost first; [None] when [p] is no node below [v]. *)
Fixpoint handlers_to v p {struct p} : option (list H) :=
  match v with
  | Elem _ props cs =>
      match p with
      | [] => Some (on_click props)
      | i :: p' =>
          dom_children cs !! i ≫= λ c,
          handlers_to c p' ≫= λ hs, Some (on_click props ++ hs)
      end
  | Comp _ _ => Some []
  | Text _ => match p with [] => Some [] | _ => None end
  | Falsy => None
  end.

(** The handlers in the order a click on the target at [p] reaches them:
    the target's own first, the root's last. *)
Definition bubble v p : option (list H) := reverse <$> handlers_to v p.

(** Search of the children for [find], counting only the children that
    produce a node. *)
Fixpoint find_in_children (find : VNode H R → option Path) cs (i : nat) : option Path :=
  match cs with
  | [] => None
  | c :: cs' =>
      if is_node c then
        match find c with
        | Some p => Some (i :: p)
        | None => find_in_children find cs' (S i)
        end
      else find_in_children find cs' i
  end.

(** The path of the first element (in document order) that carries
    [ref={r}]: the node React stores in [r.current] at commit. *)
Fixpoint find_ref `{EqDecision R} (r : R) v : option Path :=
  match v with
  | Elem _ props cs =>
      if has_ref r props then Some []
      else find_in_children (find_ref r) cs 0
  | Comp _ _ | Text _ | Falsy => None
  end.

(** Every [onClick] handler of the tree, in document order. *)
Fixpoint handlers_of v : list H :=
  match v with
  | Elem _ props cs => on_click props ++ flat_map handlers_of cs
  | Comp _ _ | Text _ | Falsy => []
  end.

(** The tags of the elements of the tree, in document order. *)
Fixpoint tags_of v : list string :=
  match v with
  | Elem tag _ cs => tag :: flat_map tags_of cs
  | Comp _ _ | Text _ | Falsy => []
  end.

(** ** The induction principle of the nested type *)

Lemma VNode_ind' (P : VNode H R → Prop) :
  (∀ tag props cs, Forall P cs → P (Elem tag props cs)) →
  (∀ name props, P (Comp name props)) →
  (∀ s, P (Text s)) →
  P Falsy →
  ∀ v, P v.
Proof.
  intros HElem HComp HText HFalsy.
  fix IH 1. intros [tag props cs|name props|s|]; [|done..].
  apply HElem. induction cs as [|c cs IHcs]; constructor; [apply IH|done].
Qed.

(** ** Children and paths *)

Lemma dom_children_all_nodes cs : Forall (λ c, is_node c = true) (dom_children cs).
Proof.
  unfold dom_children. apply Forall_forall. intros c [Hc _]%list_elem_of_filter.
  by destruct (is_node c).
Qed.

Lemma dom_children_cons c cs :
  dom_children (c :: cs) = if is_node c then c :: dom_children cs else dom_children cs.
Proof.
  unfold dom_children. destruct (is_node c) eqn:Hc.
  - rewrite filter_cons_True; [done|by rewrite Hc].
  - rewrite filter_cons_False; [done|]. rewrite Hc. by intros [].
Qed.

Lemma dom_children_id cs :
  Forall (λ c, is_node c = true) cs → dom_children cs = cs.
Proof.
  induction 1 as [|c cs Hc _ IH]; [done|].
  by rewrite dom_children_cons, Hc, IH.
Qed.

Lemma dom_children_app cs1 cs2 :
  dom_children (cs1 ++ cs2) = dom_children cs1 ++ dom_children cs2.
Proof. apply filter_app. Qed.

Lemma dom_children_snoc_Falsy cs : dom_children (cs ++ [Falsy]) = dom_children cs.
Proof. rewrite dom_children_app. simpl. by rewrite app_nil_r. Qed.

Lemma dom_children_lookup_is_node cs i c :
  dom_children cs !! i = Some c → is_node c = true.
Proof.
  intros Hi. eapply Forall_lookup_1 in Hi; [|apply dom_children_all_nodes]. done.
Qed.

Lemma node_at_nil v : is_node v = true → node_at v [] = Some v.
Proof. simpl. by intros ->. Qed.

Lemma node_at_is_node v p c : node_at v p = Some c → is_node c = true.
Proof.
  revert v. induction p as [|i p IH]; intros v; simpl.
  - destruct (is_node v) eqn:Hv; naive_solver.
  - destruct v as [tag props cs| | |]; simpl; [|naive_solver..].
    destruct (dom_children cs !! i) as [c'|]; simpl; [apply IH|done].
Qed.

(** A target is a node of the tree exactly when a click on it has a
    (possibly empty) list of handlers to run. *)
Lemma handlers_to_is_Some v p : is_Some (handlers_to v p) ↔ is_Some (node_at v p).
Proof.
  revert v. induction p as [|i p IH]; intros v.
  - destruct v; simpl; split; intros [??]; done.
  - destruct v as [tag props cs| | |]; simpl; [|split; intros [??]; done..].
    destruct (dom_children cs !! i) as [c|]; simpl; [|split; intros [??]; done].
    rewrite <-IH. destruct (handlers_to c p); simpl; split; intros [??]; done.
Qed.

Lemma handlers_to_Elem_nil tag props cs :
  handlers_to (Elem tag props cs) [] = Some (on_click props).
Proof. done. Qed.

Lemma handlers_to_Elem_cons tag props cs i p :
  handlers_to (Elem tag props cs) (i :: p) =
    dom_children cs !! i ≫= λ c, handlers_to c p ≫= λ hs, Some (on_click props ++ hs).
Proof. done. Qed.

(** Bubbling passes through the ancestors: the handlers met down to a node
    are a prefix of those met down to any node below it. *)
Lemma handlers_to_app v p q hs :
  handlers_to v (p ++ q) = Some hs →
  ∃ hs1, handlers_to v p = Some hs1 ∧ hs1 `prefix_of` hs.
Proof.
  revert v hs. induction p as [|i p IH]; intros v hs Hq; simpl in *.
  - destruct v as [tag props cs| | |], q as [|j q]; simplify_option_eq;
      (eexists; split; [done|]); first [reflexivity | by eexists].
  - destruct v as [tag props cs| | |]; simplify_eq/=;
      [|eexists; split; [done|apply prefix_nil]].
    destruct (dom_children cs !! i) as [c|]; simplify_eq/=.
    destruct (handlers_to c (p ++ q)) as [hs'|] eqn:Hc; simplify_eq/=.
    apply IH in Hc as (hs1 & -> & Hpre). simpl.
    eexists; split; [done|]. by apply prefix_app.
Qed.

(** A click runs only handlers that occur in the tree, each at most as
    often as it occurs, outermost elements first. *)
Lemma handlers_of_child_sublist c cs :
  c ∈ cs → handlers_of c `sublist_of` flat_map handlers_of cs.
Proof.
  induction 1 as [c cs|c c' cs _ IH]; simpl.
  - by apply sublist_inserts_r.
  - by apply sublist_inserts_l.
Qed.

Lemma handlers_to_sublist v p hs :
  handlers_to v p = Some hs → hs `sublist_of` handlers_of v.
Proof.
  revert v hs. induction p as [|i p IH]; intros v hs Hp;
    destruct v as [tag props cs| | |]; simplify_eq/=;
    try first [reflexivity | by apply sublist_inserts_r].
  destruct (dom_children cs !! i) as [c|] eqn:Hi; simplify_eq/=.
  destruct (handlers_to c p) as [hs'|] eqn:Hc; simplify_eq/=.
  apply IH in Hc. apply list_elem_of_lookup_2, list_elem_of_filter in Hi as [_ Hi].
  apply sublist_app; [done|]. etrans; [done|]. by apply handlers_of_child_sublist.
Qed.

Lemma handlers_to_inert v p hs :
  handlers_of v = [] → handlers_to v p = Some hs → hs = [].
Proof.
  intros Hv Hp%handlers_to_sublist. rewrite Hv in Hp. by apply sublist_nil_r.
Qed.

(** In a tree whose only handler sits on its root, a click anywhere in the
    tree runs exactly that handler. *)
Lemma handlers_to_root_only v p hs h :
  handlers_of v = [h] → handlers_to v [] = Some [h] →
  handlers_to v p = Some hs → hs = [h].
Proof.
  intros Hall Hroot Hp.
  destruct (handlers_to_app v [] p hs Hp) as (hs1 & Hhs1 & [k ->]).
  assert (hs1 = [h]) as -> by congruence.
  apply handlers_to_sublist in Hp. rewrite Hall in Hp.
  apply sublist_length in Hp. destruct k; [done|]. simpl in Hp. lia.
Qed.

(** ** Refs *)

Section refs.
Context `{EqDecision R}.

Lemma find_in_children_None (find : VNode H R → option Path) cs i :
  Forall (λ c, find c = None) cs → find_in_children find cs i = None.
Proof.
  intros Hcs. revert i. induction Hcs as [|c cs Hc _ IH]; intros i; simpl; [done|].
  rewrite Hc. by destruct (is_node c).
Qed.

Lemma find_in_children_Some (find : VNode H R → option Path) cs i q :
  find_in_children find cs i = Some q →
  ∃ j c p, q = (i + j) :: p ∧ dom_children cs !! j = Some c ∧ find c = Some p.
Proof.
  revert i. induction cs as [|c cs IH]; intros i; simpl; [done|].
  rewrite dom_children_cons. destruct (is_node c) eqn:Hc; [|apply IH].
  destruct (find c) as [p|] eqn:Hfind.
  - intros [= <-]. exists 0, c, p. by rewrite Nat.add_0_r.
  - intros (j & c' & p & -> & ? & ?)%IH. exists (S j), c', p.
    split_and!; [f_equal; lia|done..].
Qed.

(** The path [find_ref] returns leads to an element that carries the
    ref. *)
Lemma find_ref_sound (r : R) v p :
  find_ref r v = Some p →
  ∃ tag props cs, node_at v p = Some (Elem tag props cs) ∧ has_ref r props = true.
Proof.
  revert p. induction v as [tag props cs IH| | |] using VNode_ind'; intros p; simpl; [|done..].
  destruct (has_ref r props) eqn:Href.
  - intros [= <-]. by exists tag, props, cs.
  - intros (j & c & q & -> & Hj & Hq)%find_in_children_Some. simpl. rewrite Hj. simpl.
    assert (c ∈ cs) as Hc.
    { apply list_elem_of_lookup_2 in Hj. by apply list_elem_of_filter in Hj as [_ ?]. }
    rewrite Forall_forall in IH. by apply IH.
Qed.

End refs.

End jsx.

Arguments dom_children {H R} cs : simpl never.
Arguments on_click {H R} props : simpl never.

End Jsx.
