(* ===== verification/Icons.v ===== *)
(** * The icons of Icons.tsx

    [BackIcon], [StopIcon] and [SendIcon] are components without props or
    state: each returns a fixed [svg] element.  They are modelled as the
    element they return, for any type of handlers and refs (they carry
    none). *)

From S2P Require Import Prelude Jsx.
Import Jsx.

Module Icons.

Section icons.
Context {H R : Type}.

(** An attribute written as a string literal. *)
Definition attr (key value : string) : string * PropVal H R := (key, PStr value).

(** The attributes [svg] has in all three icons, after its size. *)
Definition svg_frame : list (string * PropVal H R) :=
  [attr "viewBox" "0 0 16 16"; attr "fill" "none";
   attr "xmlns" "http://www.w3.org/2000/svg"].

(** The stroke of every [path] of Icons.tsx. *)
Definition stroke : list (string * PropVal H R) :=
  [attr "stroke" "currentColor"; attr "strokeWidth" "1.5";
   attr "strokeLinecap" "round"; attr "strokeLinejoin" "round"].

Definition path (d : string) : VNode H R := Elem "path" (attr "d" d :: stroke) [].

(** The [svg] element of an icon, lines 2, 9 and 15: square, of the given
    size. *)
Definition svg_el (size : string) (shapes : list (VNode H R)) : VNode H R :=
  Elem "svg" (attr "width" size :: attr "height" size :: svg_frame) shapes.

(** The square of [StopIcon], line 10. *)
Definition stop_rect : VNode H R :=
  Elem "rect"
    [attr "x" "4"; attr "y" "4"; attr "width" "8"; attr "height" "8";
     attr "fill" "currentColor"; attr "rx" "1"] [].

Definition BackIcon : VNode H R :=
  svg_el "16" [path "M12.5 8H3.5"; path "M8 12.5L3.5 8L8 3.5"].

Definition StopIcon : VNode H R := svg_el "14" [stop_rect].

Definition SendIcon : VNode H R :=
  svg_el "16" [path "M1.5 8.5L8 2L14.5 8.5"; path "M8 14V3.5"].

Definition all_icons : list (VNode H R) := [BackIcon; StopIcon; SendIcon].

(** The icons carry no click handler. *)
Lemma icons_no_handlers : Forall (λ icon, handlers_of icon = []) all_icons.
Proof. by Forall_elems. Qed.

(** The icons have no behaviour: a click on an icon, or on any node
    inside it, finds no handler of the icon on its way, so nothing runs
    when the click bubbles. *)
Lemma icons_inert icon p :
  icon ∈ all_icons → is_Some (node_at icon p) →
  handlers_to icon p = Some [] ∧ bubble icon p = Some [].
Proof.
  intros Hicon [hs Hhs]%handlers_to_is_Some.
  pose proof icons_no_handlers as Hall. rewrite Forall_forall in Hall.
  assert (hs = []) as -> by by eapply handlers_to_inert; [apply Hall|].
  unfold bubble. by rewrite Hhs.
Qed.

(** Every icon is one [svg] element drawn in the same 16 by 16 box. *)
Lemma icons_viewBox :
  Forall (λ icon, ∃ props cs, icon = Elem "svg" props cs ∧
                  get_prop "viewBox" props = Some (PStr "0 0 16 16")) all_icons.
Proof. Forall_elems; by eexists _, _. Qed.

(** An icon draws with the colour of the surrounding text only: every
    [stroke] or [fill] other than [none] is [currentColor]. *)
Definition paints_currentColor (props : list (string * PropVal H R)) : bool :=
  match get_prop "stroke" props, get_prop "fill" props with
  | Some (PStr "currentColor"), None => true
  | None, Some (PStr "currentColor") => true
  | _, _ => false
  end.

Lemma icon_shapes_currentColor :
  Forall (λ icon, ∀ i tag props cs,
            node_at icon [i] = Some (Elem tag props cs) →
            paints_currentColor props = true ∧ cs = []) all_icons.
Proof.
  Forall_elems; intros [|[|[|i]]] tag props cs Hi;
    vm_compute in Hi; simplify_eq; by vm_compute.
Qed.

(** Every icon is one [svg] element drawn in the 16 by 16 box, and each
    shape in it is a leaf painted with [currentColor] only: the icons take
    the colour of the text around them and nothing else from outside. *)
Lemma icons_static icon :
  icon ∈ all_icons →
  (∃ props cs, icon = Elem "svg" props cs ∧
               get_prop "viewBox" props = Some (PStr "0 0 16 16")) ∧
  (∀ i tag props cs, node_at icon [i] = Some (Elem tag props cs) →
                     paints_currentColor props = true ∧ cs = []).
Proof.
  intros Hicon. split.
  - pose proof icons_viewBox as Hall. rewrite Forall_forall in Hall. by apply Hall.
  - pose proof icon_shapes_currentColor as Hall. rewrite Forall_forall in Hall. by apply Hall.
Qed.

End icons.

Lemma icons_inert_witness :
  handlers_to (H := nat) (R := nat) StopIcon [0] = Some [] ∧
  bubble (H := nat) (R := nat) StopIcon [0] = Some [].
Proof. apply (icons_inert StopIcon [0]); [unfold all_icons; set_solver|done]. Defined.

Lemma icons_static_witness :
  (∃ props cs, SendIcon (H := nat) (R := nat) = Elem "svg" props cs ∧
               get_prop "viewBox" props = Some (PStr "0 0 16 16")) ∧
  (∀ i tag props cs, node_at (H := nat) (R := nat) SendIcon [i] = Some (Elem tag props cs) →
                     paints_currentColor props = true ∧ cs = []).
Proof. apply (icons_static SendIcon). unfold all_icons. set_solver. Defined.

End Icons.
