(* ===== verification/Models.v ===== *)
(** * The option registry and the current selection

    [AVAILABLE_MODELS] is imported by ModelSelect.tsx from [../types], which
    is not part of the fragment: the registry is a parameter of every
    definition here, and [Model] follows the two fields the component reads
    ([id], [label]).  [currentModel] is line 19 of ModelSelect.tsx. *)

From S2P Require Import Prelude.

Module Registry.

(** An entry of [AVAILABLE_MODELS]: the component reads [m.id] and
    [m.label]. *)
Record Model : Type := mkModel {
  id : string;
  label : string;
}.

#[export] Instance Model_eq_dec : EqDecision Model.
Proof. solve_decision. Defined.

(** The test of line 19, [m => m.id === value]. *)
Definition has_id (value : string) (m : Model) : bool :=
  bool_decide (id m = value).

(** [AVAILABLE_MODELS.find(m => m.id === value) || AVAILABLE_MODELS[0]]:
    [None] is JavaScript's [undefined], which is what both operands give for
    an empty registry. *)
Definition currentModel (models : list Model) (value : string) : option Model :=
  js_find (has_id value) models ||| models !! 0.

(** The ids of the registry, in order. *)
Definition ids (models : list Model) : list string := id <$> models.

Section registry.
Context (models : list Model).
Implicit Types (value : string) (m : Model).

Lemma has_id_true value m : has_id value m = true ↔ id m = value.
Proof. unfold has_id. by rewrite bool_decide_eq_true. Qed.

Lemma has_id_false value m : has_id value m = false ↔ id m ≠ value.
Proof. unfold has_id. by rewrite bool_decide_eq_false. Qed.

Lemma find_None_iff value :
  js_find (has_id value) models = None ↔ value ∉ ids models.
Proof.
  rewrite js_find_None, Forall_forall. unfold ids. rewrite list_elem_of_fmap.
  setoid_rewrite has_id_false. naive_solver.
Qed.

Lemma find_None_currentModel value :
  value ∉ ids models → currentModel models value = models !! 0.
Proof.
  intros Hnot. unfold currentModel.
  apply find_None_iff in Hnot. by rewrite Hnot.
Qed.

(** When no entry of the registry has the selected id, the current model
    is the first entry of the registry (and undefined when the registry is
    empty); the caller's [value] is not changed by the lookup. *)
Lemma currentModel_fallback value :
  value ∉ ids models →
  currentModel models value = head models ∧
  (∀ m, currentModel models value = Some m → id m ≠ value).
Proof.
  intros Hnot. rewrite find_None_currentModel, head_lookup_0 by done.
  split; [done|]. intros m Hm%list_elem_of_lookup_2 <-.
  apply Hnot. unfold ids. by apply list_elem_of_fmap_2.
Qed.

(** C40: when the selected id occurs in the registry, the component shows the
    first entry that carries it: the entries before it have other ids. *)
Theorem currentModel_first_match value m :
  currentModel models value = Some m → value ∈ ids models →
  ∃ pre post, models = pre ++ m :: post ∧ id m = value ∧ value ∉ ids pre.
Proof.
  unfold currentModel. intros Hcur Hin.
  destruct (js_find (has_id value) models) as [m'|] eqn:Hfind.
  - simpl in Hcur. simplify_eq.
    apply js_find_Some in Hfind as (pre & post & -> & Hm & Hpre).
    exists pre, post. split_and!; [done|by apply has_id_true|].
    unfold ids. rewrite list_elem_of_fmap. intros (m' & -> & Hin').
    rewrite Forall_forall in Hpre. apply Hpre, has_id_false in Hin'. done.
  - apply find_None_iff in Hfind. done.
Qed.

Lemma currentModel_None_iff value :
  currentModel models value = None ↔ models = [].
Proof.
  unfold currentModel. rewrite js_or_is_None. split.
  - intros [_ Hhd]. by destruct models.
  - intros ->. done.
Qed.

(** The current model is defined exactly when the registry is not empty:
    for a non-empty registry every [value], known or not, has a model to
    display, and for an empty one none has. *)
Lemma currentModel_defined value :
  is_Some (currentModel models value) ↔ models ≠ [].
Proof.
  rewrite <-(currentModel_None_iff value), <-not_eq_None_Some.
  split; intros Hne; done.
Qed.

Lemma currentModel_elem_of value m :
  currentModel models value = Some m → m ∈ models.
Proof.
  unfold currentModel.
  destruct (js_find (has_id value) models) as [m'|] eqn:Hfind; simpl.
  - intros [= <-]. by apply js_find_elem_of in Hfind as [??].
  - apply list_elem_of_lookup_2.
Qed.

(** With unique ids, looking an entry up by its own id gives that entry
    back. *)
Lemma currentModel_own_id m :
  NoDup (ids models) → m ∈ models → currentModel models (id m) = Some m.
Proof.
  intros Hnd Hin. unfold currentModel.
  destruct (js_find (has_id (id m)) models) as [m'|] eqn:Hfind; simpl.
  - apply js_find_elem_of in Hfind as [Hin' Hid%has_id_true].
    f_equal. apply list_elem_of_lookup in Hin as [i Hi], Hin' as [j Hj].
    assert (i = j) as ->; [|congruence].
    eapply NoDup_lookup; [done| |]; unfold ids; rewrite list_lookup_fmap.
    + by rewrite Hi.
    + rewrite Hj. simpl. by f_equal.
  - apply find_None_iff in Hfind. destruct Hfind.
    unfold ids. by apply list_elem_of_fmap_2.
Qed.

End registry.

(** The registry of the specification's concrete scenario. *)
Definition example_models : list Model :=
  [mkModel "a" "Alpha"; mkModel "b" "Beta"].

Lemma currentModel_fallback_witness :
  currentModel example_models "zzz" = head example_models ∧
  (∀ m, currentModel example_models "zzz" = Some m → id m ≠ "zzz").
Proof. apply (currentModel_fallback example_models "zzz"). compute_done. Defined.

Lemma currentModel_first_match_witness :
  ∃ pre post, example_models = pre ++ mkModel "b" "Beta" :: post ∧
    id (mkModel "b" "Beta") = "b" ∧ "b" ∉ ids pre.
Proof.
  apply (currentModel_first_match example_models "b"); [by vm_compute|compute_done].
Defined.

Lemma currentModel_own_id_witness :
  currentModel example_models (id (mkModel "b" "Beta")) = Some (mkModel "b" "Beta").
Proof.
  apply (currentModel_own_id example_models).
  - compute_done.
  - compute_done.
Defined.

End Registry.
