(* ===== verification/Browser.v ===== *)
(** * The browser, as far as the component uses it

    ModelSelect.tsx calls five functions of the browser: [setTimeout] and
    [clearTimeout], [document.addEventListener] and
    [document.removeEventListener] (always for the event [mousedown]), and
    [Node.contains].  The first four act on state the component shares with
    the rest of the page; [Surface] is the interface the component is
    verified against, stated by what can be observed of that state (the
    pending timers in the order they will run, the registered listeners in
    the order they will be called), and [Page] is the implementation used
    to run the model.

    A timer callback and a listener are closures; each is named by a
    number, the identity JavaScript compares in [removeEventListener]. *)

From S2P Require Import Prelude.

Module Browser.

(** A DOM node, named by its path from the document root. *)
Abbreviation Node := (list nat).

(** [a.contains(b)]: [b] is [a] or a descendant of [a]. *)
Definition contains (a b : Node) : bool := bool_decide (a `prefix_of` b).

(** ** The interface *)

Class Surface (B : Type) : Type := {
  (** The state of a page on which nothing is pending or registered. *)
  blank : B;
  (** The pending timers, the next to run first: (timer id, callback). *)
  timers : B → list (nat * nat);
  (** The [mousedown] listeners of [document], in registration order. *)
  listeners : B → list nat;
  (** [setTimeout(cb, 0)]: the new timer's id and the new state. *)
  setTimeout : nat → B → nat * B;
  clearTimeout : nat → B → B;
  (** The event loop takes the next timer: its callback and the state
      without it; [None] when no timer is pending. *)
  takeTimer : B → option (nat * B);
  addEventListener : nat → B → B;
  removeEventListener : nat → B → B;

  timers_blank : timers blank = [];
  listeners_blank : listeners blank = [];
  timers_setTimeout cb s :
    timers (setTimeout cb s).2 = timers s ++ [((setTimeout cb s).1, cb)];
  listeners_setTimeout cb s : listeners (setTimeout cb s).2 = listeners s;
  timers_clearTimeout t s :
    timers (clearTimeout t s) = filter (λ e, e.1 ≠ t) (timers s);
  listeners_clearTimeout t s : listeners (clearTimeout t s) = listeners s;
  takeTimer_None s : takeTimer s = None ↔ timers s = [];
  takeTimer_Some s cb s' :
    takeTimer s = Some (cb, s') →
    ∃ t, timers s = (t, cb) :: timers s' ∧ listeners s' = listeners s;
  (** A listener that is already registered is not added again. *)
  listeners_addEventListener l s :
    listeners (addEventListener l s) =
      if decide (l ∈ listeners s) then listeners s else listeners s ++ [l];
  timers_addEventListener l s : timers (addEventListener l s) = timers s;
  listeners_removeEventListener l s :
    listeners (removeEventListener l s) = filter (λ l', l' ≠ l) (listeners s);
  timers_removeEventListener l s : timers (removeEventListener l s) = timers s;
}.

#[export] Hint Rewrite @timers_blank @listeners_blank @timers_setTimeout @listeners_setTimeout
  @timers_clearTimeout @listeners_clearTimeout
  @listeners_addEventListener @timers_addEventListener
  @listeners_removeEventListener @timers_removeEventListener : ui.

(** ** The implementation *)

Record Page : Type := mkPage {
  page_timers : list (nat * nat);
  page_listeners : list nat;
  (** The id the next timer gets: ids are handed out in increasing order
      and never reused. *)
  page_next_timer : nat;
}.

#[export] Instance Page_eq_dec : EqDecision Page.
Proof. solve_decision. Defined.

(** A page on which nothing is pending or registered. *)
Definition empty_page : Page := mkPage [] [] 1.

Definition page_setTimeout (cb : nat) (s : Page) : nat * Page :=
  (page_next_timer s,
   mkPage (page_timers s ++ [(page_next_timer s, cb)]) (page_listeners s)
          (S (page_next_timer s))).

Definition page_clearTimeout (t : nat) (s : Page) : Page :=
  mkPage (filter (λ e, e.1 ≠ t) (page_timers s)) (page_listeners s)
         (page_next_timer s).

Definition page_takeTimer (s : Page) : option (nat * Page) :=
  match page_timers s with
  | [] => None
  | (_, cb) :: rest => Some (cb, mkPage rest (page_listeners s) (page_next_timer s))
  end.

Definition page_addEventListener (l : nat) (s : Page) : Page :=
  mkPage (page_timers s)
         (if decide (l ∈ page_listeners s) then page_listeners s
          else page_listeners s ++ [l])
         (page_next_timer s).

Definition page_removeEventListener (l : nat) (s : Page) : Page :=
  mkPage (page_timers s) (filter (λ l', l' ≠ l) (page_listeners s))
         (page_next_timer s).

#[export, refine] Instance Page_Surface : Surface Page := {|
  blank := empty_page;
  timers := page_timers;
  listeners := page_listeners;
  setTimeout := page_setTimeout;
  clearTimeout := page_clearTimeout;
  takeTimer := page_takeTimer;
  addEventListener := page_addEventListener;
  removeEventListener := page_removeEventListener;
|}.
Proof.
  all: try done.
  - intros [[|[t cb] ts] ls n]; by cbv.
  - intros [[|[t cb] ts] ls n] cb' s'; cbv; [done|].
    intros [= <- <-]. by exists t.
Defined.

(** The ids of the pending timers are below the next id to hand out. *)
Definition page_ok (s : Page) : Prop :=
  Forall (λ e, e.1 < page_next_timer s) (page_timers s).

(** ** Facts on [contains] *)

Lemma contains_spec a b : contains a b = true ↔ a `prefix_of` b.
Proof. unfold contains. by rewrite bool_decide_eq_true. Qed.

Lemma contains_refl a : contains a a = true.
Proof. by apply contains_spec. Qed.

Lemma contains_trans a b c :
  contains a b = true → contains b c = true → contains a c = true.
Proof. rewrite !contains_spec. by intros ??; etrans. Qed.

Lemma contains_app a p : contains a (a ++ p) = true.
Proof. apply contains_spec. by exists p. Qed.

(** What is outside a node is outside its descendants. *)
Lemma contains_app_false a p b : contains a b = false → contains (a ++ p) b = false.
Proof.
  intros Ha. apply not_true_iff_false. intros Hb. apply not_true_iff_false in Ha.
  apply Ha. by eapply contains_trans; [apply contains_app|].
Qed.

(** Two children of one node are disjoint: nothing is inside both. *)
Lemma contains_siblings (a : Node) (i j : nat) (b : Node) :
  i ≠ j → contains (a ++ [i]) b = true → contains (a ++ [j]) b = false.
Proof.
  intros Hij [p ->]%contains_spec. apply bool_decide_eq_false.
  intros [q Hq]. rewrite <-!app_assoc in Hq. by simplify_list_eq.
Qed.

(** A node does not contain its parent. *)
Lemma contains_parent (a : Node) (i : nat) : contains (a ++ [i]) a = false.
Proof. apply bool_decide_eq_false, prefix_snoc_not. Qed.

(** ** Facts every surface satisfies *)

Section surface.
Context `{Surface B}.
Implicit Types (s : B) (l t cb : nat).

Lemma removeEventListener_not_elem_of l s :
  l ∉ listeners (removeEventListener l s).
Proof. rewrite listeners_removeEventListener. apply not_elem_of_filter_ne. Qed.

Lemma addEventListener_elem_of l s : l ∈ listeners (addEventListener l s).
Proof.
  rewrite listeners_addEventListener. case_decide; [done|].
  apply elem_of_app. right. by left.
Qed.

(** Registering twice is registering once. *)
Lemma addEventListener_idemp l s :
  listeners (addEventListener l (addEventListener l s)) =
  listeners (addEventListener l s).
Proof.
  rewrite (listeners_addEventListener l (addEventListener l s)).
  by rewrite decide_True by apply addEventListener_elem_of.
Qed.

(** Removing a listener that was just added to a state without it gives the
    listeners back. *)
Lemma remove_add_listener l s :
  l ∉ listeners s →
  listeners (removeEventListener l (addEventListener l s)) = listeners s.
Proof.
  intros Hl. rewrite listeners_removeEventListener, listeners_addEventListener.
  rewrite decide_False by done. rewrite filter_app, filter_id_not_elem_of by done.
  rewrite filter_cons_False by naive_solver. by rewrite filter_nil, app_nil_r.
Qed.

(** A cleared timer never runs. *)
Lemma clearTimeout_not_pending t s : t ∉ (timers (clearTimeout t s)).*1.
Proof.
  rewrite timers_clearTimeout, list_elem_of_fmap.
  intros ([t' cb] & -> & [Hne _]%list_elem_of_filter). done.
Qed.

(** Clearing the timer that was just set on a state where its id is not
    pending gives the pending timers back. *)
Lemma clear_set_timeout cb s :
  (setTimeout cb s).1 ∉ (timers s).*1 →
  timers (clearTimeout (setTimeout cb s).1 (setTimeout cb s).2) = timers s.
Proof.
  intros Hfresh. rewrite timers_clearTimeout, timers_setTimeout, filter_app.
  rewrite filter_cons_False by naive_solver. rewrite filter_nil, app_nil_r.
  apply filter_Forall_id, Forall_forall. intros [t cb'] Hin Heq. simpl in Heq.
  apply Hfresh. rewrite <-Heq. apply list_elem_of_fmap. by exists (t, cb').
Qed.

End surface.

(** ** The page hands out fresh timer ids *)

Lemma page_ok_empty : page_ok empty_page.
Proof. by apply Forall_nil. Qed.

Lemma page_ok_setTimeout cb s : page_ok s → page_ok (page_setTimeout cb s).2.
Proof.
  unfold page_ok. simpl. intros Hs. apply Forall_app. split.
  - eapply Forall_impl; [done|]. simpl. lia.
  - apply Forall_singleton. simpl. lia.
Qed.

Lemma page_ok_clearTimeout t s : page_ok s → page_ok (page_clearTimeout t s).
Proof.
  unfold page_ok. simpl. rewrite !Forall_forall.
  intros Hs e [_ Hin]%list_elem_of_filter. by apply Hs.
Qed.

Lemma page_ok_takeTimer s cb s' : page_ok s → page_takeTimer s = Some (cb, s') → page_ok s'.
Proof.
  unfold page_ok, page_takeTimer. destruct (page_timers s) as [|[t cb'] ts]; [done|].
  intros Hs [= <- <-]. simpl. by apply Forall_cons_1 in Hs as [_ ?].
Qed.

(** On a page whose pending timers were all handed out by it, the id
    [setTimeout] returns names no pending timer, the page stays such a
    page, and clearing that id clears this timer only. *)
Lemma page_setTimeout_fresh cb s :
  page_ok s →
  ((page_setTimeout cb s).1 ∉ (page_timers s).*1) ∧
  page_ok (page_setTimeout cb s).2 ∧
  page_timers (page_clearTimeout (page_setTimeout cb s).1 (page_setTimeout cb s).2)
    = page_timers s.
Proof.
  intros Hs.
  assert ((page_setTimeout cb s).1 ∉ (page_timers s).*1) as Hfresh.
  { intros ([t cb'] & Heq & Hin)%list_elem_of_fmap. unfold page_ok in Hs.
    rewrite Forall_forall in Hs. apply Hs in Hin. simpl in *. lia. }
  split_and!; [done|by apply page_ok_setTimeout|].
  exact (clear_set_timeout (B:=Page) cb s Hfresh).
Qed.

End Browser.
