(* ===== verification/Shared.v ===== *)
(** * A page shared with other code

    The document and the timer queue belong to the whole page: other code
    registers its own [mousedown] listeners and sets its own timers, before
    the component is mounted and while it lives.  [SharedPage] is a page on
    which every closure is marked as the component's ([Own]) or as other
    code's ([Foreign]); timer ids come from one counter for both.

    The component can name its own closures only, so the operations of the
    interface [Browser.Surface] add and remove [Own] listeners and set
    [Own] timers; but [clearTimeout] takes a number, and clears whichever
    timer has that id.  [timers] and [listeners] of the interface show the
    component's share of the page.  Other code acts through [foreign_op],
    and the event loop runs the timer at the head of the queue, whoever set
    it ([turn]). *)

From S2P Require Import Prelude Browser.
Import Browser.

Module Shared.

(** Who created a closure. *)
Inductive Closure : Type :=
| Own (n : nat)
| Foreign (k : nat).

#[export] Instance Closure_eq_dec : EqDecision Closure.
Proof. solve_decision. Defined.

Definition own (c : Closure) : option nat :=
  match c with
  | Own n => Some n
  | Foreign _ => None
  end.

Definition foreign (c : Closure) : option nat :=
  match c with
  | Own _ => None
  | Foreign k => Some k
  end.

Record SharedPage : Type := mkShared {
  (** The pending timers, the next to run first: (timer id, callback). *)
  pending : list (nat * Closure);
  (** The [mousedown] listeners of [document], in registration order. *)
  registered : list Closure;
  (** The id the next timer gets. *)
  next_id : nat;
}.

(** The timers of one side: their ids and callbacks. *)
Definition timers_of (side : Closure → option nat) (q : list (nat * Closure))
    : list (nat * nat) :=
  omap (λ e, (e.1,.) <$> side e.2) q.

Definition own_timers (s : SharedPage) : list (nat * nat) := timers_of own (pending s).
Definition own_listeners (s : SharedPage) : list nat := omap own (registered s).
Definition foreign_timers (s : SharedPage) : list (nat * nat) := timers_of foreign (pending s).
Definition foreign_listeners (s : SharedPage) : list nat := omap foreign (registered s).

(** ** What the component calls *)

Definition shared_setTimeout (cb : nat) (s : SharedPage) : nat * SharedPage :=
  (next_id s, mkShared (pending s ++ [(next_id s, Own cb)]) (registered s) (S (next_id s))).

Definition shared_clearTimeout (t : nat) (s : SharedPage) : SharedPage :=
  mkShared (filter (λ e, e.1 ≠ t) (pending s)) (registered s) (next_id s).

(** The first timer of the component in the queue, and the queue without
    it. *)
Fixpoint take_own (q : list (nat * Closure)) : option (nat * list (nat * Closure)) :=
  match q with
  | [] => None
  | (t, Own cb) :: q' => Some (cb, q')
  | e :: q' => (λ r, (r.1, e :: r.2)) <$> take_own q'
  end.

Definition shared_takeTimer (s : SharedPage) : option (nat * SharedPage) :=
  (λ r, (r.1, mkShared r.2 (registered s) (next_id s))) <$> take_own (pending s).

Definition add_listener (c : Closure) (s : SharedPage) : SharedPage :=
  mkShared (pending s) (if decide (c ∈ registered s) then registered s else registered s ++ [c]) (next_id s).

Definition remove_listener (c : Closure) (s : SharedPage) : SharedPage :=
  mkShared (pending s) (filter (λ c', c' ≠ c) (registered s)) (next_id s).

Definition shared_addEventListener (l : nat) : SharedPage → SharedPage := add_listener (Own l).
Definition shared_removeEventListener (l : nat) : SharedPage → SharedPage :=
  remove_listener (Own l).

Definition empty_shared : SharedPage := mkShared [] [] 1.

(** ** What other code does *)

Inductive ForeignOp : Type :=
| FSetTimeout (k : nat)
| FClearTimeout (t : nat)
| FAddListener (k : nat)
| FRemoveListener (k : nat).

(** Other code clears only timers it has set itself: the id it passes to
    [clearTimeout] is one [setTimeout] returned to it. *)
Definition foreign_op (op : ForeignOp) (s : SharedPage) : SharedPage :=
  match op with
  | FSetTimeout k =>
      mkShared (pending s ++ [(next_id s, Foreign k)]) (registered s) (S (next_id s))
  | FClearTimeout t =>
      mkShared (filter (λ e, e.1 ≠ t ∨ foreign e.2 = None) (pending s)) (registered s) (next_id s)
  | FAddListener k => add_listener (Foreign k) s
  | FRemoveListener k => remove_listener (Foreign k) s
  end.

Definition foreign_ops (ops : list ForeignOp) (s : SharedPage) : SharedPage :=
  foldl (λ s op, foreign_op op s) s ops.

(** What other code can make of a page. *)
Definition meanwhile (s s' : SharedPage) : Prop := ∃ ops, s' = foreign_ops ops s.

(** ** Facts on the two views *)

Section views.
Implicit Types (q : list (nat * Closure)) (l : list Closure) (s : SharedPage).
Implicit Types (c : Closure) (t n k : nat) (side : Closure → option nat).

Lemma timers_of_app side q1 q2 :
  timers_of side (q1 ++ q2) = timers_of side q1 ++ timers_of side q2.
Proof. apply omap_app. Qed.

Lemma timers_of_cons side t c q :
  timers_of side ((t, c) :: q) =
    match side c with
    | Some n => (t, n) :: timers_of side q
    | None => timers_of side q
    end.
Proof. unfold timers_of. rewrite omap_cons. simpl. by destruct (side c). Qed.

Lemma timers_of_clear side t q :
  timers_of side (filter (λ e, e.1 ≠ t) q) = filter (λ e, e.1 ≠ t) (timers_of side q).
Proof.
  apply omap_filter. intros [t1 c] [t2 n]. simpl. destruct (side c); naive_solver.
Qed.

(** Clearing an id that no timer of a side has leaves that side alone. *)
Lemma timers_of_clear_fresh side t q :
  t ∉ (timers_of side q).*1 →
  timers_of side (filter (λ e, e.1 ≠ t) q) = timers_of side q.
Proof.
  intros Ht. rewrite timers_of_clear.
  apply filter_Forall_id, Forall_forall. intros [t' n] Hin Heq. simpl in Heq.
  apply Ht, list_elem_of_fmap. exists (t', n). by subst.
Qed.

Lemma elem_of_own_listeners l n : n ∈ omap own l ↔ Own n ∈ l.
Proof.
  rewrite list_elem_of_omap. split.
  - by intros ([] & ? & [= ->]).
  - intros ?. by exists (Own n).
Qed.

Lemma elem_of_foreign_listeners l k : k ∈ omap foreign l ↔ Foreign k ∈ l.
Proof.
  rewrite list_elem_of_omap. split.
  - by intros ([] & ? & [= ->]).
  - intros ?. by exists (Foreign k).
Qed.

Lemma omap_own_filter l n :
  omap own (filter (λ c, c ≠ Own n) l) = filter (λ n', n' ≠ n) (omap own l).
Proof. apply omap_filter. intros [m|k] m'; naive_solver. Qed.

Lemma omap_own_filter_foreign l k :
  omap own (filter (λ c, c ≠ Foreign k) l) = omap own l.
Proof. apply omap_filter_None. by intros [m|k'] ?%dec_stable. Qed.

Lemma omap_foreign_filter l k :
  omap foreign (filter (λ c, c ≠ Foreign k) l) = filter (λ k', k' ≠ k) (omap foreign l).
Proof. apply omap_filter. intros [m|k'] m'; naive_solver. Qed.

Lemma omap_foreign_filter_own l n :
  omap foreign (filter (λ c, c ≠ Own n) l) = omap foreign l.
Proof. apply omap_filter_None. by intros [m|k'] ?%dec_stable. Qed.

Lemma take_own_None q : take_own q = None ↔ timers_of own q = [].
Proof.
  induction q as [|[t [cb|k]] q IH]; [done|by rewrite timers_of_cons|].
  cbn [take_own]. rewrite fmap_None, timers_of_cons. apply IH.
Qed.

Lemma take_own_Some q cb q' :
  take_own q = Some (cb, q') →
  (∃ t, timers_of own q = (t, cb) :: timers_of own q') ∧
  timers_of foreign q' = timers_of foreign q.
Proof.
  revert q'. induction q as [|[t [cb'|k]] q IH]; intros q'; cbn [take_own]; [done|..].
  - intros [= <- <-]. rewrite !timers_of_cons. split; [by exists t|done].
  - destruct (take_own q) as [[cb0 q0]|]; [|done]. simpl. intros [= <- <-].
    destruct (IH q0 eq_refl) as [[t' Ht'] Hf]. rewrite !timers_of_cons. simpl.
    split; [by exists t'|by rewrite Hf].
Qed.

(** [clearTimeout] with an id that no timer of the component has does what
    other code may do. *)
Lemma clear_foreign t s :
  t ∉ (own_timers s).*1 → shared_clearTimeout t s = foreign_op (FClearTimeout t) s.
Proof.
  unfold own_timers, shared_clearTimeout. simpl. intros Ht. f_equal.
  induction (pending s) as [|[t' c] q IH]; [done|]. rewrite timers_of_cons in Ht.
  rewrite !filter_cons. simpl.
  destruct c as [n|k]; simpl in *.
  - apply not_elem_of_cons in Ht as [Hne Ht].
    rewrite !decide_True by auto. by rewrite IH.
  - rewrite IH by done. destruct (decide (t' ≠ t)) as [Hne|Heq].
    + by rewrite decide_True by auto.
    + by rewrite decide_False by naive_solver.
Qed.

Lemma foreign_ops_app ops1 ops2 s :
  foreign_ops (ops1 ++ ops2) s = foreign_ops ops2 (foreign_ops ops1 s).
Proof. apply foldl_app. Qed.

Lemma meanwhile_refl s : meanwhile s s.
Proof. by exists []. Qed.

Lemma meanwhile_trans s1 s2 s3 : meanwhile s1 s2 → meanwhile s2 s3 → meanwhile s1 s3.
Proof. intros [ops1 ->] [ops2 ->]. exists (ops1 ++ ops2). by rewrite foreign_ops_app. Qed.

Lemma meanwhile_op op s : meanwhile s (foreign_op op s).
Proof. by exists [op]. Qed.

End views.

#[export] Instance meanwhile_preorder : PreOrder meanwhile.
Proof. split; [exact meanwhile_refl|exact meanwhile_trans]. Qed.

(** ** The page as the component sees it *)

#[export, refine] Instance Shared_Surface : Surface SharedPage := {|
  blank := empty_shared;
  timers := own_timers;
  listeners := own_listeners;
  setTimeout := shared_setTimeout;
  clearTimeout := shared_clearTimeout;
  takeTimer := shared_takeTimer;
  addEventListener := shared_addEventListener;
  removeEventListener := shared_removeEventListener;
|}.
Proof.
  all: try done.
  - intros cb s. unfold own_timers. simpl. by rewrite timers_of_app.
  - intros t s. apply timers_of_clear.
  - intros s. unfold shared_takeTimer. rewrite fmap_None. apply take_own_None.
  - intros s cb s'. unfold shared_takeTimer.
    destruct (take_own (pending s)) as [[cb0 q0]|] eqn:Htake; [|done]. simpl.
    intros [= <- <-]. apply take_own_Some in Htake as [[t Ht] _]. by exists t.
  - intros l s. unfold own_listeners, shared_addEventListener, add_listener. simpl.
    destruct (decide (Own l ∈ registered s)) as [Hin|Hin].
    + by rewrite decide_True by by apply elem_of_own_listeners.
    + rewrite decide_False by by rewrite elem_of_own_listeners. by rewrite omap_app.
  - intros l s. apply omap_own_filter.
Defined.

End Shared.
