(* ===== verification/ModelSelect.v ===== *)
(** * The component ModelSelect

    The functions of ModelSelect.tsx, each as a function of what its
    closure captures:

    - the handlers return the commands they issue, in order ([Cmd]); the
      runtime interprets them (a [setIsOpen] is queued, an [onChange] call
      is recorded);
    - the effect body [effect], the timer callback [arm] and the cleanup
      [cleanup] act on a [Browser.Surface];
    - [return_el] is the returned element for the closures in scope;
      [render] returns the element tree with the closures the render
      creates, or throws.

    The closures the tree holds as [onClick] are data ([Handler]) that
    carries the captured values: [handleToggle] is memoised on [isOpen], so
    the closure of a render holds that render's [isOpen].

    This file holds the definitions; what they do on every branch is shown
    in [ModelSelectFacts]. *)

From S2P Require Import Prelude Jsx Models Browser.
Import Jsx Registry Browser.

Module ModelSelect.

(** [ModelSelectProps], lines 5-8.  [onChange] is a function of the parent:
    the model keeps its identity. *)
Record ModelSelectProps : Type := mkProps {
  value : string;
  onChange : nat;
}.

#[export] Instance ModelSelectProps_eq_dec : EqDecision ModelSelectProps.
Proof. solve_decision. Defined.

(** What a handler of the component can do. *)
Inductive Cmd : Type :=
| StopPropagation
| SetIsOpen (b : bool)
| CallOnChange (cb : nat) (modelId : string).

#[export] Instance Cmd_eq_dec : EqDecision Cmd.
Proof. solve_decision. Defined.

(** The closures passed as [onClick]: [handleToggle] on the button (line
    70), [() => handleSelect(model.id)] on a row (line 94). *)
Inductive Handler : Type :=
| ToggleClosure (isOpen : bool)
| SelectClosure (onChange : nat) (modelId : string).

#[export] Instance Handler_eq_dec : EqDecision Handler.
Proof. solve_decision. Defined.

(** The two refs of lines 16-17. *)
Inductive Ref : Type :=
| buttonRef
| dropdownRef.

#[export] Instance Ref_eq_dec : EqDecision Ref.
Proof. solve_decision. Defined.

(** ** Handlers *)

(** Lines 24-27. *)
Definition handleToggle (isOpen : bool) : list Cmd :=
  [StopPropagation; SetIsOpen (negb isOpen)].

(** Lines 32-35. *)
Definition handleSelect (onChange : nat) (modelId : string) : list Cmd :=
  [CallOnChange onChange modelId; SetIsOpen false].

(** Calling a closure of the tree. *)
Definition call (h : Handler) : list Cmd :=
  match h with
  | ToggleClosure isOpen => handleToggle isOpen
  | SelectClosure onChange modelId => handleSelect onChange modelId
  end.

(** Lines 43-52, with [dropdownRef.current] and [buttonRef.current] as they
    are when the listener is called.  The conjunction is evaluated left to
    right and stops at the first falsy operand. *)
Definition handleClickOutside (dropdown button : option Node) (target : Node) : list Cmd :=
  match dropdown with
  | None => []
  | Some d =>
      if contains d target then []
      else match button with
           | None => []
           | Some b => if contains b target then [] else [SetIsOpen false]
           end
  end.

(** ** The effect *)

(** What the cleanup closure of lines 59-62 captures. *)
Record Cleanup : Type := mkCleanup {
  timer : nat;
  listener : nat;
}.

#[export] Instance Cleanup_eq_dec : EqDecision Cleanup.
Proof. solve_decision. Defined.

Section effect.
Context `{Surface B}.

(** The callback of the timer, lines 55-57, for the listener it closes
    over. *)
Definition arm (handleClickOutside : nat) (s : B) : B :=
  addEventListener handleClickOutside s.

(** Lines 59-62. *)
Definition cleanup (c : Cleanup) (s : B) : B :=
  removeEventListener (listener c) (clearTimeout (timer c) s).

(** The effect body, lines 40-63.  [fresh] is the identity of the closure
    [handleClickOutside] this run creates; the timer's callback is named by
    the listener it will add. *)
Definition effect (isOpen : bool) (fresh : nat) (s : B) : option Cleanup * B :=
  if negb isOpen then (None, s)
  else
    let '(t, s') := setTimeout fresh s in
    (Some (mkCleanup t fresh), s').

End effect.

(** ** Render *)

Abbreviation Tree := (VNode Handler Ref).
Abbreviation Props := (list (string * PropVal Handler Ref)).

(** [<Claude.Color size={n} />], a component of [@lobehub/icons]. *)
Definition claude_color (size : N) : Tree := Comp "Claude.Color" [("size", PNum size)].

(** The title of the button, line 71. *)
Definition trigger_title (label : string) : string := "当前模型: " +:+ label.

(** The class of the chevron, the template literal of line 75: up while
    open, down while closed. *)
Definition chevron_className (isOpen : bool) : string :=
  "codicon codicon-chevron-" +:+ (if isOpen then "up" else "down").

(** The inline style of the chevron, line 75. *)
Definition chevron_style : list (string * StyleVal) :=
  [("fontSize", SStr "10px"); ("marginLeft", SStr "2px")].

(** The chevron, line 75. *)
Definition chevron (isOpen : bool) : Tree :=
  Elem "span"
    [("className", PStr (chevron_className isOpen)); ("style", PStyle chevron_style)]
    [].

(** [<span>{label}</span>], lines 74 and 97. *)
Definition label_span (label : string) : Tree := Elem "span" [] [Text label].

(** The attributes of the button, lines 68-71. *)
Definition button_props (handleToggle : Handler) (label : string) : Props :=
  [("ref", PRef buttonRef);
   ("className", PStr "selector-button");
   ("onClick", PHandler handleToggle);
   ("title", PStr (trigger_title label))].

(** The children of the button, lines 73-75. *)
Definition button_children (label : string) (isOpen : bool) : list Tree :=
  [claude_color 12%N; label_span label; chevron isOpen].

(** The button, lines 67-76, for the closure [handleToggle] in scope. *)
Definition button_el (handleToggle : Handler) (label : string) (isOpen : bool) : Tree :=
  Elem "button" (button_props handleToggle label) (button_children label isOpen).

(** [model.id === value], lines 93 and 98. *)
Definition is_selected (p : ModelSelectProps) (model : Model) : bool :=
  bool_decide (id model = value p).

(** The class of a row, line 93. *)
Definition option_className (selected : bool) : string :=
  "selector-option " +:+ (if selected then "selected" else EmptyString).

(** The check mark of the selected row, line 99. *)
Definition check_mark : Tree :=
  Elem "span" [("className", PStr "codicon codicon-check check-mark")] [].

(** The attributes of a row, lines 92-94: the row's [onClick] is a new
    closure that calls [handleSelect] with the id of the row's model. *)
Definition row_props (handleSelect : string → Handler) (p : ModelSelectProps)
    (model : Model) : Props :=
  [("key", PStr (id model));
   ("className", PStr (option_className (is_selected p model)));
   ("onClick", PHandler (handleSelect (id model)))].

(** The children of a row, lines 96-100. *)
Definition row_children (p : ModelSelectProps) (model : Model) : list Tree :=
  [claude_color 16%N; label_span (label model); child (is_selected p model &&& check_mark)].

(** One row of the dropdown, lines 91-101, for the function [handleSelect]
    in scope: the row's [onClick] is a new closure that calls it with the
    id of the row's model. *)
Definition row_el (handleSelect : string → Handler) (p : ModelSelectProps)
    (model : Model) : Tree :=
  Elem "div" (row_props handleSelect p model) (row_children p model).

(** The inline style of the dropdown, lines 82-88: above the button,
    aligned with its left edge. *)
Definition dropdown_style : list (string * StyleVal) :=
  [("position", SStr "absolute"); ("bottom", SStr "100%");
   ("left", SNum 0%N); ("marginBottom", SStr "4px");
   ("zIndex", SNum 10000%N)].

(** The props of the dropdown, lines 80-88. *)
Definition dropdown_props : Props :=
  [("ref", PRef dropdownRef);
   ("className", PStr "selector-dropdown");
   ("style", PStyle dropdown_style)].

(** The rows, lines 90-102: one for each entry of the registry, in its
    order. *)
Definition dropdown_rows (handleSelect : string → Handler) (models : list Model)
    (p : ModelSelectProps) : list Tree :=
  row_el handleSelect p <$> models.

(** The dropdown, lines 79-103. *)
Definition dropdown_el (handleSelect : string → Handler) (models : list Model)
    (p : ModelSelectProps) : Tree :=
  Elem "div" dropdown_props (dropdown_rows handleSelect models p).

(** The props of the wrapper, line 66. *)
Definition wrapper_props : Props :=
  [("style", PStyle [("position", SStr "relative"); ("display", SStr "inline-block")])].

(** The returned element, lines 65-106, as a function of the locals it
    reads: [handleToggle], [handleSelect], the props, [isOpen] and the
    label of [currentModel]. *)
Definition return_el (handleToggle : Handler) (handleSelect : string → Handler)
    (models : list Model) (p : ModelSelectProps) (isOpen : bool) (label : string) : Tree :=
  Elem "div" wrapper_props
    [button_el handleToggle label isOpen;
     child (isOpen &&& dropdown_el handleSelect models p)].

(** The same elements with the closures a render creates: [handleToggle]
    closes over the [isOpen] of the render (lines 24-27), [handleSelect]
    over its [onChange] (lines 32-35). *)
Definition trigger (label : string) (isOpen : bool) : Tree :=
  button_el (ToggleClosure isOpen) label isOpen.

Definition option_row (p : ModelSelectProps) (model : Model) : Tree :=
  row_el (SelectClosure (onChange p)) p model.

Definition dropdown (models : list Model) (p : ModelSelectProps) : Tree :=
  dropdown_el (SelectClosure (onChange p)) models p.

Definition view (models : list Model) (p : ModelSelectProps) (isOpen : bool)
    (label : string) : Tree :=
  return_el (ToggleClosure isOpen) (SelectClosure (onChange p)) models p isOpen label.

(** The render body: line 19, then the returned element.  Reading
    [currentModel.label] (line 71) throws when [currentModel] is
    [undefined]. *)
Definition render (models : list Model) (p : ModelSelectProps) (isOpen : bool) : Result Tree :=
  view models p isOpen <$>
    js_get "Cannot read properties of undefined (reading 'label')" label
      (currentModel models (value p)).

Arguments render models p isOpen : simpl never.
Arguments view models p isOpen label : simpl never.

(** Where the elements are in the rendered tree. *)
Definition button_path : Path := [0].
Definition dropdown_path : Path := [1].
Definition row_path (i : nat) : Path := [1; i].

End ModelSelect.
