(* ===== verification/ModelSelectFacts.v ===== *)
(** * Facts about the functions of ModelSelect.tsx

    What each function of [ModelSelect] does on every branch, stated once
    for the files that follow: the commands of the handlers, the effect
    and its cleanup on a page that holds the timers and listeners of other
    code, and the shape of the rendered tree (where the button, the
    dropdown and the rows are, which closures a click reaches from each
    place, which row carries the mark). *)

From S2P Require Import Prelude Jsx Models Browser ModelSelect.
Import Jsx Registry Browser ModelSelect.

Module ModelSelectFacts.

(** ** The handlers, on every branch *)

Section handlers.
Implicit Types (d b target : Node) (isOpen : bool).

Lemma handleToggle_last isOpen : last (handleToggle isOpen) = Some (SetIsOpen (negb isOpen)).
Proof. done. Qed.

(** The listener asks to close the dropdown exactly when both refs are
    set and the target is in neither element; on every other branch (a
    ref is [null], or the target is inside the dropdown or the button) it
    issues no command at all. *)
Lemma handleClickOutside_closes dropdown button target :
  (handleClickOutside dropdown button target = [SetIsOpen false] ↔
   ∃ d b, dropdown = Some d ∧ button = Some b ∧
          contains d target = false ∧ contains b target = false) ∧
  (handleClickOutside dropdown button target = [SetIsOpen false] ∨
   handleClickOutside dropdown button target = []).
Proof.
  unfold handleClickOutside. split; [split|].
  - destruct dropdown as [d|]; [|done]. destruct (contains d target) eqn:Hd; [done|].
    destruct button as [b|]; [|done]. destruct (contains b target) eqn:Hb; [done|].
    intros _. by exists d, b.
  - by intros (d & b & -> & -> & -> & ->).
  - destruct dropdown as [d|]; [|by right]. destruct (contains d target); [by right|].
    destruct button as [b|]; [|by right]. destruct (contains b target); [by right|by left].
Qed.

Lemma handleClickOutside_unmounted button target :
  handleClickOutside None button target = [].
Proof. done. Qed.

Lemma handleClickOutside_inside_button dropdown b target :
  contains b target = true → handleClickOutside dropdown (Some b) target = [].
Proof.
  intros Hb. unfold handleClickOutside. destruct dropdown as [d|]; [|done].
  destruct (contains d target); [done|]. by rewrite Hb.
Qed.

Lemma handleClickOutside_inside_dropdown d button target :
  contains d target = true → handleClickOutside (Some d) button target = [].
Proof. intros Hd. unfold handleClickOutside. by rewrite Hd. Qed.

End handlers.

(** ** The effect and its cleanup *)

Section effect_facts.
Context `{Surface B}.
Implicit Types (s : B) (c : Cleanup).

Lemma effect_open fresh s :
  effect true fresh s = (Some (mkCleanup (setTimeout fresh s).1 fresh), (setTimeout fresh s).2).
Proof. unfold effect. simpl. by destruct (setTimeout fresh s). Qed.

Lemma cleanup_listeners c s :
  listeners (cleanup c s) = filter (λ l, l ≠ listener c) (listeners s).
Proof. unfold cleanup. by rewrite listeners_removeEventListener, listeners_clearTimeout. Qed.

Lemma cleanup_timers c s :
  timers (cleanup c s) = filter (λ e, e.1 ≠ timer c) (timers s).
Proof. unfold cleanup. by rewrite timers_removeEventListener, timers_clearTimeout. Qed.

(** The timer's callback registers the listener, once: after it has
    run the listener is registered, running it again changes nothing, and
    it leaves the pending timers alone. *)
Lemma arm_registers_once l s :
  l ∈ listeners (arm l s) ∧
  listeners (arm l (arm l s)) = listeners (arm l s) ∧
  timers (arm l s) = timers s.
Proof.
  unfold arm. split_and!.
  - apply addEventListener_elem_of.
  - apply addEventListener_idemp.
  - apply timers_addEventListener.
Qed.

(** C34: the cleanup undoes the effect whenever it runs, on a page that holds
    timers and listeners of other code: when the browser hands out a timer
    id that is not pending and the closure is not yet registered, the
    cleanup restores the pending timers and the listeners of the page both
    before the timer has fired and after it has fired and its callback
    has registered the listener. *)
Theorem effect_then_cleanup fresh s c s' :
  effect true fresh s = (Some c, s') →
  timer c ∉ (timers s).*1 → fresh ∉ listeners s →
  (timers (cleanup c s') = timers s ∧ listeners (cleanup c s') = listeners s) ∧
  (∀ s1, (listeners s1 = listeners s →
          listeners (cleanup c (arm (listener c) s1)) = listeners s) ∧
         (timers s1 = timers s →
          timers (cleanup c (arm (listener c) s1)) = timers s)).
Proof.
  rewrite effect_open. intros [= <- <-] Ht Hl. simpl in *. split_and!.
  - unfold cleanup. rewrite timers_removeEventListener. by apply clear_set_timeout.
  - rewrite cleanup_listeners, listeners_setTimeout. by apply filter_id_not_elem_of.
  - intros s1. split; intros Hs1; unfold arm.
    + unfold cleanup. simpl.
      rewrite listeners_removeEventListener, listeners_clearTimeout, <-Hs1.
      rewrite <-(listeners_removeEventListener fresh). apply remove_add_listener.
      by rewrite Hs1.
    + rewrite cleanup_timers, timers_addEventListener, Hs1. simpl.
      apply filter_Forall_id, Forall_forall. intros [t cb] Hin Heq. apply Ht.
      rewrite <-Heq. apply list_elem_of_fmap. by exists (t, cb).
Qed.

End effect_facts.

(** ** The rendered tree *)

Section render.
Context (models : list Model) (p : ModelSelectProps) (isOpen : bool).
Implicit Types (m : Model) (q : Path) (i : nat) (hs : list Handler).

Lemma render_view m :
  currentModel models (value p) = Some m →
  render models p isOpen = Ok (view models p isOpen (label m)).
Proof. unfold render. by intros ->. Qed.

Lemma render_Ok_inv tree :
  render models p isOpen = Ok tree →
  ∃ m, currentModel models (value p) = Some m ∧ tree = view models p isOpen (label m).
Proof.
  unfold render. destruct (currentModel models (value p)) as [m|]; [|done].
  intros [= <-]. by exists m.
Qed.

Lemma render_throws :
  models = [] →
  render models p isOpen =
    Throw (TypeError "Cannot read properties of undefined (reading 'label')").
Proof. by intros ->. Qed.

Lemma render_is_Ok : is_Ok (render models p isOpen) = true ↔ models ≠ [].
Proof.
  rewrite <-(currentModel_None_iff models (value p)). unfold render.
  destruct (currentModel models (value p)); simpl; naive_solver.
Qed.

Lemma row_el_is_node hS m : is_node (row_el hS p m) = true.
Proof. done. Qed.

Lemma dom_children_rows hS :
  dom_children (dropdown_rows hS models p) = dropdown_rows hS models p.
Proof. apply dom_children_id, Forall_fmap, Forall_true. by intros m. Qed.

Lemma dropdown_rows_lookup hS i :
  dropdown_rows hS models p !! i = row_el hS p <$> models !! i.
Proof. apply list_lookup_fmap. Qed.

Lemma dom_children_view (b d : Tree) :
  is_node b = true → is_node d = true →
  dom_children [b; child (isOpen &&& d)] = if isOpen then [b; d] else [b].
Proof.
  intros Hb Hd. rewrite !dom_children_cons, Hb. destruct isOpen; simpl; [|done].
  by rewrite Hd.
Qed.

(** The button is always rendered, as the first child. *)
Lemma node_at_button (lbl : string) :
  node_at (view models p isOpen lbl) button_path = Some (trigger lbl isOpen).
Proof. unfold view, return_el, button_path. simpl. by rewrite ?dom_children_cons. Qed.

Lemma node_at_dropdown (lbl : string) :
  node_at (view models p isOpen lbl) dropdown_path =
    if isOpen then Some (dropdown models p) else None.
Proof.
  unfold view, return_el, dropdown_path. simpl. rewrite ?dom_children_cons.
  by destruct isOpen.
Qed.

Lemma node_at_row (lbl : string) i :
  node_at (view models p isOpen lbl) (row_path i) =
    if isOpen then option_row p <$> models !! i else None.
Proof.
  unfold view, return_el, row_path. simpl. rewrite ?dom_children_cons.
  destruct isOpen; [|done].
  simpl. rewrite dom_children_rows, dropdown_rows_lookup.
  by destruct (models !! i).
Qed.

(** The trigger shows the label it is given, as the text of its second
    child and in its title. *)
Lemma trigger_label (lbl : string) :
  node_at (trigger lbl isOpen) [1; 0] = Some (Text lbl) ∧
  get_prop "title" (Elem_props (trigger lbl isOpen)) = Some (PStr ("当前模型: " +:+ lbl)).
Proof. done. Qed.

(** *** Refs *)

(** At commit [buttonRef.current] is the button. *)
Lemma find_ref_button (lbl : string) :
  find_ref buttonRef (view models p isOpen lbl) = Some button_path.
Proof. done. Qed.

(** At commit [dropdownRef.current] is the dropdown when it is rendered and
    [null] otherwise. *)
Lemma find_ref_dropdown (lbl : string) :
  find_ref dropdownRef (view models p isOpen lbl) =
    if isOpen then Some dropdown_path else None.
Proof. by destruct isOpen. Qed.

(** *** Click handlers *)

Lemma handlers_of_trigger (lbl : string) :
  handlers_of (trigger lbl isOpen) = [ToggleClosure isOpen].
Proof. done. Qed.

Lemma handlers_of_row m :
  handlers_of (option_row p m) = [SelectClosure (onChange p) (id m)].
Proof. unfold option_row, row_el, row_children. by destruct (is_selected p m). Qed.

(** A click on the button or on anything inside it reaches exactly the
    toggle closure of this render. *)
Lemma handlers_to_trigger (lbl : string) q hs :
  handlers_to (trigger lbl isOpen) q = Some hs → hs = [ToggleClosure isOpen].
Proof. by apply handlers_to_root_only. Qed.

(** A click on a row or on anything inside it reaches exactly the closure
    that selects the row's model. *)
Lemma handlers_to_row m q hs :
  handlers_to (option_row p m) q = Some hs →
  hs = [SelectClosure (onChange p) (id m)].
Proof. apply handlers_to_root_only; [apply handlers_of_row|done]. Qed.

(** Where a click can land in the component, and what it reaches:
    the wrapper itself (nothing), the button or its content (the toggle),
    the dropdown between its rows (nothing), a row or its content (the
    selection of that row).  The last two exist only while open. *)
Inductive ClickTarget (q : Path) (hs : list Handler) : Prop :=
| OnWrapper : q = [] → hs = [] → ClickTarget q hs
| OnButton q' : q = 0 :: q' → hs = [ToggleClosure isOpen] → ClickTarget q hs
| OnDropdown : isOpen = true → q = dropdown_path → hs = [] → ClickTarget q hs
| OnRow i q' m :
    isOpen = true → q = 1 :: i :: q' → models !! i = Some m →
    hs = [SelectClosure (onChange p) (id m)] → ClickTarget q hs.

Lemma on_click_wrapper : on_click wrapper_props = [].
Proof. done. Qed.

Lemma on_click_dropdown : on_click dropdown_props = [].
Proof. done. Qed.

Lemma handlers_to_dropdown q hs :
  handlers_to (dropdown models p) q = Some hs →
  (q = [] ∧ hs = []) ∨
  ∃ i q' m, q = i :: q' ∧ models !! i = Some m ∧
            hs = [SelectClosure (onChange p) (id m)].
Proof.
  unfold dropdown, dropdown_el. destruct q as [|i q].
  - rewrite handlers_to_Elem_nil, on_click_dropdown. intros [= <-]. by left.
  - rewrite handlers_to_Elem_cons, on_click_dropdown, dom_children_rows, dropdown_rows_lookup.
    destruct (models !! i) as [m|] eqn:Hi; [|done]. simpl.
    change (row_el _ p m) with (option_row p m).
    destruct (handlers_to (option_row p m) q) as [hs'|] eqn:Hq; [|done].
    intros [= <-]. apply handlers_to_row in Hq as ->. right. by exists i, q, m.
Qed.

Lemma handlers_to_view (lbl : string) q hs :
  handlers_to (view models p isOpen lbl) q = Some hs → ClickTarget q hs.
Proof.
  unfold view, return_el. destruct q as [|j q].
  { rewrite handlers_to_Elem_nil, on_click_wrapper. intros [= <-]. by apply OnWrapper. }
  rewrite handlers_to_Elem_cons, on_click_wrapper, dom_children_view by done.
  destruct j as [|[|j]].
  - replace ((if isOpen then _ else _) !! 0) with (Some (trigger lbl isOpen))
      by by destruct isOpen.
    simpl. destruct (handlers_to (trigger lbl isOpen) q) as [hs'|] eqn:Hq; [|done].
    intros [= <-]. apply handlers_to_trigger in Hq as ->. by eapply OnButton.
  - destruct isOpen eqn:Hopen; [|done]. simpl.
    change (dropdown_el _ models p) with (dropdown models p).
    destruct (handlers_to (dropdown models p) q) as [hs'|] eqn:Hq; [|done].
    intros [= <-]. apply handlers_to_dropdown in Hq as [[-> ->]|(i & q' & m & -> & ? & ->)].
    + by apply OnDropdown.
    + by eapply OnRow.
  - by destruct isOpen.
Qed.

(** *** The mark of the selected row *)

Lemma row_check_mark m :
  node_at (option_row p m) [2] = if is_selected p m then Some check_mark else None.
Proof. unfold option_row, row_el, row_children. by destruct (is_selected p m). Qed.

Lemma row_className m :
  get_prop "className" (Elem_props (option_row p m)) =
    Some (PStr (if is_selected p m then "selector-option selected" else "selector-option ")).
Proof. unfold option_row, row_el, row_props. by destruct (is_selected p m). Qed.

Lemma is_selected_true m : is_selected p m = true ↔ id m = value p.
Proof. unfold is_selected. by rewrite bool_decide_eq_true. Qed.

(** C39: a row is marked as selected exactly when its model's id is the
    selected value: it has the check mark as third child and the class
    "selected" then, and neither otherwise. *)
Theorem row_marked_iff_selected m :
  (node_at (option_row p m) [2] = Some check_mark ↔ id m = value p) ∧
  (get_prop "className" (Elem_props (option_row p m)) =
     Some (PStr "selector-option selected") ↔ id m = value p).
Proof.
  rewrite row_check_mark, row_className, <-is_selected_true.
  destruct (is_selected p m); split; split; done.
Qed.

(** C36: render throws (a TypeError on reading [label] of [undefined])
    exactly when the registry is empty; for a non-empty registry it
    returns a tree, whatever [value] is. *)
Theorem render_throws_iff :
  render models p isOpen =
    Throw (TypeError "Cannot read properties of undefined (reading 'label')")
  ↔ models = [].
Proof.
  rewrite <-(currentModel_None_iff models (value p)). unfold render.
  destruct (currentModel models (value p)); split; done.
Qed.

(** C37: the button is always rendered and the dropdown exactly when
    [isOpen]: open, the second child of the wrapper is the dropdown;
    closed, the wrapper has no second child. *)
Theorem dropdown_rendered_iff_open tree :
  render models p isOpen = Ok tree →
  node_at tree dropdown_path = (if isOpen then Some (dropdown models p) else None) ∧
  ∃ m, currentModel models (value p) = Some m ∧
       node_at tree button_path = Some (trigger (label m) isOpen).
Proof.
  intros (m & Hm & ->)%render_Ok_inv. split; [apply node_at_dropdown|].
  exists m. split; [done|apply node_at_button].
Qed.

(** C38: the rows of the open dropdown are the registry, in registry order:
    the node at row [i] is the row of the [i]-th model, and there is no
    row beyond the registry. *)
Theorem rows_in_registry_order tree i :
  render models p isOpen = Ok tree → isOpen = true →
  node_at tree (row_path i) = option_row p <$> models !! i.
Proof.
  intros (m & Hm & ->)%render_Ok_inv Ho. rewrite node_at_row. by rewrite Ho.
Qed.

(** C35: when no entry of the registry has the selected id, the trigger
    displays the label of the first entry of the registry. *)
Theorem render_fallback_label tree m0 :
  value p ∉ ids models → models !! 0 = Some m0 →
  render models p isOpen = Ok tree →
  node_at tree (button_path ++ [1; 0]) = Some (Text (label m0)).
Proof.
  intros Hnot H0 (m & Hm & ->)%render_Ok_inv.
  rewrite find_None_currentModel in Hm by done. by simplify_eq.
Qed.

End render.

End ModelSelectFacts.
