(* ===== verification/Hooks.v ===== *)
(** * The memoised handlers

    ModelSelect.tsx creates its two handlers through [useCallback]:
    [handleToggle] with the dependencies [[isOpen]] (lines 24-27) and
    [handleSelect] with [[onChange]] (lines 32-35).  React keeps, for each
    call, the closure and the dependencies of the render that stored it,
    and hands the stored closure back while the dependencies are the
    same.  A stored closure sees the variables of the render that created
    it: the memoisation is invisible exactly when the dependencies list
    everything the closure reads.

    [ModelSelect_fn] is the two [useCallback] calls with their cells made
    explicit, for the [isOpen] of the render, followed by the returned
    element; the theorems show that it returns what [ModelSelect.render]
    returns, where every render creates its closures anew.  The rest of
    the development uses [render].  The other hooks of the component
    ([useState], [useRef], [useEffect]) are in [Component]. *)

From S2P Require Import Prelude Jsx Models Browser ModelSelect.
Import Jsx Registry Browser ModelSelect.
From S2P Require Import ModelSelectFacts.
Import ModelSelectFacts.

Module Hooks.

Section useCallback.
Context {V D : Type} `{EqDecision D}.

(** [useCallback(fn, deps)] on the cell of an earlier render ([None] in the
    first render): the closure to use and the cell to keep. *)
Definition useCallback (cell : option (V * D)) (fn : V) (deps : D) : V * option (V * D) :=
  match cell with
  | Some (fn', deps') =>
      if decide (deps' = deps) then (fn', cell) else (fn, Some (fn, deps))
  | None => (fn, Some (fn, deps))
  end.

(** A cell is faithful to [mk] when the closure it holds is the one [mk]
    creates from the dependencies it holds. *)
Definition faithful (mk : D → V) (cell : option (V * D)) : Prop :=
  ∀ fn deps, cell = Some (fn, deps) → fn = mk deps.

End useCallback.

(** The cells of the two [useCallback] calls, in call order. *)
Record Cells : Type := mkCells {
  handleToggle_cell : option (Handler * bool);
  handleSelect_cell : option ((string → Handler) * nat);
}.

(** The cells before the first render. *)
Definition first_render : Cells := mkCells None None.

(** The two [useCallback] calls, lines 24-35, for the [isOpen] that
    [useState] returns and the cells of the last render, with the value of
    line 19 and the returned element: what the component returns (or
    throws) and the cells it leaves. *)
Definition ModelSelect_fn (models : list Model) (p : ModelSelectProps) (isOpen : bool)
    (cells : Cells) : Result Tree * Cells :=
  let currentModel := currentModel models (value p) in
  let '(handleToggle, toggle_cell) :=
    useCallback (handleToggle_cell cells) (ToggleClosure isOpen) isOpen in
  let '(handleSelect, select_cell) :=
    useCallback (handleSelect_cell cells) (SelectClosure (onChange p)) (onChange p) in
  (return_el handleToggle handleSelect models p isOpen <$>
     js_get "Cannot read properties of undefined (reading 'label')" label currentModel,
   mkCells toggle_cell select_cell).

(** The renders of one instance, for the props and the state of each. *)
Fixpoint renders (models : list Model) (inputs : list (ModelSelectProps * bool))
    (cells : Cells) : list (Result Tree) :=
  match inputs with
  | [] => []
  | (p, isOpen) :: inputs' =>
      let '(tree, cells') := ModelSelect_fn models p isOpen cells in
      tree :: renders models inputs' cells'
  end.

(** Both cells hold the closure their dependencies determine. *)
Definition cells_ok (cells : Cells) : Prop :=
  faithful ToggleClosure (handleToggle_cell cells) ∧
  faithful SelectClosure (handleSelect_cell cells).

(** ** [useCallback] with exhaustive dependencies *)

Section useCallback_facts.
Context {V D : Type} `{EqDecision D} (mk : D → V).
Implicit Types (cell : option (V * D)) (deps : D).

Lemma faithful_None : faithful mk None.
Proof. by intros fn deps. Qed.

(** When the closure is a function of its dependencies, [useCallback]
    returns the closure a fresh creation gives, and keeps the cell
    faithful. *)
Lemma useCallback_faithful cell deps :
  faithful mk cell →
  (useCallback cell (mk deps) deps).1 = mk deps ∧
  faithful mk (useCallback cell (mk deps) deps).2.
Proof.
  intros Hcell. unfold useCallback. destruct cell as [[fn' deps']|].
  - destruct (decide (deps' = deps)) as [->|Hne]; simpl.
    + split; [by apply Hcell|done].
    + split; [done|]. by intros fn d [= <- <-].
  - split; [done|]. by intros fn d [= <- <-].
Qed.

(** With unchanged dependencies the stored closure is handed back and the
    cell is kept: the closure keeps its identity across renders. *)
Lemma useCallback_stable (fn0 fn : V) deps :
  useCallback (Some (fn0, deps)) fn deps = (fn0, Some (fn0, deps)).
Proof. unfold useCallback. by rewrite decide_True. Qed.

End useCallback_facts.

(** ** The component with memoised handlers *)

Section component.
Context (models : list Model).
Implicit Types (p : ModelSelectProps) (isOpen : bool) (cells : Cells).

Lemma cells_ok_first_render : cells_ok first_render.
Proof. split; apply faithful_None. Qed.

Lemma ModelSelect_fn_render p isOpen cells :
  cells_ok cells →
  (ModelSelect_fn models p isOpen cells).1 = render models p isOpen ∧
  cells_ok (ModelSelect_fn models p isOpen cells).2.
Proof.
  intros [Ht Hs]. unfold ModelSelect_fn.
  destruct (useCallback_faithful ToggleClosure _ isOpen Ht) as [Ht1 Ht2].
  destruct (useCallback_faithful SelectClosure _ (onChange p) Hs) as [Hs1 Hs2].
  destruct (useCallback (handleToggle_cell cells) _ _) as [hT ct].
  destruct (useCallback (handleSelect_cell cells) _ _) as [hS cs].
  simpl in *. by subst.
Qed.

Lemma renders_render inputs cells :
  cells_ok cells →
  renders models inputs cells = (λ i, render models i.1 i.2) <$> inputs.
Proof.
  revert cells. induction inputs as [|[p isOpen] inputs IH]; intros cells Hok; [done|].
  simpl. destruct (ModelSelect_fn_render p isOpen cells Hok) as [Hr Hok'].
  destruct (ModelSelect_fn models p isOpen cells) as [tree cells']. simpl in *.
  by rewrite Hr, IH.
Qed.

(** C22: memoising the handlers changes nothing: in every sequence of renders
    of one instance, whatever the props and the state of each, the
    component with its [useCallback] cells returns (or throws) what the
    render that creates both closures anew returns.  The dependency
    arrays list everything the handlers read, so no render sees a stale
    closure. *)
Theorem memoised_renders inputs :
  renders models inputs first_render = (λ i, render models i.1 i.2) <$> inputs.
Proof. apply renders_render, cells_ok_first_render. Qed.

(** After a render both cells are set, with the dependencies of that
    render. *)
Lemma ModelSelect_fn_cells p isOpen cells :
  ∃ hT hS, (ModelSelect_fn models p isOpen cells).2 =
             mkCells (Some (hT, isOpen)) (Some (hS, onChange p)).
Proof.
  unfold ModelSelect_fn, useCallback.
  destruct (handleToggle_cell cells) as [[??]|], (handleSelect_cell cells) as [[??]|];
    repeat case_decide; subst; simpl; eauto.
Qed.

(** While [isOpen] and [onChange] are what they were in the last render,
    the handlers keep their identity: the cells are handed back as they
    are, whatever else of the props changed. *)
Lemma handlers_stable p p' isOpen cells :
  onChange p' = onChange p →
  let cells1 := (ModelSelect_fn models p isOpen cells).2 in
  (ModelSelect_fn models p' isOpen cells1).2 = cells1.
Proof.
  intros Hcb. cbv zeta. destruct (ModelSelect_fn_cells p isOpen cells) as (hT & hS & ->).
  unfold ModelSelect_fn. cbn [handleToggle_cell handleSelect_cell].
  by rewrite Hcb, !useCallback_stable.
Qed.

End component.

Lemma handlers_stable_witness :
  let models := example_models in
  let cells1 := (ModelSelect_fn models (mkProps "b" 7) true first_render).2 in
  (ModelSelect_fn models (mkProps "a" 7) true cells1).2 = cells1.
Proof. by apply (handlers_stable example_models (mkProps "b" 7) (mkProps "a" 7)). Defined.

End Hooks.
