(* ===== verification/Runtime.v ===== *)
(** * The life cycle of the component

    This file models React and the browser, which are not part of the
    sources; it translates no line of ModelSelect.tsx and runs the
    functions of [ModelSelect], which do.

    What React and the browser do with the functions of ModelSelect.tsx:
    the initial render ([mount]), re-renders after [setIsOpen] or new props
    ([rerender_with]), the passive effect of lines 40-63 and its cleanup
    ([flush_effects]), the dispatch of a click through the [onClick]
    closures of the committed tree ([click]), the call of the registered
    [mousedown] listeners ([mousedown]), the zero-delay timer ([tick]) and
    the removal of the component ([unmount]).

    A [World] is one instance of the component (or none, once unmounted),
    the browser state it acts on, the counter closures are numbered from,
    and the trace of what the component told the rest of the page.  [step]
    is total: an event that finds nothing to act on leaves the world as it
    is.  Renders and effect flushes are events of their own, so every
    interleaving React may choose is a run of the model; [settle] is the
    synchronous choice React makes after a discrete event such as a
    click. *)

From S2P Require Import Prelude Jsx Models Browser ModelSelect.
Import Jsx Registry Browser ModelSelect.
From S2P Require Import ModelSelectFacts.
Import ModelSelectFacts.

Module Runtime.

(** What the component tells the rest of the page. *)
Inductive Output : Type :=
| Changed (cb : nat) (modelId : string)
| Propagated (target : Node)
| Crashed (e : JsError).

#[export] Instance Output_eq_dec : EqDecision Output.
Proof. solve_decision. Defined.

(** One mounted instance, as of its last commit. *)
Record Fiber : Type := mkFiber {
  (** The props of the last render, lines 5-8 and 14. *)
  props : ModelSelectProps;
  (** [useState(false)], line 15: the value the last render saw. *)
  isOpen : bool;
  (** The [setIsOpen] calls since the last render, oldest first. *)
  updates : list bool;
  (** The element tree of the last render, lines 65-106. *)
  tree : Tree;
  (** [buttonRef.current] and [dropdownRef.current], lines 16-17. *)
  button_current : option Node;
  dropdown_current : option Node;
  (** The dependency [isOpen] (line 63) of the last run of the effect;
      [None] before its first run. *)
  effect_deps : option bool;
  (** The cleanup that run returned, lines 59-62. *)
  effect_cleanup : option Cleanup;
}.

Record World (B : Type) : Type := mkWorld {
  fiber : option Fiber;
  surface : B;
  next_closure : nat;
  trace : list Output;
}.

Arguments mkWorld {B} fiber surface next_closure trace.
Arguments fiber {B} w.
Arguments surface {B} w.
Arguments next_closure {B} w.
Arguments trace {B} w.

Definition queue (b : bool) (f : Fiber) : Fiber :=
  mkFiber (props f) (isOpen f) (updates f ++ [b]) (tree f)
          (button_current f) (dropdown_current f) (effect_deps f) (effect_cleanup f).

Definition queue_all (bs : list bool) (f : Fiber) : Fiber :=
  mkFiber (props f) (isOpen f) (updates f ++ bs) (tree f)
          (button_current f) (dropdown_current f) (effect_deps f) (effect_cleanup f).

Definition ran_effect (c : option Cleanup) (f : Fiber) : Fiber :=
  mkFiber (props f) (isOpen f) (updates f) (tree f)
          (button_current f) (dropdown_current f) (Some (isOpen f)) c.

(** The events of the model. *)
Inductive Event : Type :=
| Click (target : Node)
| MouseDown (target : Node)
| Tick
| Render
| Flush
| SetProps (p : ModelSelectProps)
| Unmount.

#[export] Instance Event_eq_dec : EqDecision Event.
Proof. solve_decision. Defined.

Definition is_click (e : Event) : bool :=
  match e with
  | Click _ => true
  | _ => false
  end.

Section runtime.
Context (models : list Model) (root : Node) `{Surface B}.
Implicit Types (w : World B) (f : Fiber) (s : B) (p : ModelSelectProps).
Implicit Types (target : Node) (cmds : list Cmd) (hs : list Handler).

(** ** Commit *)

(** The node React stores in [r.current]: the node of the element of the
    committed tree that carries [ref={r}], [null] when there is none. *)
Definition ref_node (t : Tree) (r : Ref) : option Node := (root ++.) <$> find_ref r t.

Definition committed p (o : bool) (t : Tree) (deps : option bool)
    (c : option Cleanup) : Fiber :=
  mkFiber p o [] t (ref_node t buttonRef) (ref_node t dropdownRef) deps c.

(** The initial render: [isOpen] is [false], no effect has run. *)
Definition mount p s : World B :=
  match render models p false with
  | Ok t => mkWorld (Some (committed p false t None None)) s 0 []
  | Throw e => mkWorld None s 0 [Crashed e]
  end.

(** ** The effect *)

(** React runs the effect after the first commit and after every commit
    whose [isOpen] differs from that of the effect's last run. *)
Definition effect_due f : bool := bool_decide (effect_deps f ≠ Some (isOpen f)).

Definition run_cleanup f s : B :=
  match effect_cleanup f with
  | Some c => cleanup c s
  | None => s
  end.

(** Flushing the passive effects: the cleanup of the last run, then the
    effect body. *)
Definition flush_effects w : World B :=
  match fiber w with
  | Some f =>
      if effect_due f then
        let '(c, s) := effect (isOpen f) (next_closure w) (run_cleanup f (surface w)) in
        mkWorld (Some (ran_effect c f)) s (S (next_closure w)) (trace w)
      else w
  | None => w
  end.

(** The cleanup of the last run of the effect, then the effect, for the
    committed [isOpen], whether a dependency changed or not. *)
Definition rerun_effect w : World B :=
  match fiber w with
  | Some f =>
      let '(c, s) := effect (isOpen f) (next_closure w) (run_cleanup f (surface w)) in
      mkWorld (Some (ran_effect c f)) s (S (next_closure w)) (trace w)
  | None => w
  end.

(** React reconnects the effects of the component (in development under
    StrictMode after the first mount, when the module is replaced, when a
    hidden subtree is shown again): the effects that are due run first,
    then the cleanup and the effect once more.  State and refs are kept. *)
Definition reconnect w : World B := rerun_effect (flush_effects w).

(** ** Render *)

(** The state the next render sees: the last queued value. *)
Definition next_isOpen f : bool := default (isOpen f) (last (updates f)).

(** A render with props [p], after the pending effects.  A render that
    throws takes the component down. *)
Definition rerender_with p w : World B :=
  let w := flush_effects w in
  match fiber w with
  | Some f =>
      match render models p (next_isOpen f) with
      | Ok t =>
          mkWorld (Some (committed p (next_isOpen f) t (effect_deps f) (effect_cleanup f)))
                  (surface w) (next_closure w) (trace w)
      | Throw e =>
          mkWorld None (run_cleanup f (surface w)) (next_closure w)
                  (trace w ++ [Crashed e])
      end
  | None => w
  end.

Definition rerender w : World B :=
  match fiber w with
  | Some f => rerender_with (props f) w
  | None => w
  end.

Definition unmount w : World B :=
  let w := flush_effects w in
  match fiber w with
  | Some f => mkWorld None (run_cleanup f (surface w)) (next_closure w) (trace w)
  | None => w
  end.

(** ** Commands *)

(** One command of a handler.  [setIsOpen] on an unmounted component does
    nothing; [stopPropagation] acts on the event (see [dispatch]). *)
Definition exec (c : Cmd) w : World B :=
  match c with
  | StopPropagation => w
  | SetIsOpen b =>
      mkWorld (queue b <$> fiber w) (surface w) (next_closure w) (trace w)
  | CallOnChange cb modelId =>
      mkWorld (fiber w) (surface w) (next_closure w) (trace w ++ [Changed cb modelId])
  end.

Definition exec_all cmds w : World B := foldl (λ w c, exec c w) w cmds.

Definition stops cmds : bool := bool_decide (StopPropagation ∈ cmds).

(** ** Click *)

(** The closures a click reaches, innermost first, are called in turn until
    one stops the propagation.  The result says whether one did. *)
Fixpoint dispatch hs w : bool * World B :=
  match hs with
  | [] => (false, w)
  | h :: hs' =>
      let w' := exec_all (call h) w in
      if stops (call h) then (true, w') else dispatch hs' w'
  end.

(** The path of a node below the wrapper; [None] for a node outside. *)
Fixpoint below (a target : Node) : option Path :=
  match a, target with
  | [], _ => Some target
  | i :: a', j :: target' => if decide (i = j) then below a' target' else None
  | _ :: _, [] => None
  end.

(** The closures of the committed tree a click on [target] reaches,
    innermost first; [None] when [target] is no node of the component. *)
Definition reached f target : option (list Handler) :=
  below root target ≫= bubble (tree f).

(** A click on [target].  A click outside the component reaches none of its
    closures; a click inside that no closure stopped goes on to the
    ancestors of the component. *)
Definition click target w : World B :=
  match fiber w with
  | Some f =>
      match reached f target with
      | Some hs =>
          let '(stopped, w') := dispatch hs w in
          if stopped then w'
          else mkWorld (fiber w') (surface w') (next_closure w')
                       (trace w' ++ [Propagated target])
      | None => w
      end
  | None => w
  end.

(** ** Mousedown *)

(** The call of one registered listener: [handleClickOutside] with the refs
    as they are now ([null] once the component is unmounted).  Which
    closure [l] is called makes no difference: every [handleClickOutside]
    reads [buttonRef.current] and [dropdownRef.current] when it is called
    and the same [setIsOpen], so the closures of different runs of the
    effect do the same. *)
Definition listen target w (l : nat) : World B :=
  exec_all (handleClickOutside (fiber w ≫= dropdown_current)
                               (fiber w ≫= button_current) target) w.

(** A [mousedown] on [target]: every listener registered when the event is
    dispatched is called, in registration order. *)
Definition mousedown target w : World B :=
  foldl (listen target) w (listeners (surface w)).

(** ** Timers *)

(** The event loop runs the next timer. *)
Definition tick w : World B :=
  match takeTimer (surface w) with
  | Some (cb, s) => mkWorld (fiber w) (arm cb s) (next_closure w) (trace w)
  | None => w
  end.

(** ** Steps and runs *)

Definition step (e : Event) w : World B :=
  match e with
  | Click target => click target w
  | MouseDown target => mousedown target w
  | Tick => tick w
  | Render => rerender w
  | Flush => flush_effects w
  | SetProps p => rerender_with p w
  | Unmount => unmount w
  end.

Definition run (es : list Event) w : World B := foldl (λ w e, step e w) w es.

(** The worlds a component mounted with props [p] on a blank page can be
    in. *)
Inductive reachable p : World B → Prop :=
| reachable_mount : reachable p (mount p blank)
| reachable_step e w : reachable p w → reachable p (step e w).

(** What React does after a discrete event: render, then flush the
    effects, before the next event is handled. *)
Definition settle w : World B := flush_effects (rerender w).

(** Nothing is left to do: no queued update, no effect due. *)
Definition quiescent w : Prop :=
  match fiber w with
  | Some f => updates f = [] ∧ effect_deps f = Some (isOpen f)
  | None => True
  end.

(** ** What a list of commands does *)

(** The values a list of commands queues, and the calls it makes. *)
Definition sets_of cmds : list bool :=
  omap (λ c, match c with SetIsOpen b => Some b | _ => None end) cmds.

Definition calls_of cmds : list Output :=
  omap (λ c, match c with CallOnChange cb modelId => Some (Changed cb modelId) | _ => None end) cmds.

Lemma queue_all_nil f : queue_all [] f = f.
Proof. destruct f. unfold queue_all. simpl. by rewrite app_nil_r. Qed.

Lemma queue_all_app bs1 bs2 f :
  queue_all bs2 (queue_all bs1 f) = queue_all (bs1 ++ bs2) f.
Proof. unfold queue_all. simpl. by rewrite app_assoc. Qed.

Lemma queue_queue_all b f : queue b f = queue_all [b] f.
Proof. done. Qed.

(** Commands touch the queue of updates and the trace, nothing else. *)
Lemma exec_all_eq cmds w :
  exec_all cmds w =
    mkWorld (queue_all (sets_of cmds) <$> fiber w) (surface w) (next_closure w)
            (trace w ++ calls_of cmds).
Proof.
  revert w. induction cmds as [|c cmds IH]; intros [fo s n tr]; simpl.
  - rewrite app_nil_r. f_equal. destruct fo as [f|]; simpl; [|done].
    by rewrite queue_all_nil.
  - unfold exec_all in *. simpl. rewrite IH. destruct c; simpl; f_equal.
    + destruct fo as [f|]; simpl; [|done].
      by rewrite queue_queue_all, queue_all_app.
    + by rewrite <-app_assoc.
Qed.

Lemma dispatch_nil w : dispatch [] w = (false, w).
Proof. done. Qed.

Lemma dispatch_toggle o w :
  dispatch [ToggleClosure o] w = (true, exec_all (handleToggle o) w).
Proof. done. Qed.

Lemma dispatch_select cb modelId w :
  dispatch [SelectClosure cb modelId] w = (false, exec_all (handleSelect cb modelId) w).
Proof. done. Qed.

(** The handlers never touch the page. *)
Lemma exec_all_surface cmds w : surface (exec_all cmds w) = surface w.
Proof. by rewrite exec_all_eq. Qed.

Lemma dispatch_surface hs w : surface (dispatch hs w).2 = surface w.
Proof.
  revert w. induction hs as [|h hs IH]; intros w; simpl; [done|].
  destruct (stops (call h)); simpl; [|rewrite IH]; apply exec_all_surface.
Qed.

Lemma click_surface target w : surface (click target w) = surface w.
Proof.
  unfold click. destruct (fiber w) as [f|]; [|done].
  destruct (reached f target) as [hs|]; [|done].
  pose proof (dispatch_surface hs w) as Hd. by destruct (dispatch hs w) as [[] w'].
Qed.

Lemma listen_surface target w (l : nat) : surface (listen target w l) = surface w.
Proof. apply exec_all_surface. Qed.

(** ** Runs *)

Lemma run_app es1 es2 w : run (es1 ++ es2) w = run es2 (run es1 w).
Proof. apply foldl_app. Qed.

(** The reachable worlds are the worlds at the end of a run from the
    initial render. *)
Lemma reachable_run p es w : reachable p w → reachable p (run es w).
Proof.
  revert w. induction es as [|e es IH]; intros w Hw; simpl; [done|].
  by apply IH, reachable_step.
Qed.

Lemma reachable_is_run p w : reachable p w ↔ ∃ es, w = run es (mount p blank).
Proof.
  split.
  - induction 1 as [|e w _ [es ->]]; [by exists []|].
    exists (es ++ [e]). by rewrite run_app.
  - intros [es ->]. apply reachable_run, reachable_mount.
Qed.

(** ** The refs of a committed render *)

Lemma ref_node_button p (o : bool) (lbl : string) :
  ref_node (view models p o lbl) buttonRef = Some (root ++ button_path).
Proof. unfold ref_node. by rewrite find_ref_button. Qed.

Lemma ref_node_dropdown p (o : bool) (lbl : string) :
  ref_node (view models p o lbl) dropdownRef =
    if o then Some (root ++ dropdown_path) else None.
Proof. unfold ref_node. rewrite find_ref_dropdown. by destruct o. Qed.

(** ** Paths below the wrapper *)

Lemma below_app a q : below a (a ++ q) = Some q.
Proof. induction a as [|i a IH]; simpl; [done|]. by rewrite decide_True. Qed.

Lemma below_Some a target q : below a target = Some q ↔ target = a ++ q.
Proof.
  split; [|intros ->; apply below_app].
  revert target. induction a as [|i a IH]; intros [|j target]; simpl; try done.
  - by intros [= ->].
  - by intros [= ->].
  - case_decide as Hij; [|done]. subst. by intros ->%IH.
Qed.

Lemma below_None a target : below a target = None ↔ contains a target = false.
Proof.
  rewrite <-not_true_iff_false, contains_spec.
  destruct (below a target) as [q|] eqn:Hq.
  - apply below_Some in Hq as ->. split; [done|]. intros []. by exists q.
  - split; [|done]. intros _ [q ->]. by rewrite below_app in Hq.
Qed.

End runtime.

End Runtime.
