(* ===== verification/Component.v ===== *)
(** * The function component, hook by hook

    [ModelSelect_component] is the function of ModelSelect.tsx, lines
    14-107, statement by statement: it calls [useState], [useRef] twice,
    [useCallback] twice and [useEffect], in the order of the source, and
    returns the element.  The hooks are React's: they read and write the
    cells React keeps for the instance between renders ([Store]), threaded
    through the call as the state of a small monad ([Hook]).
    [commit_effect] is what React does with the function passed to
    [useEffect] once the render is committed.

    [Runtime] does not call the hooks: its [mount], [rerender_with] and
    [flush_effects] build the [Fiber] directly from [render] and [effect].
    The theorems of this file show that this is the same thing: the
    fiber of the life cycle is, cell by cell, what the hooks leave in the
    store ([store_of]). *)

From S2P Require Import Prelude Jsx Models Browser ModelSelect Hooks Runtime.
Import Jsx Registry Browser ModelSelect Hooks Runtime.

Module Component.

(** A cell of [useCallback] among the cells of the component. *)
Record Slot (V D : Type) : Type := mkSlot {
  slot_get : Cells → option (V * D);
  slot_set : option (V * D) → Cells → Cells;
}.

Arguments mkSlot {V D} slot_get slot_set.
Arguments slot_get {V D} s cells.
Arguments slot_set {V D} s cell cells.

(** The cells of the two calls, lines 24 and 32. *)
Definition handleToggle_slot : Slot Handler bool :=
  mkSlot handleToggle_cell (λ cell cells, mkCells cell (handleSelect_cell cells)).

Definition handleSelect_slot : Slot (string → Handler) nat :=
  mkSlot handleSelect_cell (λ cell cells, mkCells (handleToggle_cell cells) cell).

Section component.
Context (models : list Model) (root : Node) `{Surface B}.

(** What React keeps for one instance between renders. *)
Record Store : Type := mkStore {
  (** [useState]: the state the last render returned ([None] before the
      first render), and the values [setIsOpen] was called with since. *)
  state_cell : option bool;
  state_queue : list bool;
  (** [useCallback]: the closures and dependencies of the last render. *)
  memo_cells : Cells;
  (** [useEffect]: the dependencies of the last run of the effect, the
      cleanup that run returned, and what the last render passed to
      [useEffect]. *)
  effect_ran : option bool;
  effect_undo : option Cleanup;
  effect_next : option (bool * (nat → B → option Cleanup * B));
}.

(** The store before the first render. *)
Definition first_store : Store := mkStore None [] first_render None None None.

(** A call of a hook during a render. *)
Definition Hook (A : Type) : Type := Store → A * Store.

#[local] Instance Hook_ret : MRet Hook := λ A a st, (a, st).
#[local] Instance Hook_bind : MBind Hook :=
  λ A C k m st, let '(a, st') := m st in k a st'.

(** [useState(init)]: the initial value in the first render, afterwards
    the last value [setIsOpen] was called with, or the state of the last
    render when it was not called.  The queue is consumed. *)
Definition useState (init : bool) : Hook bool := λ st,
  let v := default (default init (state_cell st)) (last (state_queue st)) in
  (v, mkStore (Some v) [] (memo_cells st) (effect_ran st) (effect_undo st)
              (effect_next st)).

(** [setIsOpen(b)], called by a handler or by the listener between two
    renders. *)
Definition setIsOpen (b : bool) (st : Store) : Store :=
  mkStore (state_cell st) (state_queue st ++ [b]) (memo_cells st) (effect_ran st)
          (effect_undo st) (effect_next st).

(** [useRef(null)]: the same ref object in every render. *)
Definition useRef (r : Ref) : Hook Ref := mret r.

(** [useCallback(fn, deps)] on its cell. *)
Definition useCallback_at {V D : Type} `{EqDecision D} (slot : Slot V D)
    (fn : V) (deps : D) : Hook V := λ st,
  let '(fn', cell) := useCallback (slot_get slot (memo_cells st)) fn deps in
  (fn', mkStore (state_cell st) (state_queue st) (slot_set slot cell (memo_cells st))
                (effect_ran st) (effect_undo st) (effect_next st)).

(** [useEffect(fn, deps)]: React keeps the function and the dependencies
    until the render is committed. *)
Definition useEffect (fn : nat → B → option Cleanup * B) (deps : bool) : Hook unit := λ st,
  (tt, mkStore (state_cell st) (state_queue st) (memo_cells st) (effect_ran st)
               (effect_undo st) (Some (deps, fn))).

(** After the commit: when the dependencies differ from those of the last
    run (or there was none), the cleanup of the last run and then the
    function, which gets the next closure number; the result is the store,
    the page and the next closure number. *)
Definition commit_effect (fresh : nat) (st : Store) (s : B) : Store * B * nat :=
  match effect_next st with
  | Some (deps, fn) =>
      if decide (effect_ran st = Some deps) then (st, s, fresh)
      else
        let s0 := match effect_undo st with Some c => cleanup c s | None => s end in
        let '(c, s') := fn fresh s0 in
        (mkStore (state_cell st) (state_queue st) (memo_cells st) (Some deps) c
                 (effect_next st), s', S fresh)
  | None => (st, s, fresh)
  end.

(** ModelSelect, lines 14-107. *)
Definition ModelSelect_component (p : ModelSelectProps) : Hook (Result Tree) :=
  isOpen ← useState false;
  useRef buttonRef;;
  useRef dropdownRef;;
  let currentModel := Registry.currentModel models (value p) in
  handleToggle ← useCallback_at handleToggle_slot (ToggleClosure isOpen) isOpen;
  handleSelect ← useCallback_at handleSelect_slot (SelectClosure (onChange p)) (onChange p);
  useEffect (effect isOpen) isOpen;;
  mret (return_el handleToggle handleSelect models p isOpen <$>
          js_get "Cannot read properties of undefined (reading 'label')" label currentModel).

(** The store of a committed fiber: the cells hold what the fiber
    records, and the effect React keeps is the one the render of the
    fiber's state passed to [useEffect]. *)
Definition store_of (f : Fiber) (cells : Cells) : Store :=
  mkStore (Some (isOpen f)) (updates f) cells (effect_deps f) (effect_cleanup f)
          (Some (isOpen f, effect (isOpen f))).

(** The state a render reads from a store. *)
Definition state_read (st : Store) : bool :=
  default (default false (state_cell st)) (last (state_queue st)).

(** ** One render *)

(** The component is [ModelSelect_fn] for the state [useState] returns,
    and leaves the effect of that state in the store. *)
Lemma component_fn p st :
  ModelSelect_component p st =
    ((ModelSelect_fn models p (state_read st) (memo_cells st)).1,
     mkStore (Some (state_read st)) []
             (ModelSelect_fn models p (state_read st) (memo_cells st)).2
             (effect_ran st) (effect_undo st)
             (Some (state_read st, effect (state_read st)))).
Proof.
  unfold ModelSelect_component, ModelSelect_fn, mbind, Hook_bind, useState, useRef,
    useCallback_at, useEffect, mret, Hook_ret, state_read. simpl.
  destruct (useCallback (handleToggle_cell _) _ _) as [hT ct].
  by destruct (useCallback (handleSelect_cell _) _ _) as [hS cs].
Qed.

Lemma component_render p st :
  cells_ok (memo_cells st) →
  ∃ cells, cells_ok cells ∧
    ModelSelect_component p st =
      (render models p (state_read st),
       mkStore (Some (state_read st)) [] cells (effect_ran st) (effect_undo st)
               (Some (state_read st, effect (state_read st)))).
Proof.
  intros Hok. rewrite component_fn.
  destruct (ModelSelect_fn_render models p (state_read st) _ Hok) as [Hr Hok'].
  eexists. split; [exact Hok'|]. by rewrite Hr.
Qed.

Lemma state_read_store_of f cells : state_read (store_of f cells) = next_isOpen f.
Proof. done. Qed.

(** [setIsOpen] is the queueing of the life cycle. *)
Lemma store_of_queue b f cells : store_of (queue b f) cells = setIsOpen b (store_of f cells).
Proof. done. Qed.

(** ** The effect *)

Lemma commit_effect_flush w f cells :
  fiber w = Some f →
  ∃ f', fiber (flush_effects w) = Some f' ∧
    commit_effect (next_closure w) (store_of f cells) (surface w) =
      (store_of f' cells, surface (flush_effects w), next_closure (flush_effects w)).
Proof.
  intros Hf. unfold commit_effect, flush_effects, effect_due, run_cleanup. rewrite Hf. simpl.
  case_bool_decide as Hdue.
  - rewrite decide_False by done. destruct (effect _ _ _) as [c s']. by eexists.
  - rewrite decide_True by done. exists f. by rewrite Hf.
Qed.

(** C23: the life cycle is React's hooks applied to the function as it is
    written.  In the first render the component returns what [mount]
    renders and leaves the store of the fiber [mount] commits; in a later
    render of a fiber, with any props, it returns what [rerender_with]
    renders for the last value [setIsOpen] was called with and leaves the
    store of the fiber [rerender_with] commits; and what React does with
    the function passed to [useEffect] after the commit is
    [flush_effects], on the store, on the page and on the closure
    counter. *)
Theorem life_cycle_runs_component p w f cells :
  fiber w = Some f → cells_ok cells →
  (∃ cells0, cells_ok cells0 ∧
     (ModelSelect_component p first_store).1 = render models p false ∧
     ∀ t, (ModelSelect_component p first_store).2 =
            store_of (committed root p false t None None) cells0) ∧
  (∃ cells', cells_ok cells' ∧
     (ModelSelect_component p (store_of f cells)).1 = render models p (next_isOpen f) ∧
     ∀ t, (ModelSelect_component p (store_of f cells)).2 =
            store_of (committed root p (next_isOpen f) t (effect_deps f) (effect_cleanup f))
                     cells') ∧
  (∃ f', fiber (flush_effects w) = Some f' ∧
     commit_effect (next_closure w) (store_of f cells) (surface w) =
       (store_of f' cells, surface (flush_effects w), next_closure (flush_effects w))).
Proof.
  intros Hf Hok. split_and!.
  - destruct (component_render p first_store cells_ok_first_render) as (c0 & ? & ->).
    by exists c0.
  - destruct (component_render p (store_of f cells) Hok) as (c' & ? & ->).
    by exists c'.
  - by apply commit_effect_flush.
Qed.

End component.

End Component.
