(* ===== verification/Invariant.v ===== *)
(** * The invariant of the life cycle

    [wf] relates the three things that must agree in every reachable
    world: what the last render returned (the committed tree and the refs),
    what the effect last did (its dependency and its cleanup) and what the
    browser holds for the component (its timer and its listener).  Every
    step preserves it, for every surface that satisfies the interface; the
    safety properties of the listener are its consequences. *)

From S2P Require Import Prelude Jsx Models Browser ModelSelect Runtime.
Import Jsx Registry Browser ModelSelect Runtime.
From S2P Require Import ModelSelectFacts.
Import ModelSelectFacts.

Module Invariant.

Section invariant.
Context (models : list Model) (root : Node) `{Surface B}.
Implicit Types (w : World B) (f : Fiber) (s : B) (p : ModelSelectProps).
Implicit Types (target : Node) (cmds : list Cmd) (e : Event).

#[local] Abbreviation mount := (Runtime.mount models root).
#[local] Abbreviation step := (Runtime.step models root).
#[local] Abbreviation rerender_with := (Runtime.rerender_with models root).
#[local] Abbreviation reachable := (Runtime.reachable models root).

(** The committed tree is what [render] returns for the committed props and
    state. *)
Definition wf_tree f : Prop :=
  ∃ m, currentModel models (value (props f)) = Some m ∧
       tree f = view models (props f) (isOpen f) (label m).

(** The refs point at the button and, while it is rendered, at the
    dropdown. *)
Definition wf_refs f : Prop :=
  button_current f = Some (root ++ button_path) ∧
  dropdown_current f = if isOpen f then Some (root ++ dropdown_path) else None.

(** The browser holds exactly what the last run of the effect left there:
    nothing if it ran closed (or never ran); if it ran open, either its
    timer, still pending, or the listener that timer registered. *)
Definition wf_effect f s : Prop :=
  match effect_deps f, effect_cleanup f with
  | None, None => isOpen f = false ∧ timers s = [] ∧ listeners s = []
  | Some false, None => timers s = [] ∧ listeners s = []
  | Some true, Some c =>
      (timers s = [(timer c, listener c)] ∧ listeners s = []) ∨
      (timers s = [] ∧ listeners s = [listener c])
  | _, _ => False
  end.

Definition wf_fiber f s : Prop := wf_tree f ∧ wf_refs f ∧ wf_effect f s.

Definition wf w : Prop :=
  match fiber w with
  | Some f => wf_fiber f (surface w)
  | None => timers (surface w) = [] ∧ listeners (surface w) = []
  end.

(** ** Preservation, operation by operation *)

Lemma wf_fiber_queue_all bs f s : wf_fiber (queue_all bs f) s ↔ wf_fiber f s.
Proof. done. Qed.

Lemma wf_exec_all cmds w : wf w → wf (exec_all cmds w).
Proof.
  rewrite exec_all_eq. unfold wf. simpl. by destruct (fiber w).
Qed.

Lemma wf_committed p (o : bool) (t : Tree) deps c s :
  render models p o = Ok t →
  wf_effect (committed root p o t deps c) s →
  wf_fiber (committed root p o t deps c) s.
Proof.
  intros (m & Hm & ->)%render_Ok_inv Heff. split_and!; [|split|done].
  - by exists m.
  - apply ref_node_button.
  - apply ref_node_dropdown.
Qed.

(** The first render on a page that holds nothing of the component. *)
Lemma wf_mount_on p s : timers s = [] → listeners s = [] → wf (mount p s).
Proof.
  intros Ht Hl. unfold mount, wf. destruct (render models p false) as [t|err] eqn:Hr; simpl.
  - by apply wf_committed.
  - done.
Qed.

Lemma wf_mount p : wf (mount p blank).
Proof. apply wf_mount_on; [apply timers_blank|apply listeners_blank]. Qed.

(** The invariant reads the browser through [timers] and [listeners]
    only. *)
Lemma wf_surface_ext w s :
  timers s = timers (surface w) → listeners s = listeners (surface w) →
  wf w → wf (mkWorld (fiber w) s (next_closure w) (trace w)).
Proof.
  intros Ht Hl. unfold wf, wf_fiber, wf_effect. simpl. rewrite Ht, Hl.
  by destruct (fiber w).
Qed.

(** The cleanup of a well-formed fiber leaves the browser with nothing of
    the component. *)
Lemma run_cleanup_clean f s :
  wf_effect f s →
  timers (run_cleanup f s) = [] ∧ listeners (run_cleanup f s) = [].
Proof.
  unfold wf_effect, run_cleanup, cleanup.
  destruct (effect_deps f) as [[]|], (effect_cleanup f) as [c|]; try done.
  - autorewrite with ui. intros [[-> ->]|[-> ->]]; simpl.
    + by rewrite filter_cons_False by naive_solver.
    + by rewrite filter_cons_False by naive_solver.
  - by intros (_ & ? & ?).
Qed.

(** After a flush the effect has run for the committed state. *)
Lemma flush_effects_fiber w f :
  fiber w = Some f →
  ∃ c, fiber (flush_effects w) = Some (ran_effect c f) ∧
       (effect_due f = false → c = effect_cleanup f ∧ flush_effects w = w).
Proof.
  intros Hf. unfold flush_effects. rewrite Hf. destruct (effect_due f) eqn:Hdue.
  - destruct (effect _ _ _) as [c s]. by exists c.
  - exists (effect_cleanup f). split; [|done]. rewrite Hf. f_equal.
    apply bool_decide_eq_false, dec_stable in Hdue.
    destruct f. unfold ran_effect. simpl in *. by rewrite Hdue.
Qed.

(** The run of an effect that is due is the cleanup and the effect. *)
Lemma flush_effects_due w f :
  fiber w = Some f → effect_due f = true → flush_effects w = rerun_effect w.
Proof. intros Hf Hdue. unfold flush_effects, rerun_effect. by rewrite Hf, Hdue. Qed.

Lemma wf_rerun_effect w : wf w → wf (rerun_effect w).
Proof.
  unfold wf, rerun_effect. destruct (fiber w) as [f|] eqn:Hf; [|by rewrite Hf].
  intros (Htree & Hrefs & Heff). unfold effect.
  pose proof (run_cleanup_clean f (surface w) Heff) as [Ht Hl].
  destruct (isOpen f) eqn:Ho; simpl.
  - destruct (setTimeout _ _) as [t s'] eqn:Hset. simpl.
    split_and!; [done..|]. unfold wf_effect. simpl. rewrite Ho. left.
    pose proof (timers_setTimeout (next_closure w) (run_cleanup f (surface w))) as Ht'.
    pose proof (listeners_setTimeout (next_closure w) (run_cleanup f (surface w))) as Hl'.
    rewrite Hset in Ht', Hl'. simpl in *. by rewrite Ht', Hl', Ht, Hl.
  - split_and!; [done..|]. unfold wf_effect. simpl. by rewrite Ho.
Qed.

Lemma wf_flush_effects w : wf w → wf (flush_effects w).
Proof.
  intros Hw. destruct (fiber w) as [f|] eqn:Hf; [|unfold flush_effects; by rewrite Hf].
  destruct (effect_due f) eqn:Hdue.
  - rewrite (flush_effects_due w f) by done. by apply wf_rerun_effect.
  - unfold flush_effects. by rewrite Hf, Hdue.
Qed.

Lemma wf_reconnect w : wf w → wf (reconnect w).
Proof. intros Hw. by apply wf_rerun_effect, wf_flush_effects. Qed.

(** After a flush no effect is due. *)
Lemma flush_effects_not_due w f :
  fiber (flush_effects w) = Some f → effect_due f = false.
Proof.
  destruct (fiber w) as [f0|] eqn:Hf0.
  - destruct (flush_effects_fiber w f0 Hf0) as (c & -> & _). intros [= <-].
    apply bool_decide_eq_false. by intros [].
  - unfold flush_effects. by rewrite Hf0, Hf0.
Qed.

Lemma wf_rerender_with p w : wf w → wf (rerender_with p w).
Proof.
  intros Hw%wf_flush_effects. unfold rerender_with.
  destruct (fiber (flush_effects w)) as [f|] eqn:Hf; [|done].
  unfold wf in Hw. rewrite Hf in Hw. destruct Hw as (_ & _ & Heff).
  pose proof (flush_effects_not_due w f Hf) as Hdue.
  apply bool_decide_eq_false, dec_stable in Hdue.
  destruct (render models p (next_isOpen f)) as [t|err] eqn:Hr; unfold wf; simpl.
  - apply wf_committed; [done|]. unfold wf_effect in *. simpl.
    rewrite Hdue in *. by destruct (isOpen f), (effect_cleanup f).
  - by apply run_cleanup_clean.
Qed.

Lemma wf_rerender w : wf w → wf (rerender models root w).
Proof.
  unfold rerender. destruct (fiber w); [apply wf_rerender_with|done].
Qed.

Lemma wf_unmount w : wf w → wf (unmount w).
Proof.
  intros Hw%wf_flush_effects. unfold unmount.
  destruct (fiber (flush_effects w)) as [f|] eqn:Hf; [|done].
  unfold wf in *. rewrite Hf in Hw. simpl. by apply run_cleanup_clean, Hw.
Qed.

Lemma wf_click target w : wf w → wf (click root target w).
Proof.
  intros Hw. unfold click. destruct (fiber w) as [f|] eqn:Hf; [|done].
  destruct (reached root f target) as [hs|]; [|done].
  assert (∀ hs w, wf w → wf (dispatch hs w).2) as Hdispatch.
  { clear. induction hs as [|h hs IH]; intros w Hw; simpl; [done|].
    destruct (stops (call h)); simpl; [by apply wf_exec_all|].
    by apply IH, wf_exec_all. }
  specialize (Hdispatch hs w Hw). destruct (dispatch hs w) as [[] w']; done.
Qed.

Lemma wf_mousedown target w : wf w → wf (mousedown target w).
Proof.
  unfold mousedown. generalize (listeners (surface w)). intros ls. revert w.
  induction ls as [|l ls IH]; intros w Hw; simpl; [done|].
  by apply IH, wf_exec_all.
Qed.

Lemma wf_tick w : wf w → wf (tick w).
Proof.
  unfold tick. destruct (takeTimer (surface w)) as [[cb s]|] eqn:Htake; [|done].
  apply takeTimer_Some in Htake as (t & Ht & Hl).
  unfold wf. simpl. unfold arm. destruct (fiber w) as [f|].
  - intros (Htree & Hrefs & Heff). split_and!; [done..|].
    unfold wf_effect in *.
    destruct (effect_deps f) as [[]|], (effect_cleanup f) as [c|]; try done.
    + destruct Heff as [[Ht' Hl']|[Ht' _]]; [|by rewrite Ht' in Ht].
      rewrite Ht in Ht'. simplify_eq. right.
      rewrite timers_addEventListener, listeners_addEventListener, Hl, Hl'.
      by rewrite decide_False by apply not_elem_of_nil.
    + destruct Heff as [Ht' _]. by rewrite Ht' in Ht.
    + destruct Heff as (_ & Ht' & _). by rewrite Ht' in Ht.
  - intros [Ht' _]. by rewrite Ht' in Ht.
Qed.

Lemma wf_step e w : wf w → wf (step e w).
Proof.
  destruct e; simpl; eauto using wf_click, wf_mousedown, wf_tick, wf_rerender,
    wf_flush_effects, wf_rerender_with, wf_unmount.
Qed.

Lemma wf_run es w : wf w → wf (Runtime.run models root es w).
Proof.
  revert w. induction es as [|e es IH]; intros w Hw; [done|].
  simpl. by apply IH, wf_step.
Qed.

Lemma wf_reachable p w : reachable p w → wf w.
Proof. induction 1 as [|e w _ IH]; [apply wf_mount|by apply wf_step]. Qed.

(** C2: the invariant holds after every sequence of events, in any order,
    from the initial render on a blank page: the committed tree is the
    render of the committed props and state, the refs point at the button
    and at the rendered dropdown, and the browser holds exactly what the
    last run of the effect left there. *)
Theorem run_wf p es : wf (Runtime.run models root es (mount p blank)).
Proof. apply (wf_reachable p), reachable_run, reachable_mount. Qed.

(** ** Consequences for the browser state *)

(** What [wf] says of the browser, whatever the fiber: the component holds
    at most one thing there, a pending timer or a registered listener. *)
Lemma wf_surface w :
  wf w → length (timers (surface w)) + length (listeners (surface w)) ≤ 1.
Proof.
  unfold wf, wf_fiber, wf_effect. destruct (fiber w) as [f|].
  - destruct (effect_deps f) as [[]|], (effect_cleanup f) as [c|];
      intros (_ & _ & Heff); try done.
    + destruct Heff as [[-> ->]|[-> ->]]; simpl; lia.
    + destruct Heff as [-> ->]. simpl; lia.
    + destruct Heff as (_ & -> & ->). simpl; lia.
  - intros [-> ->]. simpl; lia.
Qed.

(** C8: at most one outside-click subscription exists at any time, and never
    together with a pending timer: the number of pending timers plus the
    number of registered listeners is at most one in every reachable
    world. *)
Theorem at_most_one_listener p w :
  reachable p w →
  length (timers (surface w)) + length (listeners (surface w)) ≤ 1.
Proof. intros Hw. by apply wf_surface, (wf_reachable p). Qed.

(** What the browser holds, the last run of the effect put there: a
    component with a timer or a listener is mounted, and its effect last
    ran for an open dropdown. *)
Lemma wf_holding w :
  wf w → length (timers (surface w)) + length (listeners (surface w)) ≠ 0 →
  ∃ f, fiber w = Some f ∧ effect_deps f = Some true.
Proof.
  unfold wf, wf_fiber, wf_effect. destruct (fiber w) as [f|].
  - destruct (effect_deps f) as [[]|] eqn:Hdeps, (effect_cleanup f) as [c|];
      intros (_ & _ & Heff) Hlen; try done.
    + by exists f.
    + destruct Heff as [Ht Hl]. by rewrite Ht, Hl in Hlen.
    + destruct Heff as (_ & Ht & Hl). by rewrite Ht, Hl in Hlen.
  - intros [Ht Hl] Hlen. by rewrite Ht, Hl in Hlen.
Qed.

Lemma wf_listener w l :
  wf w → l ∈ listeners (surface w) →
  ∃ f c, fiber w = Some f ∧ effect_deps f = Some true ∧
         effect_cleanup f = Some c ∧ listener c = l ∧ timers (surface w) = [].
Proof.
  intros Hw Hl. unfold wf, wf_fiber, wf_effect in Hw.
  destruct (fiber w) as [f|]; [|destruct Hw as [_ Hw]; rewrite Hw in Hl; by inv Hl].
  destruct Hw as (_ & _ & Heff).
  destruct (effect_deps f) as [[]|] eqn:Hdeps, (effect_cleanup f) as [c|] eqn:Hc;
    try done.
  - destruct Heff as [[_ Hl']|[Ht Hl']]; rewrite Hl' in Hl; [by inv Hl|].
    apply list_elem_of_singleton in Hl as ->. by exists f, c.
  - destruct Heff as [_ Hl']. rewrite Hl' in Hl. by inv Hl.
  - destruct Heff as (_ & _ & Hl'). rewrite Hl' in Hl. by inv Hl.
Qed.

(** C26: a registered listener is never stale: it is the listener the cleanup
    of the mounted component will remove, the effect that registered it
    ran for an open dropdown, and its timer has run. *)
Theorem listener_is_current p w l :
  reachable p w → l ∈ listeners (surface w) →
  ∃ f c, fiber w = Some f ∧ effect_deps f = Some true ∧
         effect_cleanup f = Some c ∧ listener c = l ∧ timers (surface w) = [].
Proof. intros Hw%wf_reachable. by apply wf_listener. Qed.

(** C25: once the effects of a render that closed the dropdown have run, the
    component holds nothing in the browser: no timer is pending and no
    listener is registered. *)
Theorem closed_holds_nothing p w f :
  reachable p w → fiber w = Some f → effect_deps f = Some false →
  timers (surface w) = [] ∧ listeners (surface w) = [].
Proof.
  intros Hw%wf_reachable Hf Hdeps. unfold wf in Hw. rewrite Hf in Hw.
  destruct Hw as (_ & _ & Heff). unfold wf_effect in Heff. rewrite Hdeps in Heff.
  by destruct (effect_cleanup f).
Qed.

Lemma unmount_gone w : fiber (unmount w) = None.
Proof. unfold unmount. by destruct (fiber (flush_effects w)) eqn:Hf. Qed.

(** C10: unmounting releases everything: after [unmount] the component is
    gone, no timer of it is pending and no listener of it is registered,
    whatever state it was unmounted in. *)
Theorem unmount_releases p w :
  reachable p w →
  fiber (unmount w) = None ∧
  timers (surface (unmount w)) = [] ∧ listeners (surface (unmount w)) = [].
Proof.
  intros Hw%wf_reachable%wf_unmount. split; [apply unmount_gone|].
  unfold wf in Hw. by rewrite unmount_gone in Hw.
Qed.

Lemma step_unmounted w e : wf w → fiber w = None → step e w = w.
Proof.
  intros Hw Hnone. unfold wf in Hw. rewrite Hnone in Hw.
  destruct Hw as [Ht Hl]. destruct e; simpl.
  - unfold click. by rewrite Hnone.
  - unfold mousedown. by rewrite Hl.
  - unfold tick. apply takeTimer_None in Ht. by rewrite Ht.
  - unfold rerender. by rewrite Hnone.
  - unfold flush_effects. by rewrite Hnone.
  - unfold Runtime.rerender_with, flush_effects. by rewrite Hnone, Hnone.
  - unfold unmount, flush_effects. by rewrite Hnone, Hnone.
Qed.

(** An unmounted component is inert: no event changes the world any
    more (no listener is left to react to a press, no timer to fire). *)
Lemma unmounted_inert p w e :
  reachable p w → fiber w = None → step e w = w.
Proof. intros Hw%wf_reachable. by apply step_unmounted. Qed.

Lemma mousedown_pending w target :
  wf w → timers (surface w) ≠ [] → mousedown target w = w.
Proof.
  intros Hw Ht. unfold mousedown.
  destruct (listeners (surface w)) as [|l ls] eqn:Hl; [done|].
  destruct (wf_listener w l Hw) as (_ & _ & _ & _ & _ & _ & Ht').
  - rewrite Hl. by left.
  - done.
Qed.

(** C3: the detector is not live in the turn that opened the dropdown: while
    the zero-delay timer is pending, a press anywhere changes nothing. *)
Theorem mousedown_while_timer_pending p w target :
  reachable p w → timers (surface w) ≠ [] → mousedown target w = w.
Proof. intros Hw%wf_reachable. by apply mousedown_pending. Qed.

End invariant.

End Invariant.
