(* ===== verification/Independence.v ===== *)
(** * The component does not depend on the page

    The browser decides the ids of the timers, and different pages (or the
    same page with other code on it) hand out different ids.  The
    component stores the id it was given and hands it back to
    [clearTimeout]; nothing else of its behaviour reads it.  [observe] is a
    world without the timer ids; the theorems show that every step, and so
    every run, maps worlds with the same observation to worlds with the
    same observation, for any two implementations of the interface
    [Browser.Surface]. *)

From S2P Require Import Prelude Jsx Models Browser ModelSelect Runtime Invariant.
Import Jsx Registry Browser ModelSelect Runtime Invariant.
From S2P Require Import ModelSelectFacts.
Import ModelSelectFacts.

Module Independence.

(** A fiber without the id of its timer. *)
Definition erase_timer (f : Fiber) : Fiber :=
  mkFiber (props f) (isOpen f) (updates f) (tree f)
          (button_current f) (dropdown_current f) (effect_deps f)
          ((λ c, mkCleanup 0 (listener c)) <$> effect_cleanup f).

Arguments erase_timer f : simpl never.

(** What can be seen of a world when timer ids are left out: the fiber, the
    callbacks of the pending timers in the order they will run, the
    listeners, the closure counter and the trace. *)
Record Observation : Type := mkObservation {
  seen_fiber : option Fiber;
  seen_callbacks : list nat;
  seen_listeners : list nat;
  seen_closure : nat;
  seen_trace : list Output;
}.

Definition observe `{Surface B} (w : World B) : Observation :=
  mkObservation (erase_timer <$> fiber w) (timers (surface w)).*2
                (listeners (surface w)) (next_closure w) (trace w).

(** Two worlds, on pages that may differ, look alike. *)
Definition alike `{Surface B1} `{Surface B2} (w : World B1) (v : World B2) : Prop :=
  observe w = observe v.

(** ** What the erased fiber keeps *)

Lemma erase_timer_queue_all bs f :
  erase_timer (queue_all bs f) = queue_all bs (erase_timer f).
Proof. done. Qed.

Lemma erase_timer_inv f1 f2 :
  erase_timer f1 = erase_timer f2 →
  props f1 = props f2 ∧ isOpen f1 = isOpen f2 ∧ updates f1 = updates f2 ∧
  tree f1 = tree f2 ∧ button_current f1 = button_current f2 ∧
  dropdown_current f1 = dropdown_current f2 ∧ effect_deps f1 = effect_deps f2 ∧
  listener <$> effect_cleanup f1 = listener <$> effect_cleanup f2.
Proof.
  unfold erase_timer. intros [= ? ? ? ? ? ? ? Hc]. split_and!; try done.
  destruct (effect_cleanup f1), (effect_cleanup f2); simplify_eq/=; congruence.
Qed.

Lemma erase_timer_committed root p o t deps c1 c2 :
  listener <$> c1 = listener <$> c2 →
  erase_timer (committed root p o t deps c1) = erase_timer (committed root p o t deps c2).
Proof.
  unfold erase_timer, committed. simpl. intros Hc. f_equal.
  destruct c1, c2; simplify_eq/=; congruence.
Qed.

Lemma erase_timer_ran_effect c1 c2 f1 f2 :
  erase_timer f1 = erase_timer f2 → listener <$> c1 = listener <$> c2 →
  erase_timer (ran_effect c1 f1) = erase_timer (ran_effect c2 f2).
Proof.
  intros (? & ? & ? & ? & ? & ? & _)%erase_timer_inv Hc.
  unfold erase_timer, ran_effect. simpl. f_equal; try congruence.
  destruct c1, c2; simplify_eq/=; congruence.
Qed.

(** A list of commands acts on what is observed. *)
Lemma observe_exec_all `{Surface B} cmds (w : World B) :
  observe (exec_all cmds w) =
    mkObservation (queue_all (sets_of cmds) <$> seen_fiber (observe w))
                  (seen_callbacks (observe w)) (seen_listeners (observe w))
                  (seen_closure (observe w)) (seen_trace (observe w) ++ calls_of cmds).
Proof. rewrite exec_all_eq. unfold observe. simpl. f_equal. by destruct (fiber w). Qed.

Section independence.
Context (models : list Model) (root : Node) `{Surface B1} `{Surface B2}.
Implicit Types (w : World B1) (v : World B2) (f : Fiber).
Implicit Types (target : Node) (cmds : list Cmd) (hs : list Handler) (e : Event).

#[local] Abbreviation wf1 := (Invariant.wf (B := B1) models root).
#[local] Abbreviation wf2 := (Invariant.wf (B := B2) models root).

(** Worlds that look alike are both mounted, with fibers that differ in the
    timer id at most, or both unmounted. *)
Inductive AlikeView w v : Prop :=
| AlikeMounted f1 f2 :
    fiber w = Some f1 → fiber v = Some f2 → erase_timer f1 = erase_timer f2 →
    AlikeView w v
| AlikeGone : fiber w = None → fiber v = None → AlikeView w v.

Lemma alike_view w v : alike w v → AlikeView w v.
Proof.
  intros [= Hf _ _ _ _].
  destruct (fiber w) as [f1|] eqn:Hf1, (fiber v) as [f2|] eqn:Hf2; try done.
  - simpl in Hf. eapply AlikeMounted; [done..|congruence].
  - by apply AlikeGone.
Qed.

Lemma alike_intro w v :
  erase_timer <$> fiber w = erase_timer <$> fiber v →
  (timers (surface w)).*2 = (timers (surface v)).*2 →
  listeners (surface w) = listeners (surface v) →
  next_closure w = next_closure v → trace w = trace v → alike w v.
Proof. unfold alike, observe. by intros -> -> -> -> ->. Qed.

(** ** Handlers *)

Lemma alike_exec_all cmds w v :
  alike w v → alike (exec_all cmds w) (exec_all cmds v).
Proof. unfold alike. rewrite !observe_exec_all. by intros ->. Qed.

Lemma alike_say out w v :
  alike w v →
  alike (mkWorld (fiber w) (surface w) (next_closure w) (trace w ++ out))
        (mkWorld (fiber v) (surface v) (next_closure v) (trace v ++ out)).
Proof. intros [= Hf Ht Hl Hn Htr]. apply alike_intro; simpl; congruence. Qed.

Lemma alike_dispatch hs w v :
  alike w v →
  (dispatch hs w).1 = (dispatch hs v).1 ∧ alike (dispatch hs w).2 (dispatch hs v).2.
Proof.
  revert w v. induction hs as [|h hs IH]; intros w v Hw; simpl; [done|].
  destruct (stops (call h)); simpl; [by split; [|apply alike_exec_all]|].
  by apply IH, alike_exec_all.
Qed.

Lemma alike_click target w v :
  alike w v → alike (click root target w) (click root target v).
Proof.
  intros Hw. unfold click.
  destruct (alike_view w v Hw) as [f1 f2 -> -> Hf| -> ->]; [|done].
  apply erase_timer_inv in Hf as (_ & _ & _ & Htree & _). unfold reached. rewrite Htree.
  destruct (below root target ≫= bubble (tree f2)) as [hs|]; [|done].
  destruct (alike_dispatch hs w v Hw) as [Hstop Hd].
  destruct (dispatch hs w) as [b1 w'], (dispatch hs v) as [b2 v']. simpl in *. subst.
  destruct b2; [done|by apply alike_say].
Qed.

Lemma alike_listen target (l : nat) w v :
  alike w v → alike (listen target w l) (listen target v l).
Proof.
  intros Hw. unfold listen.
  destruct (alike_view w v Hw) as [f1 f2 Hf1 Hf2 Hf|Hf1 Hf2]; rewrite Hf1, Hf2; simpl.
  - apply erase_timer_inv in Hf as (_ & _ & _ & _ & -> & -> & _). by apply alike_exec_all.
  - done.
Qed.

Lemma alike_listen_all target (ls : list nat) w v :
  alike w v → alike (foldl (listen target) w ls) (foldl (listen target) v ls).
Proof.
  revert w v. induction ls as [|l ls IH]; intros w v Hw; [done|].
  simpl. by apply IH, alike_listen.
Qed.

Lemma alike_mousedown target w v :
  alike w v → alike (mousedown target w) (mousedown target v).
Proof.
  intros Hw. unfold mousedown.
  assert (listeners (surface w) = listeners (surface v)) as -> by by injection Hw.
  by apply alike_listen_all.
Qed.

(** ** The timer *)

Lemma alike_tick w v : alike w v → alike (tick w) (tick v).
Proof.
  intros Hw. pose proof Hw as [= Hf Ht Hl Hn Htr]. unfold tick.
  destruct (takeTimer (surface w)) as [[cb1 s1]|] eqn:H1,
           (takeTimer (surface v)) as [[cb2 s2]|] eqn:H2.
  - apply takeTimer_Some in H1 as (t1 & Ht1 & Hl1), H2 as (t2 & Ht2 & Hl2).
    rewrite Ht1, Ht2 in Ht. simplify_eq/=.
    apply alike_intro; simpl; try done; unfold arm.
    + by rewrite !timers_addEventListener.
    + by rewrite !listeners_addEventListener, Hl1, Hl2, Hl.
  - apply takeTimer_Some in H1 as (t1 & Ht1 & _). apply takeTimer_None in H2.
    by rewrite Ht1, H2 in Ht.
  - apply takeTimer_Some in H2 as (t2 & Ht2 & _). apply takeTimer_None in H1.
    by rewrite Ht2, H1 in Ht.
  - done.
Qed.

(** ** Effects, renders and the unmount *)

(** After the cleanup, both pages hold nothing of the component. *)
Lemma alike_flush_effects w v :
  wf1 w → wf2 v → alike w v → alike (flush_effects w) (flush_effects v).
Proof.
  intros Hw1 Hw2 Hw. pose proof Hw as [= _ _ _ Hn Htr]. unfold flush_effects.
  destruct (alike_view w v Hw) as [f1 f2 Hf1 Hf2 Hf|Hf1 Hf2]; rewrite Hf1, Hf2; [|done].
  unfold wf in Hw1, Hw2. rewrite Hf1 in Hw1. rewrite Hf2 in Hw2.
  destruct Hw1 as (_ & _ & [Ht1 Hl1]%run_cleanup_clean).
  destruct Hw2 as (_ & _ & [Ht2 Hl2]%run_cleanup_clean).
  pose proof (erase_timer_inv _ _ Hf) as (_ & Ho & _ & _ & _ & _ & Hdeps & _).
  unfold effect_due. rewrite Hdeps, Ho. case_bool_decide; [|done].
  unfold effect. destruct (isOpen f2); simpl.
  - pose proof (timers_setTimeout (next_closure w) (run_cleanup f1 (surface w))) as Hs1.
    pose proof (listeners_setTimeout (next_closure w) (run_cleanup f1 (surface w))) as Hm1.
    pose proof (timers_setTimeout (next_closure v) (run_cleanup f2 (surface v))) as Hs2.
    pose proof (listeners_setTimeout (next_closure v) (run_cleanup f2 (surface v))) as Hm2.
    destruct (setTimeout _ (run_cleanup f1 _)) as [t1 s1],
             (setTimeout _ (run_cleanup f2 _)) as [t2 s2]. simpl in *.
    apply alike_intro; simpl; try congruence.
    + f_equal. apply erase_timer_ran_effect; [done|]. simpl. congruence.
    + rewrite Hs1, Hs2, Ht1, Ht2. simpl. congruence.
  - apply alike_intro; simpl; try congruence.
    f_equal. by apply erase_timer_ran_effect.
Qed.

Lemma alike_run_cleanup w v f1 f2 :
  wf1 w → wf2 v → fiber w = Some f1 → fiber v = Some f2 →
  (timers (run_cleanup f1 (surface w))).*2 = (timers (run_cleanup f2 (surface v))).*2 ∧
  listeners (run_cleanup f1 (surface w)) = listeners (run_cleanup f2 (surface v)).
Proof.
  unfold wf. intros Hw1 Hw2 Hf1 Hf2. rewrite Hf1 in Hw1. rewrite Hf2 in Hw2.
  destruct Hw1 as (_ & _ & [-> ->]%run_cleanup_clean).
  by destruct Hw2 as (_ & _ & [-> ->]%run_cleanup_clean).
Qed.

Lemma alike_rerender_with p w v :
  wf1 w → wf2 v → alike w v →
  alike (rerender_with models root p w) (rerender_with models root p v).
Proof.
  intros Hw1 Hw2 Hw. apply alike_flush_effects in Hw; [|done..].
  apply (wf_flush_effects models root) in Hw1, Hw2.
  pose proof Hw as [= _ Ht Hl Hn Htr]. unfold rerender_with. cbv zeta.
  destruct (alike_view _ _ Hw) as [f1 f2 Hf1 Hf2 Hf|Hf1 Hf2]; rewrite Hf1, Hf2; [|done].
  pose proof (erase_timer_inv _ _ Hf) as (_ & Ho & Hu & _ & _ & _ & Hdeps & Hc).
  unfold next_isOpen. rewrite Ho, Hu.
  destruct (render models p _) as [t|err].
  - apply alike_intro; simpl; try done. f_equal. rewrite Hdeps.
    by apply erase_timer_committed.
  - destruct (alike_run_cleanup _ _ f1 f2 Hw1 Hw2 Hf1 Hf2) as [Ht' Hl'].
    apply alike_intro; simpl; congruence.
Qed.

Lemma alike_rerender w v :
  wf1 w → wf2 v → alike w v → alike (rerender models root w) (rerender models root v).
Proof.
  intros Hw1 Hw2 Hw. unfold rerender.
  destruct (alike_view w v Hw) as [f1 f2 Hf1 Hf2 Hf|Hf1 Hf2]; rewrite Hf1, Hf2; [|done].
  apply erase_timer_inv in Hf as (-> & _). by apply alike_rerender_with.
Qed.

Lemma alike_unmount w v :
  wf1 w → wf2 v → alike w v → alike (unmount w) (unmount v).
Proof.
  intros Hw1 Hw2 Hw. apply alike_flush_effects in Hw; [|done..].
  apply (wf_flush_effects models root) in Hw1, Hw2.
  pose proof Hw as [= _ Ht Hl Hn Htr]. unfold unmount. cbv zeta.
  destruct (alike_view _ _ Hw) as [f1 f2 Hf1 Hf2 Hf|Hf1 Hf2]; rewrite Hf1, Hf2; [|done].
  destruct (alike_run_cleanup _ _ f1 f2 Hw1 Hw2 Hf1 Hf2) as [Ht' Hl'].
  apply alike_intro; simpl; congruence.
Qed.

(** ** Steps and runs *)

Lemma alike_step e w v :
  wf1 w → wf2 v → alike w v →
  alike (Runtime.step models root e w) (Runtime.step models root e v).
Proof.
  intros Hw1 Hw2 Hw. destruct e; simpl;
    eauto using alike_click, alike_mousedown, alike_tick, alike_rerender,
      alike_flush_effects, alike_rerender_with, alike_unmount.
Qed.

Lemma alike_run es w v :
  wf1 w → wf2 v → alike w v →
  alike (Runtime.run models root es w) (Runtime.run models root es v).
Proof.
  revert w v. induction es as [|e es IH]; intros w v Hw1 Hw2 Hw; [done|].
  simpl. apply IH; [by apply wf_step..|by apply alike_step].
Qed.

Lemma alike_mount p (s1 : B1) (s2 : B2) :
  timers s1 = [] → listeners s1 = [] → timers s2 = [] → listeners s2 = [] →
  alike (mount models root p s1) (mount models root p s2).
Proof.
  intros Ht1 Hl1 Ht2 Hl2. unfold mount.
  destruct (render models p false); apply alike_intro; simpl; congruence.
Qed.

(** C12: the behaviour of the component does not depend on the page: started
    on two pages that hold nothing of it, implemented in any two ways that
    satisfy the interface, the same events lead to worlds that differ in
    the ids of the timers at most: the same committed tree, state and refs,
    the same calls of [onChange] on the same trace, the same listeners and
    the same timer callbacks pending. *)
Theorem page_independent p es (s1 : B1) (s2 : B2) :
  timers s1 = [] → listeners s1 = [] → timers s2 = [] → listeners s2 = [] →
  observe (Runtime.run models root es (mount models root p s1)) =
  observe (Runtime.run models root es (mount models root p s2)).
Proof.
  intros Ht1 Hl1 Ht2 Hl2.
  apply alike_run; [by apply wf_mount_on..|by apply alike_mount].
Qed.

End independence.

(** ** Worlds of one page, up to timer ids

    On one page [alike] is an equivalence, and on well-formed worlds the
    steps respect it: [similar] is the partial equivalence the runtime is
    a morphism of, so that a world may be replaced by one that looks alike
    under [step] and [run]. *)

Section setoid.
Context (models : list Model) (root : Node) `{Surface B}.
Implicit Types (w v : World B) (e : Event) (es : list Event).

#[global] Instance alike_equivalence : Equivalence (alike (B1 := B) (B2 := B)).
Proof. unfold alike. split; [by intros ?|by intros ??|by intros ??? ->]. Qed.

Definition similar w v : Prop :=
  Invariant.wf models root w ∧ Invariant.wf models root v ∧ alike w v.

#[global] Instance similar_per : RelationClasses.PER similar.
Proof.
  split.
  - intros w v (? & ? & ?). by unfold similar.
  - intros w v u (? & ? & Hwv) (? & ? & Hvu). unfold similar. split_and!; [done..|].
    by etrans.
Qed.

Lemma similar_refl w : Invariant.wf models root w → similar w w.
Proof. by unfold similar. Qed.

#[global] Instance step_similar e :
  Proper (similar ==> similar) (Runtime.step models root e).
Proof.
  intros w v (? & ? & ?). unfold similar. split_and!; [by apply wf_step..|by apply alike_step].
Qed.

#[global] Instance run_similar es :
  Proper (similar ==> similar) (Runtime.run models root es).
Proof.
  intros w v (? & ? & ?). unfold similar. split_and!; [by apply wf_run..|by apply alike_run].
Qed.

#[global] Instance observe_similar : Proper (similar ==> (=)) observe.
Proof. by intros w v (_ & _ & ?). Qed.

#[global] Instance trace_similar : Proper (similar ==> (=)) (trace (B := B)).
Proof. intros w v (_ & _ & Ha). by injection Ha. Qed.

(** Events of a run may be exchanged for others that lead to a world that
    looks alike: what follows cannot tell. *)
Lemma run_app_similar es1 es2 es w :
  Invariant.wf models root w →
  alike (Runtime.run models root es1 w) (Runtime.run models root es2 w) →
  alike (Runtime.run models root (es1 ++ es) w)
        (Runtime.run models root (es2 ++ es) w).
Proof.
  intros Hw Ha. rewrite !run_app.
  apply run_similar. unfold similar. split_and!; [by apply wf_run..|done].
Qed.

End setoid.

End Independence.
