(* ===== verification/Morphism.v ===== *)
(** * Maps between pages

    The component reaches the browser through the five calls of
    [Browser.Surface] and reads back nothing but what they return.  A map
    between two pages that commutes with the five calls ([SurfaceMorphism])
    therefore commutes with every operation of the life cycle: taking a
    step and then mapping the page is mapping the page and then taking the
    step ([morph_step]).  The map [Multi.view_of], from a page with several
    instances to the page as one instance sees it, is such a map. *)

From S2P Require Import Prelude Jsx Models Browser ModelSelect Runtime Invariant.
From S2P Require Import Independence.
Import Jsx Registry Browser ModelSelect Runtime Invariant Independence.
From S2P Require Import ModelSelectFacts.
Import ModelSelectFacts.

Module Morphism.

(** [h] maps the states of one page to the states of another and commutes
    with what the component can call and see. *)
Class SurfaceMorphism {B1 B2 : Type} `{Surface B1} `{Surface B2} (h : B1 → B2) : Prop := {
  morph_timers s : timers (h s) = timers s;
  morph_listeners s : listeners (h s) = listeners s;
  morph_setTimeout cb s :
    setTimeout cb (h s) = ((setTimeout cb s).1, h (setTimeout cb s).2);
  morph_clearTimeout t s : clearTimeout t (h s) = h (clearTimeout t s);
  morph_takeTimer s : takeTimer (h s) = (λ r, (r.1, h r.2)) <$> takeTimer s;
  morph_addEventListener l s : addEventListener l (h s) = h (addEventListener l s);
  morph_removeEventListener l s :
    removeEventListener l (h s) = h (removeEventListener l s);
}.

(** The same instance, on the image of the page. *)
Definition on_surface {B1 B2 : Type} (h : B1 → B2) (w : World B1) : World B2 :=
  mkWorld (fiber w) (h (surface w)) (next_closure w) (trace w).

Section morphism.
Context (models : list Model) (root : Node).
Context {B1 B2 : Type} `{Surface B1} `{Surface B2} (h : B1 → B2) `{!SurfaceMorphism h}.
Implicit Types (w : World B1) (f : Fiber) (s : B1) (p : ModelSelectProps).
Implicit Types (target : Node) (cmds : list Cmd) (hs : list Handler) (e : Event).

(** ** The effect *)

Lemma morph_arm (cb : nat) s : arm cb (h s) = h (arm cb s).
Proof. apply morph_addEventListener. Qed.

Lemma morph_cleanup (c : Cleanup) s : cleanup c (h s) = h (cleanup c s).
Proof. unfold cleanup. by rewrite morph_clearTimeout, morph_removeEventListener. Qed.

Lemma morph_effect (o : bool) (fresh : nat) s :
  effect o fresh (h s) = ((effect o fresh s).1, h (effect o fresh s).2).
Proof.
  unfold effect. destruct o; simpl; [|done]. rewrite morph_setTimeout.
  by destruct (setTimeout fresh s).
Qed.

Lemma morph_run_cleanup f s : run_cleanup f (h s) = h (run_cleanup f s).
Proof. unfold run_cleanup. destruct (effect_cleanup f); [apply morph_cleanup|done]. Qed.

(** ** The operations of the life cycle *)

Lemma morph_mount p s :
  mount models root p (h s) = on_surface h (mount models root p s).
Proof. unfold mount. by destruct (render models p false). Qed.

Lemma morph_flush_effects w :
  flush_effects (on_surface h w) = on_surface h (flush_effects w).
Proof.
  unfold flush_effects. simpl. destruct (fiber w) as [f|]; [|done].
  destruct (effect_due f); [|done]. rewrite morph_run_cleanup, morph_effect.
  by destruct (effect _ _ (run_cleanup f (surface w))).
Qed.

Lemma morph_rerender_with p w :
  rerender_with models root p (on_surface h w) =
  on_surface h (rerender_with models root p w).
Proof.
  unfold rerender_with. cbv zeta. rewrite morph_flush_effects. simpl.
  destruct (fiber (flush_effects w)) as [f|]; [|done].
  destruct (render models p (next_isOpen f)); [done|].
  unfold on_surface. simpl. by rewrite morph_run_cleanup.
Qed.

Lemma morph_rerender w :
  rerender models root (on_surface h w) = on_surface h (rerender models root w).
Proof.
  unfold rerender. simpl. destruct (fiber w); [apply morph_rerender_with|done].
Qed.

Lemma morph_unmount w : unmount (on_surface h w) = on_surface h (unmount w).
Proof.
  unfold unmount. cbv zeta. rewrite morph_flush_effects. simpl.
  destruct (fiber (flush_effects w)) as [f|]; [|done].
  unfold on_surface. simpl. by rewrite morph_run_cleanup.
Qed.

Lemma morph_exec_all cmds w :
  exec_all cmds (on_surface h w) = on_surface h (exec_all cmds w).
Proof. by rewrite !exec_all_eq. Qed.

Lemma morph_dispatch hs w :
  dispatch hs (on_surface h w) = ((dispatch hs w).1, on_surface h (dispatch hs w).2).
Proof.
  revert w. induction hs as [|c hs IH]; intros w; simpl; [done|].
  rewrite morph_exec_all. destruct (stops (call c)); [done|]. apply IH.
Qed.

Lemma morph_click target w :
  click root target (on_surface h w) = on_surface h (click root target w).
Proof.
  unfold click. simpl. destruct (fiber w) as [f|]; [|done].
  destruct (reached root f target) as [hs|]; [|done].
  rewrite morph_dispatch. by destruct (dispatch hs w) as [[] w'].
Qed.

Lemma morph_listen target w (l : nat) :
  listen target (on_surface h w) l = on_surface h (listen target w l).
Proof. apply morph_exec_all. Qed.

Lemma morph_listen_all target (ls : list nat) w :
  foldl (listen target) (on_surface h w) ls = on_surface h (foldl (listen target) w ls).
Proof.
  revert w. induction ls as [|l ls IH]; intros w; simpl; [done|].
  by rewrite morph_listen, IH.
Qed.

Lemma morph_mousedown target w :
  mousedown target (on_surface h w) = on_surface h (mousedown target w).
Proof. unfold mousedown. simpl. rewrite morph_listeners. apply morph_listen_all. Qed.

Lemma morph_tick w : tick (on_surface h w) = on_surface h (tick w).
Proof.
  unfold tick. simpl. rewrite morph_takeTimer.
  destruct (takeTimer (surface w)) as [[cb s']|]; simpl; [|done].
  by rewrite morph_arm.
Qed.

(** ** Steps and runs *)

Lemma morph_step e w :
  Runtime.step models root e (on_surface h w) =
  on_surface h (Runtime.step models root e w).
Proof.
  destruct e; simpl;
    auto using morph_click, morph_mousedown, morph_tick, morph_rerender,
      morph_flush_effects, morph_rerender_with, morph_unmount.
Qed.

Lemma morph_run (es : list Event) w :
  Runtime.run models root es (on_surface h w) =
  on_surface h (Runtime.run models root es w).
Proof.
  revert w. induction es as [|e es IH]; intros w; simpl; [done|].
  by rewrite morph_step, IH.
Qed.

(** ** What the map keeps *)

Lemma wf_on_surface w :
  Invariant.wf models root (on_surface h w) ↔ Invariant.wf models root w.
Proof.
  unfold Invariant.wf, wf_fiber, wf_effect. simpl.
  by rewrite morph_timers, morph_listeners.
Qed.

Lemma observe_on_surface w : observe (on_surface h w) = observe w.
Proof. unfold observe. simpl. by rewrite morph_timers, morph_listeners. Qed.

End morphism.

(** ** A page seen through a map

    A type of states with five operations that a map [h] takes to the
    calls of a page is itself a page, with the timers and listeners that
    show through [h], and [h] is a morphism from it. *)

Section pullback.
Context {B1 B2 : Type} `{Surface B2} (h : B1 → B2).
Context (blank1 : B1) (set1 : nat → B1 → nat * B1) (clear1 : nat → B1 → B1).
Context (take1 : B1 → option (nat * B1)) (add1 remove1 : nat → B1 → B1).
Context (pull_blank : timers (h blank1) = [] ∧ listeners (h blank1) = []).
Context (pull_set : ∀ cb s, setTimeout cb (h s) = ((set1 cb s).1, h (set1 cb s).2)).
Context (pull_clear : ∀ t s, clearTimeout t (h s) = h (clear1 t s)).
Context (pull_take : ∀ s, takeTimer (h s) = (λ r, (r.1, h r.2)) <$> take1 s).
Context (pull_add : ∀ l s, addEventListener l (h s) = h (add1 l s)).
Context (pull_remove : ∀ l s, removeEventListener l (h s) = h (remove1 l s)).

Lemma pull_set_id cb s : (set1 cb s).1 = (setTimeout cb (h s)).1.
Proof. by rewrite pull_set. Qed.

Lemma pull_set_page cb s : h (set1 cb s).2 = (setTimeout cb (h s)).2.
Proof. by rewrite pull_set. Qed.

Definition pullback : Surface B1.
Proof.
  refine {|
    blank := blank1;
    timers := λ s, timers (h s);
    listeners := λ s, listeners (h s);
    setTimeout := set1;
    clearTimeout := clear1;
    takeTimer := take1;
    addEventListener := add1;
    removeEventListener := remove1;
  |}.
  - apply pull_blank.
  - apply pull_blank.
  - intros cb s. rewrite pull_set_id, pull_set_page. apply timers_setTimeout.
  - intros cb s. rewrite pull_set_page. apply listeners_setTimeout.
  - intros t s. rewrite <-pull_clear. apply timers_clearTimeout.
  - intros t s. rewrite <-pull_clear. apply listeners_clearTimeout.
  - intros s. rewrite <-takeTimer_None, pull_take. apply symmetry, fmap_None.
  - intros s cb s' Hs. apply takeTimer_Some. by rewrite pull_take, Hs.
  - intros l s. rewrite <-pull_add. apply listeners_addEventListener.
  - intros l s. rewrite <-pull_add. apply timers_addEventListener.
  - intros l s. rewrite <-pull_remove. apply listeners_removeEventListener.
  - intros l s. rewrite <-pull_remove. apply timers_removeEventListener.
Defined.

Lemma pullback_morphism : SurfaceMorphism (H := pullback) h.
Proof. by split. Qed.

End pullback.

End Morphism.
