(* ===== verification/Multi.v ===== *)
(** * A page with several instances of the component

    React mounts the component as often as its owner renders it, and all
    instances share the document and the timer queue with one another and
    with the other code of the page.  On a [MultiPage] every closure
    carries who created it: the closure [handleClickOutside] of a run of
    the effect of instance [j] is [(Some j, n)], and so is the timer
    callback that will register it; the closures of other code are
    [(None, k)].  Timer ids come from one counter.

    For each instance [me] the page implements [Browser.Surface]
    ([multi_surface]): the instance sets timers and adds and removes
    listeners under its own name, and sees its own share of the page.
    [view_of me] is the page as instance [me] sees it, a [Shared.SharedPage]
    on which the closures of all other instances are other code's, as are
    those of other code; it commutes with the calls, so the life cycle of
    one instance on the [MultiPage] is its life cycle on the [SharedPage]
    ([Morphism.morph_step]).  [elsewhere_op] is what other code does to
    the page. *)

From stdpp Require Import countable.
From S2P Require Import Prelude Browser Shared Morphism.
Import Browser Shared Morphism.

Module Multi.

(** A closure on the page: who created it (an instance, by its number, or
    other code, [None]) and its number there. *)
Abbreviation Owned := (option nat * nat)%type.

Record MultiPage : Type := mkMulti {
  (** The pending timers, the next to run first: (timer id, callback). *)
  waiting : list (nat * Owned);
  (** The [mousedown] listeners of [document], in registration order. *)
  hearing : list Owned;
  (** The id the next timer gets. *)
  next_timer : nat;
}.

#[export] Instance MultiPage_eq_dec : EqDecision MultiPage.
Proof. solve_decision. Defined.

Definition empty_multi : MultiPage := mkMulti [] [] 1.

(** ** The calls, for a closure of any instance *)

Definition set_timer (c : Owned) (s : MultiPage) : nat * MultiPage :=
  (next_timer s, mkMulti (waiting s ++ [(next_timer s, c)]) (hearing s) (S (next_timer s))).

Definition clear_timer (t : nat) (s : MultiPage) : MultiPage :=
  mkMulti (filter (λ e, e.1 ≠ t) (waiting s)) (hearing s) (next_timer s).

Definition add_hearing (c : Owned) (s : MultiPage) : MultiPage :=
  mkMulti (waiting s) (if decide (c ∈ hearing s) then hearing s else hearing s ++ [c])
          (next_timer s).

Definition remove_hearing (c : Owned) (s : MultiPage) : MultiPage :=
  mkMulti (waiting s) (filter (λ c', c' ≠ c) (hearing s)) (next_timer s).

(** The first timer of instance [me] in the queue, and the queue without
    it. *)
Fixpoint take_of (me : nat) (q : list (nat * Owned)) : option (nat * list (nat * Owned)) :=
  match q with
  | [] => None
  | (t, c) :: q' =>
      if decide (c.1 = Some me) then Some (c.2, q')
      else (λ r, (r.1, (t, c) :: r.2)) <$> take_of me q'
  end.

(** ** The calls of instance [me] *)

Definition multi_setTimeout (me cb : nat) : MultiPage → nat * MultiPage :=
  set_timer (Some me, cb).

Definition multi_takeTimer (me : nat) (s : MultiPage) : option (nat * MultiPage) :=
  (λ r, (r.1, mkMulti r.2 (hearing s) (next_timer s))) <$> take_of me (waiting s).

Definition multi_addEventListener (me l : nat) : MultiPage → MultiPage :=
  add_hearing (Some me, l).

Definition multi_removeEventListener (me l : nat) : MultiPage → MultiPage :=
  remove_hearing (Some me, l).

(** ** The calls of other code *)

(** The timers and the listeners other code has on the page. *)
Definition timers_elsewhere (s : MultiPage) : list (nat * Owned) :=
  filter (λ e, e.2.1 = None) (waiting s).

Definition listeners_elsewhere (s : MultiPage) : list Owned :=
  filter (λ c, c.1 = None) (hearing s).

(** Other code sets timers, adds and removes listeners of its own, and
    clears timers it has set that are still pending. *)
Definition elsewhere_op (op : ForeignOp) (s : MultiPage) : MultiPage :=
  match op with
  | FSetTimeout k => (set_timer (None, k) s).2
  | FClearTimeout t =>
      if decide (t ∈ (timers_elsewhere s).*1) then clear_timer t s else s
  | FAddListener k => add_hearing (None, k) s
  | FRemoveListener k => remove_hearing (None, k) s
  end.

(** ** The page as instance [me] sees it *)

(** Its own closures by their numbers, the closures of the others as
    closures of other code. *)
Definition side (me : nat) (c : Owned) : Closure :=
  if decide (c.1 = Some me) then Own c.2 else Foreign (encode_nat c).

Definition side_timer (me : nat) (e : nat * Owned) : nat * Closure := (e.1, side me e.2).

Definition view_of (me : nat) (s : MultiPage) : SharedPage :=
  mkShared (side_timer me <$> waiting s) (side me <$> hearing s) (next_timer s).

Section view.
Context (me : nat).
Implicit Types (s : MultiPage) (c : Owned) (q : list (nat * Owned)) (t l cb : nat).

Lemma side_own n : side me (Some me, n) = Own n.
Proof. unfold side. simpl. by rewrite decide_True. Qed.

Lemma side_foreign c : c.1 ≠ Some me → side me c = Foreign (encode_nat c).
Proof. intros Hc. unfold side. by rewrite decide_False. Qed.

Lemma side_Own c n : side me c = Own n ↔ c = (Some me, n).
Proof.
  unfold side. destruct c as [j m]. simpl. case_decide; [|naive_solver].
  split; [by intros [= ->]; subst|by intros [= _ ->]].
Qed.

#[export] Instance side_inj : Inj (=) (=) (side me).
Proof.
  intros c1 c2. unfold side. destruct c1 as [j1 n1], c2 as [j2 n2]. simpl.
  repeat case_decide; intros Heq; by simplify_eq.
Qed.

(** ** [view_of] commutes with the calls *)

Lemma view_set_timer c s :
  view_of me (set_timer c s).2 =
    mkShared (pending (view_of me s) ++ [(next_id (view_of me s), side me c)])
             (registered (view_of me s)) (S (next_id (view_of me s))).
Proof. unfold view_of. simpl. by rewrite fmap_app. Qed.

Lemma view_clear_timer t s : view_of me (clear_timer t s) = shared_clearTimeout t (view_of me s).
Proof.
  unfold view_of, shared_clearTimeout. simpl. f_equal.
  by rewrite filter_fmap.
Qed.

Lemma view_add_hearing c s :
  view_of me (add_hearing c s) = add_listener (side me c) (view_of me s).
Proof.
  unfold view_of, add_listener. simpl. f_equal.
  destruct (decide (c ∈ hearing s)) as [Hc|Hc].
  - by rewrite decide_True by by apply list_elem_of_fmap_2.
  - rewrite decide_False by by rewrite (list_elem_of_fmap_inj (side me)).
    by rewrite fmap_app.
Qed.

Lemma view_remove_hearing c s :
  view_of me (remove_hearing c s) = remove_listener (side me c) (view_of me s).
Proof.
  unfold view_of, remove_listener. simpl. f_equal.
  rewrite filter_fmap. f_equal. apply list_filter_iff. intros c'.
  split; [|by intros Hne ->]. intros Hne ?%(inj (side me)). done.
Qed.

Lemma take_own_view q :
  take_own (side_timer me <$> q) =
    (λ r : nat * list (nat * Owned), (r.1, side_timer me <$> r.2)) <$> take_of me q.
Proof.
  induction q as [|[t c] q IH]; [done|]. rewrite fmap_cons. cbn [take_of].
  unfold side_timer at 1, side. simpl.
  destruct (decide (c.1 = Some me)) as [Hc|Hc]; simpl; [done|].
  rewrite IH. destruct (take_of me q) as [[cb q']|]; simpl; [|done].
  do 3 f_equal. unfold side_timer, side. simpl. by rewrite decide_False.
Qed.

Lemma view_setTimeout cb s :
  shared_setTimeout cb (view_of me s) =
    ((multi_setTimeout me cb s).1, view_of me (multi_setTimeout me cb s).2).
Proof. unfold multi_setTimeout. by rewrite view_set_timer, side_own. Qed.

Lemma view_takeTimer s :
  shared_takeTimer (view_of me s) = (λ r, (r.1, view_of me r.2)) <$> multi_takeTimer me s.
Proof.
  unfold shared_takeTimer, multi_takeTimer. simpl. rewrite take_own_view.
  by destruct (take_of me (waiting s)) as [[cb q']|].
Qed.

Lemma view_addEventListener l s :
  shared_addEventListener l (view_of me s) = view_of me (multi_addEventListener me l s).
Proof. unfold multi_addEventListener. by rewrite view_add_hearing, side_own. Qed.

Lemma view_removeEventListener l s :
  shared_removeEventListener l (view_of me s) = view_of me (multi_removeEventListener me l s).
Proof. unfold multi_removeEventListener. by rewrite view_remove_hearing, side_own. Qed.

End view.

(** ** The share of one instance *)

(** The timers and the listeners of instance [j] on the page. *)
Definition timers_by (j : nat) (s : MultiPage) : list (nat * Owned) :=
  filter (λ e, e.2.1 = Some j) (waiting s).

Definition listeners_by (j : nat) (s : MultiPage) : list Owned :=
  filter (λ c, c.1 = Some j) (hearing s).

Section share.
Context (me : nat).
Implicit Types (s : MultiPage).

Lemma own_timers_view s :
  own_timers (view_of me s) = (λ e, (e.1, e.2.2)) <$> timers_by me s.
Proof.
  unfold own_timers, timers_by, view_of. simpl.
  induction (waiting s) as [|[t c] q IH]; [done|].
  rewrite fmap_cons. change (side_timer me (t, c)) with (t, side me c).
  rewrite timers_of_cons, filter_cons. unfold side at 1. cbn [fst snd].
  destruct (decide (c.1 = Some me)); cbn [own]; by rewrite ?fmap_cons, IH.
Qed.

Lemma own_listeners_view s : own_listeners (view_of me s) = snd <$> listeners_by me s.
Proof.
  unfold own_listeners, listeners_by, view_of. simpl.
  induction (hearing s) as [|c l IH]; [done|].
  rewrite fmap_cons, omap_cons, filter_cons. unfold side at 1.
  destruct (decide (c.1 = Some me)); cbn [own]; by rewrite ?fmap_cons, IH.
Qed.

(** The share of an instance is what it sees. *)
Lemma timers_by_view s s' :
  own_timers (view_of me s') = own_timers (view_of me s) → timers_by me s' = timers_by me s.
Proof.
  rewrite !own_timers_view. apply (fmap_inj_on _ (λ e, e.2.1 = Some me)).
  - intros [t1 [j1 n1]] [t2 [j2 n2]]. simpl. by intros -> -> [= -> ->].
  - apply Forall_forall. by intros e [? _]%list_elem_of_filter.
  - apply Forall_forall. by intros e [? _]%list_elem_of_filter.
Qed.

Lemma listeners_by_view s s' :
  own_listeners (view_of me s') = own_listeners (view_of me s) →
  listeners_by me s' = listeners_by me s.
Proof.
  rewrite !own_listeners_view. apply (fmap_inj_on _ (λ c, c.1 = Some me)).
  - intros [j1 n1] [j2 n2]. simpl. by intros -> -> ->.
  - apply Forall_forall. by intros e [? _]%list_elem_of_filter.
  - apply Forall_forall. by intros e [? _]%list_elem_of_filter.
Qed.

Lemma timers_by_nil s : own_timers (view_of me s) = [] ↔ timers_by me s = [].
Proof.
  rewrite own_timers_view. split; [apply fmap_nil_inv|by intros ->].
Qed.

Lemma listeners_by_nil s : own_listeners (view_of me s) = [] ↔ listeners_by me s = [].
Proof.
  rewrite own_listeners_view. split; [apply fmap_nil_inv|by intros ->].
Qed.

End share.

(** The instances that have something on the page, once for each timer and
    each listener. *)
Definition owners (s : MultiPage) : list nat :=
  omap (λ e, e.2.1) (waiting s) ++ omap fst (hearing s).

(** What is on the page is an instance's or other code's. *)
Lemma length_owners s :
  length (waiting s) + length (hearing s) =
    length (owners s) + (length (timers_elsewhere s) + length (listeners_elsewhere s)).
Proof.
  unfold owners, timers_elsewhere, listeners_elsewhere. rewrite length_app.
  rewrite (length_omap_filter (λ e, e.2.1) (waiting s)).
  rewrite (length_omap_filter fst (hearing s)). lia.
Qed.

Lemma owners_filter j s :
  length (filter (λ i, i = j) (owners s)) =
    length (timers_by j s) + length (listeners_by j s).
Proof.
  unfold owners, timers_by, listeners_by.
  by rewrite filter_app, length_app, !length_filter_omap.
Qed.

Lemma elem_of_owners j s : j ∈ owners s → timers_by j s ≠ [] ∨ listeners_by j s ≠ [].
Proof.
  unfold owners, timers_by, listeners_by.
  intros [(e & He & Hj)%list_elem_of_omap|(c & Hc & Hj)%list_elem_of_omap]%elem_of_app.
  - left. intros Hnil. assert (e ∈ filter (λ e0, e0.2.1 = Some j) (waiting s)) as Hin
      by by apply list_elem_of_filter.
    rewrite Hnil in Hin. by apply elem_of_nil in Hin.
  - right. intros Hnil. assert (c ∈ filter (λ c0, c0.1 = Some j) (hearing s)) as Hin
      by by apply list_elem_of_filter.
    rewrite Hnil in Hin. by apply elem_of_nil in Hin.
Qed.

(** ** What instance [me] sees of the calls of anyone else *)

Section others.
Context (me : nat) (o : option nat) (Ho : o ≠ Some me).
Implicit Types (s : MultiPage) (t l cb : nat).

Lemma view_other_set_timer cb s :
  view_of me (set_timer (o, cb) s).2 =
    foreign_op (FSetTimeout (encode_nat (o, cb))) (view_of me s).
Proof. by rewrite view_set_timer, side_foreign. Qed.

Lemma view_other_clearTimeout t s :
  t ∉ (own_timers (view_of me s)).*1 →
  view_of me (clear_timer t s) = foreign_op (FClearTimeout t) (view_of me s).
Proof. intros Ht. by rewrite view_clear_timer, clear_foreign. Qed.

Lemma view_other_add_hearing l s :
  view_of me (add_hearing (o, l) s) =
    foreign_op (FAddListener (encode_nat (o, l))) (view_of me s).
Proof. by rewrite view_add_hearing, side_foreign. Qed.

Lemma view_other_remove_hearing l s :
  view_of me (remove_hearing (o, l) s) =
    foreign_op (FRemoveListener (encode_nat (o, l))) (view_of me s).
Proof. by rewrite view_remove_hearing, side_foreign. Qed.

(** A timer of someone else is a timer of other code to [me]. *)
Lemma timer_foreign t n s :
  (t, (o, n)) ∈ waiting s → t ∈ (foreign_timers (view_of me s)).*1.
Proof.
  intros Hin. apply list_elem_of_fmap. exists (t, encode_nat (o, n)). split; [done|].
  apply list_elem_of_omap. exists (t, side me (o, n)). split.
  - apply list_elem_of_fmap. by exists (t, (o, n)).
  - simpl. by rewrite side_foreign.
Qed.

End others.

(** ** What instance [me] sees of the calls of another instance *)

Section other_instance.
Context (me other : nat) (Hother : other ≠ me).
Implicit Types (s : MultiPage) (t l cb : nat).

Lemma view_other_setTimeout cb s :
  view_of me (multi_setTimeout other cb s).2 =
    foreign_op (FSetTimeout (encode_nat (Some other, cb))) (view_of me s).
Proof. apply view_other_set_timer. congruence. Qed.

Lemma view_other_addEventListener l s :
  view_of me (multi_addEventListener other l s) =
    foreign_op (FAddListener (encode_nat (Some other, l))) (view_of me s).
Proof. apply view_other_add_hearing. congruence. Qed.

Lemma view_other_removeEventListener l s :
  view_of me (multi_removeEventListener other l s) =
    foreign_op (FRemoveListener (encode_nat (Some other, l))) (view_of me s).
Proof. apply view_other_remove_hearing. congruence. Qed.

(** A timer of [me] is a timer of other code to the other instance. *)
Lemma own_timer_foreign t s :
  t ∈ (own_timers (view_of me s)).*1 → t ∈ (foreign_timers (view_of other s)).*1.
Proof.
  rewrite own_timers_view, <-list_fmap_compose.
  intros ([t' [o n]] & -> & [Ho Hin]%list_elem_of_filter)%list_elem_of_fmap.
  simpl in Ho. subst o. apply (timer_foreign other (Some me) ltac:(congruence) t' n s Hin).
Qed.

End other_instance.

(** ** What instance [me] sees of other code *)

Section elsewhere.
Context (me : nat).
Implicit Types (s : MultiPage) (t : nat) (op : ForeignOp).

Lemma timer_elsewhere_foreign t s :
  t ∈ (timers_elsewhere s).*1 → t ∈ (foreign_timers (view_of me s)).*1.
Proof.
  intros ([t' [o n]] & -> & [Ho Hin]%list_elem_of_filter)%list_elem_of_fmap.
  simpl in Ho. subst o. by apply (timer_foreign me None ltac:(done) t' n).
Qed.

(** While the timers of [me] have ids of their own, what other code does
    on the page is, to [me], what other code may do. *)
Lemma view_elsewhere_op op s :
  (∀ t, t ∈ (own_timers (view_of me s)).*1 → t ∉ (foreign_timers (view_of me s)).*1) →
  meanwhile (view_of me s) (view_of me (elsewhere_op op s)).
Proof.
  intros Hids. destruct op as [k|t|k|k]; unfold elsewhere_op.
  - rewrite (view_other_set_timer me None) by done. apply meanwhile_op.
  - case_decide as Ht; [|done]. rewrite view_other_clearTimeout; [apply meanwhile_op|].
    intros Hown. by apply (Hids t Hown), timer_elsewhere_foreign.
  - rewrite (view_other_add_hearing me None) by done. apply meanwhile_op.
  - rewrite (view_other_remove_hearing me None) by done. apply meanwhile_op.
Qed.

(** What [me] sees as other code's is what is not its own. *)
Lemma foreign_timers_view s :
  foreign_timers (view_of me s) =
    prod_map id encode_nat <$> filter (λ e, e.2.1 ≠ Some me) (waiting s).
Proof.
  unfold foreign_timers, view_of. simpl.
  induction (waiting s) as [|[t c] q IH]; [done|].
  rewrite fmap_cons. change (side_timer me (t, c)) with (t, side me c).
  rewrite timers_of_cons, filter_cons. unfold side at 1. cbn [fst snd].
  destruct (decide (c.1 = Some me)); cbn [foreign].
  - by rewrite decide_False by auto.
  - by rewrite decide_True, fmap_cons, IH by done.
Qed.

Lemma foreign_listeners_view s :
  foreign_listeners (view_of me s) = encode_nat <$> filter (λ c, c.1 ≠ Some me) (hearing s).
Proof.
  unfold foreign_listeners, view_of. simpl.
  induction (hearing s) as [|c l IH]; [done|].
  rewrite fmap_cons, omap_cons, filter_cons. unfold side at 1.
  destruct (decide (c.1 = Some me)); cbn [foreign].
  - by rewrite decide_False by auto.
  - by rewrite decide_True, fmap_cons, IH by done.
Qed.

(** While what [me] sees as other code's stays, what other code has
    stays. *)
Lemma elsewhere_view s s' :
  foreign_timers (view_of me s') = foreign_timers (view_of me s) →
  foreign_listeners (view_of me s') = foreign_listeners (view_of me s) →
  timers_elsewhere s' = timers_elsewhere s ∧ listeners_elsewhere s' = listeners_elsewhere s.
Proof.
  rewrite !foreign_timers_view, !foreign_listeners_view.
  intros Ht%(inj (fmap _)) Hl%(inj (fmap _)). unfold timers_elsewhere, listeners_elsewhere.
  rewrite <-(filter_filter_l (λ e, e.2.1 = None) (λ e, e.2.1 ≠ Some me) (waiting s'))
    by by intros e ->.
  rewrite <-(filter_filter_l (λ c, c.1 = None) (λ c, c.1 ≠ Some me) (hearing s'))
    by by intros e ->.
  rewrite Ht, Hl. by rewrite !filter_filter_l by by intros e ->.
Qed.

End elsewhere.

(** ** The page of instance [me] *)

Definition multi_surface (me : nat) : Surface MultiPage :=
  pullback (view_of me) empty_multi (multi_setTimeout me) clear_timer (multi_takeTimer me)
    (multi_addEventListener me) (multi_removeEventListener me)
    (conj eq_refl eq_refl) (view_setTimeout me) (λ t s, eq_sym (view_clear_timer me t s))
    (view_takeTimer me) (view_addEventListener me) (view_removeEventListener me).

#[export] Instance view_morphism (me : nat) :
  SurfaceMorphism (H := multi_surface me) (view_of me).
Proof. apply pullback_morphism. Qed.

End Multi.
