(* ===== verification/Frame.v ===== *)
(** * The component on a shared page

    The life cycle of [Runtime] on a [Shared.SharedPage]: the component's
    events act on the page through the interface, other code acts through
    [Shared.foreign_op] at any time in between, and the event loop runs the
    timer at the head of the queue, whoever set it ([turn]).

    Two things are shown.  What the component promises to the page (the
    frame): in every reachable world an event of the component leaves the
    listeners and the timers of other code as they are; the one thing that
    could go wrong, [clearTimeout] with an id that is not the component's,
    does not happen, because the id it stores is the one [setTimeout] gave
    it.  And what it relies on: while other code clears only its own
    timers, the invariant of [Invariant] holds on the shared page, so every
    theorem on reachable worlds holds there, and the component behaves as
    it does alone on a page. *)

From S2P Require Import Prelude Jsx Models Browser Shared ModelSelect Runtime.
From S2P Require Import Invariant Independence.
Import Jsx Registry Browser Shared ModelSelect Runtime Invariant Independence.
From S2P Require Import ModelSelectFacts.
Import ModelSelectFacts.

Module Frame.

Abbreviation SharedWorld := (World SharedPage).

(** The event loop runs the timer at the head of the queue: a timer of the
    component registers its listener (the timer callback of lines 55-57),
    a timer of other code is none of the component's business. *)
Definition turn (w : SharedWorld) : SharedWorld :=
  match pending (surface w) with
  | [] => w
  | (t, c) :: q =>
      let s := mkShared q (registered (surface w)) (next_id (surface w)) in
      match c with
      | Own cb => mkWorld (fiber w) (arm cb s) (next_closure w) (trace w)
      | Foreign _ => mkWorld (fiber w) s (next_closure w) (trace w)
      end
  end.

(** Other code acts on the page. *)
Definition other_code (op : ForeignOp) (w : SharedWorld) : SharedWorld :=
  mkWorld (fiber w) (foreign_op op (surface w)) (next_closure w) (trace w).

Inductive SharedEvent : Type :=
| Component (e : Event)
| OtherCode (op : ForeignOp).

(** A page before the component is mounted: nothing on it is the
    component's, and every pending timer got its id from the page. *)
Definition foreign_only (s : SharedPage) : Prop :=
  own_timers s = [] ∧ own_listeners s = [] ∧ Forall (λ e, e.1 < next_id s) (pending s).

(** The cleanup the component holds, if any. *)
Definition held {B} (w : World B) : option Cleanup := fiber w ≫= effect_cleanup.

(** The ids on the page are below the next id, and the id the component
    holds is its own: no timer of other code has it. *)
Definition ids_ok (w : SharedWorld) : Prop :=
  Forall (λ x, x.1 < next_id (surface w)) (pending (surface w)) ∧
  ∀ c, held w = Some c →
       timer c < next_id (surface w) ∧ timer c ∉ (foreign_timers (surface w)).*1.

(** What other code has on the page. *)
Definition foreign_view (s : SharedPage) : list (nat * nat) * list nat :=
  (foreign_timers s, foreign_listeners s).

(** The events of the component that a step on the shared page amounts to:
    a turn of the event loop is a [Tick] of the component when the timer
    at the head of the queue is the component's, and nothing otherwise;
    what other code does is nothing to the component. *)
Definition seen (ev : SharedEvent) (w : SharedWorld) : list Event :=
  match ev with
  | Component Tick =>
      match pending (surface w) with
      | (_, Own _) :: _ => [Tick]
      | _ => []
      end
  | Component e => [e]
  | OtherCode _ => []
  end.

Section frame.
Context (models : list Model) (root : Node).
Implicit Types (w : SharedWorld) (s : SharedPage) (f : Fiber) (c : Cleanup).
Implicit Types (ev : SharedEvent) (op : ForeignOp) (p : ModelSelectProps).

#[local] Abbreviation wf := (Invariant.wf (B := SharedPage) models root).
#[local] Abbreviation step := (Runtime.step (B := SharedPage) models root).

Definition shared_step (ev : SharedEvent) (w : SharedWorld) : SharedWorld :=
  match ev with
  | Component Tick => turn w
  | Component e => step e w
  | OtherCode op => other_code op w
  end.

Definition shared_run (evs : list SharedEvent) (w : SharedWorld) : SharedWorld :=
  foldl (λ w ev, shared_step ev w) w evs.

(** The worlds of a component mounted on a page that other code uses. *)
Inductive shared_reachable p : SharedWorld → Prop :=
| shared_mount s : foreign_only s → shared_reachable p (mount models root p s)
| shared_next ev w : shared_reachable p w → shared_reachable p (shared_step ev w).

Definition shared_wf (w : SharedWorld) : Prop := wf w ∧ ids_ok w.

Fixpoint seen_run (evs : list SharedEvent) (w : SharedWorld) : list Event :=
  match evs with
  | [] => []
  | ev :: evs' => seen ev w ++ seen_run evs' (shared_step ev w)
  end.

(** ** What the operations of the component do to the page *)

Lemma bound_mono (q : list (nat * Closure)) (n m : nat) :
  n ≤ m → Forall (λ e, e.1 < n) q → Forall (λ e, e.1 < m) q.
Proof. intros Hnm Hq. eapply Forall_impl; [done|]. simpl. lia. Qed.

Lemma bound_filter (P : nat * Closure → Prop) `{!∀ e, Decision (P e)}
    (q : list (nat * Closure)) (n : nat) :
  Forall (λ e, e.1 < n) q → Forall (λ e, e.1 < n) (filter P q).
Proof. rewrite !Forall_forall. intros Hq e [_ Hin]%list_elem_of_filter. by apply Hq. Qed.

(** A timer id at or above the next id is nobody's yet. *)
Lemma bound_fresh side (q : list (nat * Closure)) (n t : nat) :
  Forall (λ e, e.1 < n) q → n ≤ t → t ∉ (timers_of side q).*1.
Proof.
  rewrite Forall_forall. intros Hq Hnt ([t' k] & -> & Hin)%list_elem_of_fmap.
  apply list_elem_of_omap in Hin as ([t'' c'] & Hin & Heq). apply Hq in Hin.
  simpl in *. destruct (side c'); simplify_eq/=. lia.
Qed.

(** The cleanup, when the id it clears is not a foreign timer's. *)
Lemma cleanup_frame c s :
  timer c ∉ (foreign_timers s).*1 →
  foreign_view (cleanup c s) = foreign_view s ∧ next_id (cleanup c s) = next_id s ∧
  (Forall (λ e, e.1 < next_id s) (pending s) →
   Forall (λ e, e.1 < next_id s) (pending (cleanup c s))).
Proof.
  intros Hc. unfold cleanup, foreign_view, foreign_timers, foreign_listeners. simpl.
  rewrite timers_of_clear_fresh, omap_foreign_filter_own by done.
  split_and!; [done..|]. apply bound_filter.
Qed.

(** The effect body: the new timer is the component's and gets a fresh
    id. *)
Lemma effect_frame (o : bool) (fresh : nat) s :
  Forall (λ e, e.1 < next_id s) (pending s) →
  let '(c, s') := effect o fresh s in
  foreign_view s' = foreign_view s ∧
  Forall (λ e, e.1 < next_id s') (pending s') ∧
  ∀ c', c = Some c' → timer c' < next_id s' ∧ timer c' ∉ (foreign_timers s').*1.
Proof.
  intros Hq. unfold effect. destruct o; simpl; [|done].
  unfold foreign_view, foreign_timers. simpl. rewrite timers_of_app, app_nil_r.
  split_and!; [done| |].
  - apply Forall_app. split; [by eapply bound_mono; [|done]; lia|].
    apply Forall_singleton. simpl. lia.
  - intros c' [= <-]. simpl. split; [lia|]. by eapply bound_fresh.
Qed.

(** ** Events that leave the page alone *)

Lemma ids_ok_ext w w' :
  surface w' = surface w → held w' = held w → ids_ok w → ids_ok w'.
Proof. unfold ids_ok. by intros -> ->. Qed.

Lemma exec_all_keeps cmds w :
  surface (exec_all cmds w) = surface w ∧ held (exec_all cmds w) = held w.
Proof. rewrite exec_all_eq. unfold held. simpl. by destruct (fiber w). Qed.

Lemma click_keeps target w :
  surface (click root target w) = surface w ∧ held (click root target w) = held w.
Proof.
  unfold click. destruct (fiber w) as [f|] eqn:Hf; [|done].
  destruct (reached root f target) as [hs|]; [|done].
  assert (∀ w0, surface (dispatch hs w0).2 = surface w0 ∧
                held (dispatch hs w0).2 = held w0) as Hd.
  { induction hs as [|h hs IH]; intros w0; simpl; [done|].
    destruct (exec_all_keeps (call h) w0) as [Hs Hh].
    destruct (stops (call h)); simpl; [done|].
    destruct (IH (exec_all (call h) w0)) as [-> ->]. done. }
  specialize (Hd w). by destruct (dispatch hs w) as [[] w'].
Qed.

Lemma mousedown_keeps target w :
  surface (mousedown target w) = surface w ∧ held (mousedown target w) = held w.
Proof.
  unfold mousedown. generalize (listeners (surface w)). intros ls. revert w.
  induction ls as [|l ls IH]; intros w; simpl; [done|].
  destruct (IH (listen target w l)) as [-> ->]. apply exec_all_keeps.
Qed.

(** ** The effect and its cleanup on the shared page *)

Lemma run_cleanup_frame w f :
  ids_ok w → fiber w = Some f →
  foreign_view (run_cleanup f (surface w)) = foreign_view (surface w) ∧
  next_id (run_cleanup f (surface w)) = next_id (surface w) ∧
  Forall (λ x, x.1 < next_id (surface w)) (pending (run_cleanup f (surface w))).
Proof.
  intros [Hq Hc] Hf. unfold run_cleanup, held in *. rewrite Hf in Hc. simpl in Hc.
  destruct (effect_cleanup f) as [c|]; [|done].
  destruct (Hc c eq_refl) as [_ Hfresh].
  destruct (cleanup_frame c (surface w) Hfresh) as (? & ? & Hb). auto.
Qed.

Lemma flush_effects_frame w :
  ids_ok w →
  ids_ok (flush_effects w) ∧
  foreign_view (surface (flush_effects w)) = foreign_view (surface w).
Proof.
  intros Hok. unfold flush_effects. destruct (fiber w) as [f|] eqn:Hf; [|done].
  destruct (effect_due f); [|done].
  destruct (run_cleanup_frame w f Hok Hf) as (Hv & Hn & Hb). rewrite <-Hn in Hb.
  pose proof (effect_frame (isOpen f) (next_closure w) _ Hb) as He.
  destruct (effect _ _ _) as [c s']. destruct He as (Hv' & Hb' & Hc').
  split; [split; [done|]|simpl; by rewrite Hv', Hv].
  unfold held. simpl. intros c' ->. by apply Hc'.
Qed.

Lemma rerender_with_frame p w :
  ids_ok w →
  ids_ok (rerender_with models root p w) ∧
  foreign_view (surface (rerender_with models root p w)) = foreign_view (surface w).
Proof.
  intros [Hok Hv]%flush_effects_frame. unfold rerender_with. cbv zeta.
  destruct (fiber (flush_effects w)) as [f|] eqn:Hf; [|done].
  destruct (render models p (next_isOpen f)) as [t|err].
  - split; [|done]. revert Hok. apply ids_ok_ext; [done|].
    unfold held. by rewrite Hf.
  - destruct (run_cleanup_frame _ f Hok Hf) as (Hv' & Hn & Hb).
    split; [|simpl; by rewrite Hv', Hv]. split; simpl; [by rewrite Hn|done].
Qed.

Lemma unmount_frame w :
  ids_ok w →
  ids_ok (unmount w) ∧ foreign_view (surface (unmount w)) = foreign_view (surface w).
Proof.
  intros [Hok Hv]%flush_effects_frame. unfold unmount. cbv zeta.
  destruct (fiber (flush_effects w)) as [f|] eqn:Hf; [|done].
  destruct (run_cleanup_frame _ f Hok Hf) as (Hv' & Hn & Hb).
  split; [|simpl; by rewrite Hv', Hv]. split; simpl; [by rewrite Hn|done].
Qed.

(** Every event of the component but the timer. *)
Lemma step_frame (e : Event) w :
  e ≠ Tick → ids_ok w →
  ids_ok (step e w) ∧ foreign_view (surface (step e w)) = foreign_view (surface w).
Proof.
  intros He Hok. destruct e; simpl; try done.
  - destruct (click_keeps target w) as [Hs Hh]. rewrite Hs. by split; [eapply ids_ok_ext|].
  - destruct (mousedown_keeps target w) as [Hs Hh]. rewrite Hs.
    by split; [eapply ids_ok_ext|].
  - unfold rerender. destruct (fiber w); [by apply rerender_with_frame|done].
  - by apply flush_effects_frame.
  - by apply rerender_with_frame.
  - by apply unmount_frame.
Qed.

(** ** The event loop *)

(** A turn on a queue headed by a timer of the component is the [tick] of
    [Runtime]. *)
Lemma turn_own w t cb q :
  pending (surface w) = (t, Own cb) :: q → turn w = tick w.
Proof.
  intros Hq. unfold turn, tick. rewrite Hq. simpl. unfold shared_takeTimer. by rewrite Hq.
Qed.

(** What a turn does to the page, by the head of the queue. *)
Inductive TurnView w : SharedWorld → Prop :=
| TurnIdle : pending (surface w) = [] → TurnView w w
| TurnOwn t cb q :
    pending (surface w) = (t, Own cb) :: q →
    foreign_view (surface (tick w)) = foreign_view (surface w) →
    TurnView w (tick w)
| TurnForeign t k q s' :
    pending (surface w) = (t, Foreign k) :: q →
    s' = mkShared q (registered (surface w)) (next_id (surface w)) →
    own_timers s' = own_timers (surface w) →
    foreign_timers (surface w) = (t, k) :: foreign_timers s' →
    TurnView w (mkWorld (fiber w) s' (next_closure w) (trace w)).

Lemma foreign_listeners_arm cb s :
  foreign_listeners (arm cb s) = foreign_listeners s.
Proof.
  unfold arm, foreign_listeners. simpl. case_decide; [done|].
  by rewrite omap_app, app_nil_r.
Qed.

Lemma turn_view w : TurnView w (turn w).
Proof.
  destruct (pending (surface w)) as [|[t [cb|k]] q] eqn:Hq.
  - unfold turn. rewrite Hq. by apply TurnIdle.
  - rewrite (turn_own w t cb q Hq). eapply TurnOwn; [done|].
    unfold tick. simpl. unfold shared_takeTimer. rewrite Hq. simpl.
    unfold foreign_view. rewrite foreign_listeners_arm.
    unfold foreign_timers, foreign_listeners. simpl. by rewrite Hq, timers_of_cons.
  - unfold turn. rewrite Hq. eapply TurnForeign; [done..| |].
    + unfold own_timers. simpl. by rewrite Hq, timers_of_cons.
    + unfold foreign_timers. simpl. by rewrite Hq, timers_of_cons.
Qed.

Lemma wf_turn w : wf w → wf (turn w).
Proof.
  intros Hw. destruct (turn_view w) as [?|????|t k q s' Hq -> Hown _]; [done|..].
  - by apply wf_tick.
  - by apply (wf_surface_ext models root w).
Qed.

Lemma ids_ok_turn w : ids_ok w → ids_ok (turn w).
Proof.
  intros [Hb Hc]. unfold ids_ok, held, turn, foreign_timers in *.
  destruct (pending (surface w)) as [|[t [cb|k]] q] eqn:Hq; [by rewrite Hq|..];
    apply Forall_cons_1 in Hb as [_ Hb]; (split; [done|]); simpl;
    intros c Hheld; destruct (Hc c Hheld) as [? Hfresh]; (split; [done|]).
  - by rewrite timers_of_cons in Hfresh.
  - rewrite timers_of_cons in Hfresh. simpl in Hfresh. set_solver.
Qed.

(** ** Other code *)

Lemma own_view_foreign_op op s :
  own_timers (foreign_op op s) = own_timers s ∧
  own_listeners (foreign_op op s) = own_listeners s.
Proof.
  unfold own_timers, own_listeners. destruct op as [k|t|k|k]; simpl.
  - by rewrite timers_of_app, timers_of_cons, app_nil_r.
  - split; [|done]. apply omap_filter_None. intros [t' [n|k']]; simpl; naive_solver.
  - split; [done|]. case_decide; [done|]. by rewrite omap_app, app_nil_r.
  - split; [done|]. apply omap_own_filter_foreign.
Qed.

Lemma own_view_foreign_ops ops s :
  own_timers (foreign_ops ops s) = own_timers s ∧
  own_listeners (foreign_ops ops s) = own_listeners s.
Proof.
  revert s. induction ops as [|op ops IH]; intros s; [done|]. simpl.
  destruct (IH (foreign_op op s)) as [-> ->]. apply own_view_foreign_op.
Qed.

Lemma foreign_timers_clear t s :
  foreign_timers (foreign_op (FClearTimeout t) s) =
    filter (λ x, x.1 ≠ t) (foreign_timers s).
Proof.
  unfold foreign_timers. simpl. apply omap_filter.
  intros [t' [n|k]] [t'' k']; simpl; naive_solver.
Qed.

(** The timers of the component have ids of their own: the one pending is
    the one whose id the component keeps. *)
Lemma own_timer_held w t :
  wf w → t ∈ (timers (surface w)).*1 → ∃ c, held w = Some c ∧ timer c = t.
Proof.
  unfold Invariant.wf, wf_fiber, wf_effect, held. destruct (fiber w) as [f|]; simpl.
  - destruct (effect_deps f) as [[]|], (effect_cleanup f) as [c|];
      intros (_ & _ & Heff) Hin; try done.
    + destruct Heff as [[Ht _]|[Ht _]]; rewrite Ht in Hin; [|by apply elem_of_nil in Hin].
      apply list_elem_of_fmap in Hin as (x & -> & ->%list_elem_of_singleton). eauto.
    + destruct Heff as [Ht _]. rewrite Ht in Hin. by apply elem_of_nil in Hin.
    + destruct Heff as (_ & Ht & _). rewrite Ht in Hin. by apply elem_of_nil in Hin.
  - intros [Ht _] Hin. rewrite Ht in Hin. by apply elem_of_nil in Hin.
Qed.

Lemma own_ids_apart w t :
  wf w → ids_ok w →
  t ∈ (own_timers (surface w)).*1 → t ∉ (foreign_timers (surface w)).*1.
Proof.
  intros Hw [_ Hids] (c & Hc & <-)%own_timer_held; [|done]. by apply Hids.
Qed.

Lemma wf_elsewhere op w : wf w → wf (other_code op w).
Proof.
  destruct (own_view_foreign_op op (surface w)) as [Ht Hl].
  by apply (wf_surface_ext models root w).
Qed.

Lemma ids_ok_elsewhere op w : ids_ok w → ids_ok (other_code op w).
Proof.
  intros [Hb Hc]. unfold ids_ok, held in *. simpl.
  destruct op as [k|t|k|k]; [| |done..].
  - simpl. split.
    + apply Forall_app. split; [by eapply bound_mono; [|done]; lia|].
      apply Forall_singleton. simpl. lia.
    + intros c [Hlt Hfresh]%Hc. split; [lia|].
      unfold foreign_timers in *. simpl. rewrite timers_of_app, timers_of_cons, fmap_app.
      simpl. set_solver by lia.
  - split; [by apply bound_filter|]. intros c [Hlt Hfresh]%Hc. split; [done|].
    rewrite foreign_timers_clear.
    intros ([t' k] & Heq & [_ Hin]%list_elem_of_filter)%list_elem_of_fmap.
    apply Hfresh, list_elem_of_fmap. by exists (t', k).
Qed.

(** ** The invariant on the shared page *)

Lemma shared_wf_mount p s : foreign_only s → shared_wf (mount models root p s).
Proof.
  intros (Ht & Hl & Hb). split; [by apply wf_mount_on|].
  unfold ids_ok, held, mount. by destruct (render models p false).
Qed.

Lemma shared_wf_step ev w : shared_wf w → shared_wf (shared_step ev w).
Proof.
  intros [Hw Hok]. destruct ev as [e|op]; simpl.
  - destruct (decide (e = Tick)) as [->|He]; [by split; [apply wf_turn|apply ids_ok_turn]|].
    replace (match e with Tick => turn w | _ => step e w end) with (step e w)
      by by destruct e.
    split; [by apply wf_step|by apply step_frame].
  - by split; [apply wf_elsewhere|apply ids_ok_elsewhere].
Qed.

Lemma shared_wf_reachable p w : shared_reachable p w → shared_wf w.
Proof. induction 1; [by apply shared_wf_mount|by apply shared_wf_step]. Qed.

Lemma shared_wf_run evs w : shared_wf w → shared_wf (shared_run evs w).
Proof.
  revert w. induction evs as [|ev evs IH]; intros w Hw; [done|].
  by apply IH, shared_wf_step.
Qed.

(** ** Runs on the shared page *)

Lemma shared_run_app evs1 evs2 w :
  shared_run (evs1 ++ evs2) w = shared_run evs2 (shared_run evs1 w).
Proof. apply foldl_app. Qed.

Lemma seen_run_app evs1 evs2 w :
  seen_run (evs1 ++ evs2) w = seen_run evs1 w ++ seen_run evs2 (shared_run evs1 w).
Proof.
  revert w. induction evs1 as [|ev evs1 IH]; intros w; simpl; [done|].
  by rewrite IH, app_assoc.
Qed.

Lemma shared_reachable_run p evs w :
  shared_reachable p w → shared_reachable p (shared_run evs w).
Proof.
  revert w. induction evs as [|ev evs IH]; intros w Hw; [done|].
  by apply IH, shared_next.
Qed.

(** A run of other code changes the page and shows the component
    nothing. *)
Lemma shared_run_other_code ops w :
  shared_run (OtherCode <$> ops) w =
    mkWorld (fiber w) (foreign_ops ops (surface w)) (next_closure w) (trace w).
Proof.
  revert w. induction ops as [|op ops IH]; intros [fo s n tr]; [done|].
  simpl. by rewrite IH.
Qed.

Lemma seen_run_other_code ops w : seen_run (OtherCode <$> ops) w = [].
Proof. revert w. induction ops as [|op ops IH]; intros w; simpl; [done|apply IH]. Qed.

(** On a page shared with other code the invariant of the component
    holds in every reachable world, whatever other code does in between:
    the component holds at most one timer or listener of its own, and the
    timer id it keeps for [clearTimeout] is below the page's next id and
    is the id of no timer of other code. *)
Lemma shared_run_wf p w :
  shared_reachable p w →
  wf w ∧ ids_ok w ∧
  length (own_timers (surface w)) + length (own_listeners (surface w)) ≤ 1.
Proof.
  intros [Hw Hok]%shared_wf_reachable. split_and!; [done..|].
  apply (wf_surface models root w Hw).
Qed.

(** C11: the component leaves the page's other users alone: in every
    reachable world, an event of the component changes no listener of
    other code and no timer of other code; the only change to the timers
    of other code is the event loop running the one at the head of the
    queue.  In particular the cleanup never clears a timer that is not the
    component's. *)
Theorem component_keeps_foreign p w (e : Event) :
  shared_reachable p w →
  let w' := shared_step (Component e) w in
  foreign_listeners (surface w') = foreign_listeners (surface w) ∧
  (foreign_timers (surface w') = foreign_timers (surface w) ∨
   e = Tick ∧ ∃ t k, head (pending (surface w)) = Some (t, Foreign k) ∧
                     foreign_timers (surface w) = (t, k) :: foreign_timers (surface w')).
Proof.
  intros [Hw Hok]%shared_wf_reachable. cbv zeta.
  destruct (decide (e = Tick)) as [->|He].
  - simpl. destruct (turn_view w) as [?|t cb q Hq [= Ht Hl]|t k q s' Hq -> _ Ht].
    + by split; [|left].
    + by split; [|left].
    + split; [done|]. right. split; [done|]. exists t, k. by rewrite Hq.
  - replace (shared_step (Component e) w) with (step e w) by by destruct e.
    destruct (step_frame e w He Hok) as [_ [= Ht Hl]]. by split; [|left].
Qed.

(** ** The component behaves as it does alone *)

Section alone.
Context `{Surface B}.
Implicit Types (v : World B).

Lemma alike_unseen w s' v :
  own_timers s' = own_timers (surface w) → own_listeners s' = own_listeners (surface w) →
  alike w v → alike (mkWorld (fiber w) s' (next_closure w) (trace w)) v.
Proof. unfold alike, observe. simpl. by intros -> ->. Qed.

Lemma alike_shared_step ev w v :
  wf w → Invariant.wf models root v → alike w v →
  alike (shared_step ev w) (Runtime.run models root (seen ev w) v).
Proof.
  intros Hw Hv Hwv. destruct ev as [e|op].
  - destruct (decide (e = Tick)) as [->|He].
    + simpl. destruct (turn_view w) as [Hq|t cb q Hq _|t k q s' Hq -> Hown _]; rewrite Hq.
      * done.
      * by apply alike_tick.
      * by apply alike_unseen.
    + replace (shared_step (Component e) w) with (step e w) by by destruct e.
      replace (seen (Component e) w) with [e] by by destruct e.
      by apply alike_step.
  - destruct (own_view_foreign_op op (surface w)) as [Ht Hl]. by apply alike_unseen.
Qed.

Lemma alike_shared_run evs w v :
  shared_wf w → Invariant.wf models root v → alike w v →
  alike (shared_run evs w) (Runtime.run models root (seen_run evs w) v).
Proof.
  revert w v. induction evs as [|ev evs IH]; intros w v Hw Hv Hwv; [done|].
  simpl. rewrite run_app. apply IH.
  - by apply shared_wf_step.
  - by apply wf_run.
  - apply alike_shared_step; [apply Hw|done..].
Qed.

(** C13: other code on the page changes nothing for the component: a run on
    a shared page, with other code setting and clearing timers and adding
    and removing listeners at any time, leads to the world that the
    component's own events lead to on a page of its own, up to the ids of
    the timers: the same tree, state and refs, the same trace, the same
    listeners and timer callbacks of the component. *)
Theorem shared_as_alone p evs s (s0 : B) :
  foreign_only s → timers s0 = [] → listeners s0 = [] →
  observe (shared_run evs (mount models root p s)) =
  observe (Runtime.run models root (seen_run evs (mount models root p s))
             (mount models root p s0)).
Proof.
  intros Hs Ht Hl. apply alike_shared_run.
  - by apply shared_wf_mount.
  - by apply wf_mount_on.
  - destruct Hs as (? & ? & _). by apply alike_mount.
Qed.

End alone.

End frame.

End Frame.
