(* ===== verification/Behaviour.v ===== *)
(** * What each event does

    The functional behaviour of the component, event by event, on every
    branch: where a click lands and which closure it reaches, what a press
    does with and without a registered listener, what the timer does, and
    what the render and the effects that follow make of the queued updates
    ([settle]). *)

From S2P Require Import Prelude Jsx Models Browser ModelSelect Runtime Invariant.
Import Jsx Registry Browser ModelSelect Runtime Invariant.
From S2P Require Import ModelSelectFacts.
Import ModelSelectFacts.

Module Behaviour.

(** The world with more said on the trace. *)
Definition say {B} (out : list Output) (w : World B) : World B :=
  mkWorld (fiber w) (surface w) (next_closure w) (trace w ++ out).

Section behaviour.
Context (models : list Model) (root : Node) `{Surface B}.
Implicit Types (w : World B) (f : Fiber) (s : B) (p : ModelSelectProps).
Implicit Types (target : Node) (q : Path) (cmds : list Cmd) (e : Event).

#[local] Abbreviation wf := (Invariant.wf models root).
#[local] Abbreviation reachable := (Runtime.reachable models root).
#[local] Abbreviation settle := (Runtime.settle models root).
#[local] Abbreviation click := (Runtime.click root).

(** ** Clicks *)

(** What a click does, by the closures it reaches. *)
Lemma click_miss w f target :
  fiber w = Some f → reached root f target = None → click target w = w.
Proof. intros Hf Hr. unfold click, Runtime.click. by rewrite Hf, Hr. Qed.

Lemma click_plain w f target :
  fiber w = Some f → reached root f target = Some [] →
  click target w = say [Propagated target] w.
Proof. intros Hf Hr. unfold click, Runtime.click. by rewrite Hf, Hr. Qed.

Lemma click_toggle w f target (o : bool) :
  fiber w = Some f → reached root f target = Some [ToggleClosure o] →
  click target w = exec_all (handleToggle o) w.
Proof. intros Hf Hr. unfold click, Runtime.click. by rewrite Hf, Hr. Qed.

Lemma click_select w f target (cb : nat) (modelId : string) :
  fiber w = Some f → reached root f target = Some [SelectClosure cb modelId] →
  click target w = say [Propagated target] (exec_all (handleSelect cb modelId) w).
Proof. intros Hf Hr. unfold click, Runtime.click. by rewrite Hf, Hr. Qed.

(** Every click, by where it lands: outside the component's nodes it
    reaches nothing; on the wrapper or on the dropdown between the rows it
    reaches no closure; on the button or inside it, the toggle closure of
    the last render; on a row or inside it, the closure that selects the
    row's model.  The dropdown and its rows exist only while open. *)
Inductive Reach f target : option (list Handler) → Prop :=
| ReachMiss : Reach f target None
| ReachWrapper : target = root → Reach f target (Some [])
| ReachDropdown :
    isOpen f = true → target = root ++ dropdown_path → Reach f target (Some [])
| ReachButton q :
    target = root ++ 0 :: q → Reach f target (Some [ToggleClosure (isOpen f)])
| ReachRow i q m :
    isOpen f = true → target = root ++ 1 :: i :: q → models !! i = Some m →
    Reach f target (Some [SelectClosure (onChange (props f)) (id m)]).

Lemma reached_cases w f target :
  wf w → fiber w = Some f → Reach f target (reached root f target).
Proof.
  intros Hw Hf. unfold reached.
  unfold wf, Invariant.wf in Hw. rewrite Hf in Hw. destruct Hw as ((m & _ & Htree) & _).
  destruct (below root target) as [q|] eqn:Hq; [|apply ReachMiss].
  apply below_Some in Hq as ->. cbn [mbind option_bind]. unfold bubble. rewrite Htree.
  destruct (handlers_to _ q) as [hs|] eqn:Hq; [|apply ReachMiss].
  apply handlers_to_view in Hq as [-> ->|q' -> ->|Ho -> ->|i q' m' Ho -> Hi ->]; simpl.
  - rewrite app_nil_r. by apply ReachWrapper.
  - by eapply ReachButton.
  - by apply ReachDropdown.
  - by eapply ReachRow.
Qed.

(** A click on the button, or on a node inside it, runs [handleToggle] with
    the [isOpen] of the last render. *)
Lemma click_button w f q :
  wf w → fiber w = Some f → is_Some (node_at (tree f) (button_path ++ q)) →
  click (root ++ button_path ++ q) w = exec_all (handleToggle (isOpen f)) w.
Proof.
  intros Hw Hf Hq. change (button_path ++ q) with (0 :: q) in *.
  unfold click, Runtime.click, reached. rewrite Hf, below_app. cbn [mbind option_bind].
  unfold wf, Invariant.wf in Hw. rewrite Hf in Hw. destruct Hw as ((m & _ & Htree) & _).
  apply handlers_to_is_Some in Hq as [hs Hhs]. unfold bubble. rewrite Hhs.
  rewrite Htree in Hhs. by apply handlers_to_view in Hhs as [| |?|]; simplify_eq/=.
Qed.

(** A click on row [i], or on a node inside it, runs [handleSelect] for the
    model of that row, with the [onChange] of the last render, and is not
    stopped. *)
Lemma click_row w f i q :
  wf w → fiber w = Some f → is_Some (node_at (tree f) (row_path i ++ q)) →
  ∃ m, models !! i = Some m ∧ isOpen f = true ∧
       click (root ++ row_path i ++ q) w =
         say [Propagated (root ++ row_path i ++ q)]
             (exec_all (handleSelect (onChange (props f)) (id m)) w).
Proof.
  intros Hw Hf Hq. change (row_path i ++ q) with (1 :: i :: q) in *.
  unfold click, Runtime.click, reached. rewrite Hf, below_app. cbn [mbind option_bind].
  unfold wf, Invariant.wf in Hw. rewrite Hf in Hw. destruct Hw as ((m & _ & Htree) & _).
  apply handlers_to_is_Some in Hq as [hs Hhs]. unfold bubble. rewrite Hhs.
  rewrite Htree in Hhs.
  apply handlers_to_view in Hhs as [| |?|j q' m' Ho ? Hj ->]; simplify_eq/=.
  by exists m'.
Qed.

(** ** Settling *)

Lemma quiescent_not_due w f : quiescent w → fiber w = Some f → effect_due f = false.
Proof.
  unfold quiescent. intros Hq Hf. rewrite Hf in Hq. destruct Hq as [_ Hdeps].
  apply bool_decide_eq_false. by intros [].
Qed.

Lemma flush_effects_not_due_id w f :
  fiber w = Some f → effect_due f = false → flush_effects w = w.
Proof. intros Hf Hdue. unfold flush_effects. by rewrite Hf, Hdue. Qed.

(** What the render and the effects after it make of a world in which no
    effect is due: the state becomes the last queued value; if that is the
    state the last render saw, nothing else changes; if the dropdown
    opened, the timer is set and no listener is registered yet; if it
    closed, the timer is cleared and the listener removed. *)
Lemma settle_spec w f :
  wf w → fiber w = Some f → effect_deps f = Some (isOpen f) →
  ∃ f', fiber (settle w) = Some f' ∧
        isOpen f' = next_isOpen f ∧ props f' = props f ∧ updates f' = [] ∧
        effect_deps f' = Some (next_isOpen f) ∧
        trace (settle w) = trace w ∧
        (next_isOpen f = isOpen f → surface (settle w) = surface w) ∧
        (next_isOpen f ≠ isOpen f →
           listeners (surface (settle w)) = [] ∧
           (timers (surface (settle w)) = [] ↔ next_isOpen f = false)).
Proof.
  intros Hw Hf Hdeps.
  assert (effect_due f = false) as Hdue.
  { apply bool_decide_eq_false. by intros []. }
  unfold settle, Runtime.settle, rerender. rewrite Hf. unfold rerender_with.
  rewrite (flush_effects_not_due_id w f), Hf by done.
  unfold wf, Invariant.wf in Hw. rewrite Hf in Hw.
  destruct Hw as ((m & Hm & Htree) & Hrefs & Heff).
  rewrite (render_view models (props f) (next_isOpen f) m Hm).
  unfold flush_effects. simpl. unfold effect_due. simpl. rewrite Hdeps.
  unfold wf_effect in Heff. rewrite Hdeps in Heff.
  destruct (next_isOpen f) eqn:Ho, (isOpen f) eqn:Ho'; simpl.
  - eexists. by split_and!.
  - destruct (effect_cleanup f) as [c|] eqn:Hc; [done|]. destruct Heff as [Ht Hl].
    unfold effect, run_cleanup. simpl.
    destruct (setTimeout _ _) as [t s'] eqn:Hset. simpl.
    pose proof (timers_setTimeout (next_closure w) (surface w)) as Ht'.
    pose proof (listeners_setTimeout (next_closure w) (surface w)) as Hl'.
    rewrite Hset, Ht in Ht'. rewrite Hset, Hl in Hl'. simpl in *.
    eexists; split_and!; try done; intros _; by rewrite Ht', Hl'.
  - destruct (effect_cleanup f) as [c|] eqn:Hc; [|done].
    pose proof (run_cleanup_clean f (surface w)) as Hclean.
    unfold wf_effect, run_cleanup in Hclean. rewrite Hdeps, Hc in Hclean.
    destruct (Hclean Heff) as [Ht Hl].
    unfold effect, run_cleanup. simpl.
    eexists; split_and!; try done; intros _; by rewrite Ht, Hl.
  - eexists. by split_and!.
Qed.

(** A render with new props in a quiescent world keeps the state and the
    effect, and renders the new props. *)
Lemma rerender_with_quiescent w f p' :
  wf w → quiescent w → fiber w = Some f →
  ∃ m', currentModel models (value p') = Some m' ∧
        rerender_with models root p' w =
          mkWorld (Some (committed root p' (isOpen f)
                           (view models p' (isOpen f) (label m'))
                           (effect_deps f) (effect_cleanup f)))
                  (surface w) (next_closure w) (trace w).
Proof.
  intros Hw Hq Hf. pose proof (quiescent_not_due w f Hq Hf) as Hdue.
  unfold quiescent in Hq. rewrite Hf in Hq. destruct Hq as [Hu _].
  unfold wf, Invariant.wf in Hw. rewrite Hf in Hw. destruct Hw as ((m & Hm & _) & _).
  destruct (currentModel models (value p')) as [m'|] eqn:Hm'.
  - exists m'. split; [done|]. unfold rerender_with.
    rewrite (flush_effects_not_due_id w f), Hf by done.
    assert (next_isOpen f = isOpen f) as -> by (unfold next_isOpen; by rewrite Hu).
    by rewrite (render_view models p' (isOpen f) m' Hm').
  - apply currentModel_None_iff in Hm'. subst. by vm_compute in Hm.
Qed.

(** The fiber of a well-formed quiescent world is what a commit of its own
    props and state produces. *)
Lemma committed_self w f m :
  wf w → fiber w = Some f → updates f = [] →
  currentModel models (value (props f)) = Some m →
  committed root (props f) (isOpen f) (view models (props f) (isOpen f) (label m))
            (effect_deps f) (effect_cleanup f) = f.
Proof.
  intros Hw Hf Hu Hm. unfold wf, Invariant.wf in Hw. rewrite Hf in Hw.
  destruct Hw as ((m0 & Hm0 & Htree) & [Hb Hd] & _).
  assert (m0 = m) as -> by congruence. unfold committed.
  rewrite ref_node_button, ref_node_dropdown, <-Htree, <-Hb, <-Hd, <-Hu. by destruct f.
Qed.

Lemma rerender_quiescent w : wf w → quiescent w → rerender models root w = w.
Proof.
  intros Hw Hq. unfold rerender. destruct (fiber w) as [f|] eqn:Hf; [|done].
  destruct (rerender_with_quiescent w f (props f) Hw Hq Hf) as (m & Hm & ->).
  unfold quiescent in Hq. rewrite Hf in Hq. destruct Hq as [Hu _].
  rewrite (committed_self w f m) by done. destruct w. by simplify_eq/=.
Qed.

Lemma flush_quiescent w : quiescent w → flush_effects w = w.
Proof.
  intros Hq. destruct (fiber w) as [f|] eqn:Hf.
  - by apply (flush_effects_not_due_id w f), (quiescent_not_due w).
  - unfold flush_effects. by rewrite Hf.
Qed.

(** In a quiescent world the render and the flush change nothing. *)
Lemma settle_quiescent w : wf w → quiescent w → settle w = w.
Proof.
  intros Hw Hq. unfold settle, Runtime.settle.
  by rewrite rerender_quiescent, flush_quiescent.
Qed.

Lemma say_nil w : say [] w = w.
Proof. destruct w. unfold say. simpl. by rewrite app_nil_r. Qed.

Lemma wf_say out w : wf w → wf (say out w).
Proof. done. Qed.

(** Settling after the commands of a handler, in a world that was
    quiescent, with or without more said on the trace. *)
Lemma settle_cmds w f cmds out :
  wf w → quiescent w → fiber w = Some f →
  let w' := settle (say out (exec_all cmds w)) in
  let o := default (isOpen f) (last (sets_of cmds)) in
  quiescent w' ∧
  trace w' = (trace w ++ calls_of cmds) ++ out ∧
  (∃ f', fiber w' = Some f' ∧ isOpen f' = o ∧ props f' = props f) ∧
  (o = isOpen f → surface w' = surface w) ∧
  (o ≠ isOpen f →
     listeners (surface w') = [] ∧ (timers (surface w') = [] ↔ o = false)).
Proof.
  intros Hw Hq Hf. unfold quiescent in Hq. rewrite Hf in Hq. destruct Hq as [Hu Hdeps].
  assert (fiber (say out (exec_all cmds w)) = Some (queue_all (sets_of cmds) f)) as Hf1.
  { rewrite exec_all_eq. simpl. by rewrite Hf. }
  assert (next_isOpen (queue_all (sets_of cmds) f) =
          default (isOpen f) (last (sets_of cmds))) as Hnext.
  { unfold next_isOpen. simpl. by rewrite Hu. }
  destruct (settle_spec (say out (exec_all cmds w)) _
              (wf_say out _ (wf_exec_all models root cmds w Hw)) Hf1 Hdeps)
    as (f' & Hf' & Ho & Hp & Hu' & Hdeps' & Htr & Hsame & Hdiff).
  rewrite Hnext in *. simpl in *. split_and!.
  - unfold quiescent. rewrite Hf'. by rewrite Ho.
  - rewrite Htr, exec_all_eq. done.
  - by exists f'.
  - intros Heq. rewrite Hsame by done. by rewrite exec_all_eq.
  - done.
Qed.

(** ** The four user-level transitions *)

(** C5: activating the trigger toggles the dropdown and calls nothing: after
    a click on the button (or on a node inside it) and the render it
    causes, [isOpen] is the negation of what it was, the trace is
    unchanged (no [onChange], and the click did not leave the component),
    no listener is registered yet, and the timer is pending exactly when
    the dropdown has just opened. *)
Theorem click_trigger_toggles p w f q :
  reachable p w → quiescent w → fiber w = Some f →
  is_Some (node_at (tree f) (button_path ++ q)) →
  let w' := settle (click (root ++ button_path ++ q) w) in
  quiescent w' ∧ trace w' = trace w ∧
  (∃ f', fiber w' = Some f' ∧ isOpen f' = negb (isOpen f) ∧ props f' = props f) ∧
  listeners (surface w') = [] ∧
  (timers (surface w') = [] ↔ isOpen f = true).
Proof.
  intros Hw%wf_reachable Hq Hf Hnode. cbv zeta. rewrite (click_button w f) by done.
  destruct (settle_cmds w f (handleToggle (isOpen f)) [] Hw Hq Hf)
    as (Hq' & Htr & Hf' & _ & Hdiff).
  replace (say [] (exec_all (handleToggle (isOpen f)) w))
    with (exec_all (handleToggle (isOpen f)) w) in *
    by (rewrite exec_all_eq; unfold say; simpl; by rewrite !app_nil_r).
  simpl in *. rewrite !app_nil_r in Htr.
  destruct Hdiff as [Hl Ht]; [by destruct (isOpen f)|].
  split_and!; try done. rewrite Ht. by destruct (isOpen f).
Qed.

(** C4: activating a row of the open dropdown calls [onChange] exactly once,
    with the id of that row's model and with the callback of the last
    render, and closes the dropdown: after the click and the render it
    causes, the trace has grown by that one call (followed by the click
    leaving the component, which no handler stops), [isOpen] is false, and
    neither a timer nor a listener of the component is left. *)
Theorem click_row_selects p w f i q :
  reachable p w → quiescent w → fiber w = Some f →
  is_Some (node_at (tree f) (row_path i ++ q)) →
  let target := root ++ row_path i ++ q in
  let w' := settle (click target w) in
  ∃ m, models !! i = Some m ∧
       quiescent w' ∧
       trace w' = trace w ++ [Changed (onChange (props f)) (id m); Propagated target] ∧
       (∃ f', fiber w' = Some f' ∧ isOpen f' = false ∧ props f' = props f) ∧
       timers (surface w') = [] ∧ listeners (surface w') = [].
Proof.
  intros Hw%wf_reachable Hq Hf Hnode. cbv zeta.
  destruct (click_row w f i q Hw Hf Hnode) as (m & Hi & Ho & ->). exists m.
  destruct (settle_cmds w f (handleSelect (onChange (props f)) (id m))
              [Propagated (root ++ row_path i ++ q)] Hw Hq Hf)
    as (Hq' & Htr & Hf' & _ & Hdiff).
  simpl in *. rewrite Ho in Hdiff. destruct Hdiff as [Hl Ht]; [done|].
  split_and!; try done.
  - by rewrite Htr, <-app_assoc.
  - by apply Ht.
Qed.

(** ** Presses *)

Lemma exec_all_nil w : exec_all [] w = w.
Proof. done. Qed.

Lemma exec_all_app cmds1 cmds2 w :
  exec_all (cmds1 ++ cmds2) w = exec_all cmds2 (exec_all cmds1 w).
Proof. apply foldl_app. Qed.

(** With one listener registered, a press is one call of
    [handleClickOutside] with the current refs. *)
Lemma mousedown_one w f target l :
  fiber w = Some f → listeners (surface w) = [l] →
  mousedown target w =
    exec_all (handleClickOutside (dropdown_current f) (button_current f) target) w.
Proof. intros Hf Hl. unfold mousedown. rewrite Hl. simpl. unfold listen. by rewrite Hf. Qed.

Lemma mousedown_none w target : listeners (surface w) = [] → mousedown target w = w.
Proof. intros Hl. unfold mousedown. by rewrite Hl. Qed.

Lemma mousedown_inside w target :
  wf w →
  contains (root ++ button_path) target = true ∨
  contains (root ++ dropdown_path) target = true →
  mousedown target w = w.
Proof.
  intros Hw Hin. pose proof (wf_surface models root w Hw) as Hlen.
  destruct (listeners (surface w)) as [|l [|l' ls]] eqn:Hl;
    [by apply mousedown_none| |simpl in Hlen; lia].
  unfold mousedown. rewrite Hl. simpl. unfold listen.
  unfold wf, Invariant.wf in Hw. destruct (fiber w) as [f|]; [|done].
  destruct Hw as (_ & [Hb Hd] & _). simpl. rewrite Hb, Hd.
  destruct Hin as [Hin|Hin].
  - by rewrite handleClickOutside_inside_button.
  - destruct (isOpen f); [|done]. by rewrite handleClickOutside_inside_dropdown.
Qed.

(** C7: a press on the button, on the dropdown or on anything inside either
    never changes the world, in any reachable state (so the press that
    precedes a click on the trigger or on a row does not close the
    dropdown before the click arrives). *)
Theorem press_inside_keeps p w target :
  reachable p w →
  contains (root ++ button_path) target = true ∨
  contains (root ++ dropdown_path) target = true →
  mousedown target w = w.
Proof. intros Hw%wf_reachable. by apply mousedown_inside. Qed.

(** With the detector live, a press outside both the button and the
    dropdown closes the dropdown at the next render and calls nothing. *)
Lemma press_outside w f target :
  wf w → quiescent w → fiber w = Some f →
  listeners (surface w) ≠ [] →
  contains (root ++ button_path) target = false →
  contains (root ++ dropdown_path) target = false →
  let w' := settle (mousedown target w) in
  quiescent w' ∧ trace w' = trace w ∧
  (∃ f', fiber w' = Some f' ∧ isOpen f' = false ∧ props f' = props f) ∧
  timers (surface w') = [] ∧ listeners (surface w') = [].
Proof.
  intros Hw Hq Hf Hl Hb Hd. cbv zeta.
  destruct (listeners (surface w)) as [|l ls] eqn:Hls; [done|]. clear Hl.
  destruct (wf_listener models root w l Hw) as (f0 & c & Hf0 & Hdeps & _);
    [rewrite Hls; by left|].
  assert (f0 = f) as -> by congruence.
  pose proof (wf_surface models root w Hw) as Hlen.
  rewrite Hls in Hlen. destruct ls; [|simpl in Hlen; lia].
  assert (isOpen f = true) as Ho.
  { unfold quiescent in Hq. rewrite Hf in Hq. destruct Hq as [_ Hq]. congruence. }
  rewrite (mousedown_one w f target l Hf Hls).
  pose proof Hw as Hw'.
  unfold wf, Invariant.wf in Hw'. rewrite Hf in Hw'. destruct Hw' as (_ & [Hbc Hdc] & _).
  rewrite Hbc, Hdc, Ho. unfold handleClickOutside. rewrite Hb, Hd.
  destruct (settle_cmds w f [SetIsOpen false] [] Hw Hq Hf)
    as (Hq' & Htr & Hf' & _ & Hdiff).
  replace (say [] (exec_all [SetIsOpen false] w)) with (exec_all [SetIsOpen false] w) in *
    by (rewrite exec_all_eq; unfold say; simpl; by rewrite !app_nil_r).
  simpl in *. rewrite !app_nil_r in Htr. rewrite Ho in Hdiff.
  destruct Hdiff as [Hl' Ht']; [done|]. split_and!; try done. by apply Ht'.
Qed.

(** C6: with the detector live, a press outside both the button and the
    dropdown closes the dropdown and calls nothing: after the press and
    the render it causes, [isOpen] is false, the trace is unchanged, and
    the listener is removed again. *)
Theorem press_outside_closes p w f target :
  reachable p w → quiescent w → fiber w = Some f →
  listeners (surface w) ≠ [] →
  contains (root ++ button_path) target = false →
  contains (root ++ dropdown_path) target = false →
  let w' := settle (mousedown target w) in
  quiescent w' ∧ trace w' = trace w ∧
  (∃ f', fiber w' = Some f' ∧ isOpen f' = false ∧ props f' = props f) ∧
  timers (surface w') = [] ∧ listeners (surface w') = [].
Proof. intros Hw%wf_reachable. by apply press_outside. Qed.

(** ** The timer *)

Lemma tick_pending w :
  wf w → timers (surface w) ≠ [] →
  fiber (tick w) = fiber w ∧ trace (tick w) = trace w ∧
  timers (surface (tick w)) = [] ∧ ∃ l, listeners (surface (tick w)) = [l].
Proof.
  intros Hw Ht. pose proof (wf_tick models root w Hw) as Hw'.
  pose proof (wf_surface models root _ Hw') as Hlen. unfold tick in *.
  destruct (takeTimer (surface w)) as [[cb s]|] eqn:Htake;
    [|by apply takeTimer_None in Htake].
  simpl in *. unfold arm in *. split_and!; [done..| |].
  - pose proof (addEventListener_elem_of cb s) as Hin.
    destruct (listeners (addEventListener cb s)); [by inv Hin|].
    destruct (timers (addEventListener cb s)); [done|simpl in Hlen; lia].
  - pose proof (addEventListener_elem_of cb s) as Hin.
    destruct (listeners (addEventListener cb s)) as [|l [|??]]; [by inv Hin|by eexists|].
    simpl in Hlen. lia.
Qed.

(** When the zero-delay timer runs, the detector becomes live: the timer
    is gone, exactly one listener is registered, and nothing else
    changes. *)
Lemma tick_arms p w :
  reachable p w → timers (surface w) ≠ [] →
  fiber (tick w) = fiber w ∧ trace (tick w) = trace w ∧
  timers (surface (tick w)) = [] ∧ ∃ l, listeners (surface (tick w)) = [l].
Proof. intros Hw%wf_reachable. by apply tick_pending. Qed.

Lemma tick_none w : timers (surface w) = [] → tick w = w.
Proof. intros Ht%takeTimer_None. unfold tick. by rewrite Ht. Qed.

(** ** Two activations before a render *)

(** C31: [handleToggle] negates the [isOpen] of the render that created it,
    not the pending state: when the trigger is activated twice before the
    component re-renders, both activations queue the same value, and the
    render that follows has toggled once, not twice. *)
Theorem toggle_twice_before_render p w f q :
  reachable p w → quiescent w → fiber w = Some f →
  is_Some (node_at (tree f) (button_path ++ q)) →
  let target := root ++ button_path ++ q in
  let w' := settle (click target (click target w)) in
  quiescent w' ∧ trace w' = trace w ∧
  ∃ f', fiber w' = Some f' ∧ isOpen f' = negb (isOpen f).
Proof.
  intros Hw%wf_reachable Hq Hf Hnode. cbv zeta.
  rewrite (click_button w f q) by done.
  set (w1 := exec_all (handleToggle (isOpen f)) w).
  assert (fiber w1 = Some (queue_all (sets_of (handleToggle (isOpen f))) f)) as Hf1.
  { unfold w1. rewrite exec_all_eq. simpl. by rewrite Hf. }
  rewrite (click_button w1 _ q (wf_exec_all models root _ w Hw) Hf1) by done.
  unfold w1. rewrite <-exec_all_app. simpl isOpen.
  pose proof (settle_cmds w f (handleToggle (isOpen f) ++ handleToggle (isOpen f)) []
                Hw Hq Hf) as Hs.
  rewrite say_nil in Hs. destruct Hs as (Hq' & Htr & (f' & Hf' & Ho & _) & _).
  simpl in *. rewrite !app_nil_r in Htr. split_and!; [done..|]. by exists f'.
Qed.

(** ** What is said on the trace *)

Lemma calls_of_handleClickOutside dropdown button target :
  calls_of (handleClickOutside dropdown button target) = [].
Proof.
  unfold handleClickOutside. destruct dropdown as [d|]; [|done].
  destruct (contains d target); [done|]. destruct button as [b|]; [|done].
  by destruct (contains b target).
Qed.

Lemma mousedown_trace w target : trace (mousedown target w) = trace w.
Proof.
  unfold mousedown. generalize (listeners (surface w)). intros ls. revert w.
  induction ls as [|l ls IH]; intros w; simpl; [done|]. rewrite IH.
  unfold listen. rewrite exec_all_eq. simpl.
  by rewrite calls_of_handleClickOutside, app_nil_r.
Qed.

Lemma flush_effects_trace w : trace (flush_effects w) = trace w.
Proof.
  unfold flush_effects. destruct (fiber w) as [f|]; [|done].
  destruct (effect_due f); [|done]. by destruct (effect _ _ _).
Qed.

Lemma tick_trace w : trace (tick w) = trace w.
Proof. unfold tick. by destruct (takeTimer (surface w)) as [[??]|]. Qed.

Lemma unmount_trace w : trace (unmount w) = trace w.
Proof.
  unfold unmount. rewrite <-(flush_effects_trace w).
  by destruct (fiber (flush_effects w)).
Qed.

(** In a well-formed world the registry is not empty, so no later render
    throws. *)
Lemma wf_render_Ok w f p' o :
  wf w → fiber w = Some f → ∃ t, render models p' o = Ok t.
Proof.
  intros Hw Hf. unfold wf, Invariant.wf in Hw. rewrite Hf in Hw.
  destruct Hw as ((m & Hm & _) & _). unfold render.
  destruct (currentModel models (value p')) as [m'|] eqn:Hm'; [by eexists|].
  apply currentModel_None_iff in Hm'. subst. by vm_compute in Hm.
Qed.

Lemma rerender_with_trace w p' : wf w → trace (rerender_with models root p' w) = trace w.
Proof.
  intros Hw%(wf_flush_effects models root). unfold rerender_with.
  rewrite <-(flush_effects_trace w).
  destruct (fiber (flush_effects w)) as [f|] eqn:Hf; [|done].
  by destruct (wf_render_Ok _ f p' (next_isOpen f) Hw Hf) as [t ->].
Qed.

Lemma settle_trace w : wf w → trace (settle w) = trace w.
Proof.
  intros Hw. unfold settle, Runtime.settle. rewrite flush_effects_trace. unfold rerender.
  destruct (fiber w); [by apply rerender_with_trace|done].
Qed.

(** A mounted component stays mounted through a render and an effect
    flush, with the props the render was given. *)
Lemma rerender_with_mounted w f p' :
  wf w → fiber w = Some f →
  ∃ f', fiber (rerender_with models root p' w) = Some f' ∧ props f' = p'.
Proof.
  intros Hw Hf. unfold rerender_with. cbv zeta.
  destruct (flush_effects_fiber w f Hf) as (c & Hf1 & _). rewrite Hf1.
  destruct (wf_render_Ok _ _ p' (next_isOpen (ran_effect c f))
              (wf_flush_effects models root w Hw) Hf1) as [t ->].
  by eexists.
Qed.

Lemma settle_mounted w f :
  wf w → fiber w = Some f → ∃ f', fiber (settle w) = Some f' ∧ props f' = props f.
Proof.
  intros Hw Hf. unfold settle, Runtime.settle, rerender. rewrite Hf.
  destruct (rerender_with_mounted w f (props f) Hw Hf) as (f1 & Hf1 & Hp).
  destruct (flush_effects_fiber _ f1 Hf1) as (c & -> & _). by eexists.
Qed.

Lemma quiet_step w e :
  wf w → is_click e = false → trace (Runtime.step models root e w) = trace w.
Proof.
  intros Hw He. destruct e; simpl; try done.
  - apply mousedown_trace.
  - apply tick_trace.
  - unfold rerender. destruct (fiber w); [by apply rerender_with_trace|done].
  - apply flush_effects_trace.
  - by apply rerender_with_trace.
  - apply unmount_trace.
Qed.

(** C32: only a click makes the component say anything: a press, a timer, a
    render, an effect flush, new props and the unmount leave the trace as
    it is; in particular none of them calls [onChange], and no render
    after the first one throws. *)
Theorem only_clicks_talk p w e :
  reachable p w → is_click e = false → trace (Runtime.step models root e w) = trace w.
Proof. intros Hw%wf_reachable. by apply quiet_step. Qed.

(** ** New props *)

(** C33: the selection is the owner's: a render with new props shows the
    current model of the new [value] and closes over the new [onChange],
    keeps [isOpen], the refs' elements and the effect as they were, and
    touches neither the browser nor the trace. *)
Theorem new_props_keep_state p w f p' :
  reachable p w → quiescent w → fiber w = Some f →
  let w' := rerender_with models root p' w in
  ∃ m', currentModel models (value p') = Some m' ∧
        fiber w' = Some (committed root p' (isOpen f)
                           (view models p' (isOpen f) (label m'))
                           (effect_deps f) (effect_cleanup f)) ∧
        surface w' = surface w ∧ trace w' = trace w ∧ quiescent w'.
Proof.
  intros Hw%wf_reachable Hq Hf. cbv zeta.
  destruct (rerender_with_quiescent w f p' Hw Hq Hf) as (m' & Hm' & ->).
  exists m'. split_and!; try done.
  unfold quiescent in *. rewrite Hf in Hq. simpl. by destruct Hq.
Qed.

(** ** Settling always ends quiescent *)

Lemma quiescent_settle w : quiescent (settle w).
Proof.
  unfold settle, Runtime.settle, quiescent.
  destruct (fiber (flush_effects (rerender models root w))) as [f|] eqn:Hf; [|done].
  pose proof (flush_effects_not_due _ f Hf) as Hdue.
  apply bool_decide_eq_false, dec_stable in Hdue. split; [|done].
  assert (∀ w0 f0, fiber (flush_effects w0) = Some f0 →
            ∃ f1, fiber w0 = Some f1 ∧ updates f0 = updates f1) as Hflush.
  { intros w0 f0. unfold flush_effects. destruct (fiber w0) as [f1|] eqn:Hf1; [|by rewrite Hf1].
    destruct (effect_due f1); [|rewrite Hf1; intros [= <-]; by exists f1].
    destruct (effect _ _ _). simpl. intros [= <-]. by exists f1. }
  apply Hflush in Hf as (f1 & Hf1 & ->). unfold rerender in Hf1.
  destruct (fiber w) as [f2|] eqn:Hf2; [|congruence].
  unfold rerender_with in Hf1. cbv zeta in Hf1.
  destruct (fiber (flush_effects w)) as [f3|] eqn:Hf3; [|congruence].
  destruct (render models (props f2) (next_isOpen f3)); by simplify_eq/=.
Qed.

End behaviour.

End Behaviour.
