(* ===== verification/Spec.v ===== *)
(** * The specification and the refinement

    The widget the specification describes is a machine with two visible
    states, Closed and Open; Open is split by whether the outside-press
    detector is live yet ([Opening]: the overlay is shown, the detector is
    armed in the next turn of the event loop).  Its inputs are the
    activations of the trigger and of an option, presses inside and
    outside, the next turn, new props from the owner, and the destruction
    of the widget; its only output is the call of the change callback.

    [abs] reads the state of the machine off a world of the runtime and
    [action_of] the input off an event.  The refinement theorem: from a
    reachable quiescent world, an event followed by the render and effect
    flush React performs ([settle]) is the step the specification takes
    on that input, with the same calls of the callback, and ends in a
    reachable quiescent world. *)

From S2P Require Import Prelude Jsx Models Browser ModelSelect Runtime Invariant Behaviour.
Import Jsx Registry Browser ModelSelect Runtime Invariant Behaviour.
From S2P Require Import ModelSelectFacts.
Import ModelSelectFacts.

Module Spec.

(** ** The machine *)

Inductive Phase : Type :=
| Closed
| Opening
| Open.

Inductive State : Type :=
| Gone
| Live (p : ModelSelectProps) (ph : Phase).

Inductive Action : Type :=
| Trigger
| Choose (modelId : string)
| PressInside
| PressOutside
| NextTurn
| NewProps (p : ModelSelectProps)
| Destroy
| Idle.

#[export] Instance Phase_eq_dec : EqDecision Phase.
Proof. solve_decision. Defined.

#[export] Instance State_eq_dec : EqDecision State.
Proof. solve_decision. Defined.

(** A call of the change callback: which callback, with which id. *)
Abbreviation Call := (nat * string)%type.

(** One step on a mounted widget: the next phase and the calls made. *)
Definition live_step (p : ModelSelectProps) (a : Action) (ph : Phase) : Phase * list Call :=
  match a, ph with
  | Trigger, Closed => (Opening, [])
  | Trigger, (Opening | Open) => (Closed, [])
  | Choose modelId, (Opening | Open) => (Closed, [(onChange p, modelId)])
  | PressOutside, Open => (Closed, [])
  | NextTurn, Opening => (Open, [])
  | _, _ => (ph, [])
  end.

Definition spec_step (a : Action) (st : State) : State * list Call :=
  match st, a with
  | Gone, _ => (Gone, [])
  | Live _ _, Destroy => (Gone, [])
  | Live _ ph, NewProps p => (Live p ph, [])
  | Live p ph, _ => (Live p (live_step p a ph).1, (live_step p a ph).2)
  end.

(** A run of the machine: the final state and all calls, in order. *)
Fixpoint spec_run (acts : list Action) (st : State) : State * list Call :=
  match acts with
  | [] => (st, [])
  | a :: acts' =>
      let '(st1, out1) := spec_step a st in
      let '(st2, out2) := spec_run acts' st1 in
      (st2, out1 ++ out2)
  end.

(** ** Reading the machine off the runtime *)

(** The calls of the callback on a trace. *)
Definition calls (tr : list Output) : list Call :=
  omap (λ o, match o with Changed cb modelId => Some (cb, modelId) | _ => None end) tr.

Section simulation.
Context (models : list Model) (root : Node) `{Surface B}.
Implicit Types (w : World B) (f : Fiber) (p : ModelSelectProps).
Implicit Types (target : Node) (e : Event) (st : State).

#[local] Abbreviation wf := (Invariant.wf models root).
#[local] Abbreviation reachable := (Runtime.reachable models root).
#[local] Abbreviation settle := (Runtime.settle models root).
#[local] Abbreviation step := (Runtime.step models root).

Definition phase_of w f : Phase :=
  if isOpen f then
    if decide (listeners (surface w) = []) then Opening else Open
  else Closed.

Definition abs w : State :=
  match fiber w with
  | Some f => Live (props f) (phase_of w f)
  | None => Gone
  end.

(** The input an event is: a click is the activation of what it reaches, a
    press is inside when the button or the dropdown contains its target. *)
Definition action_of w e : Action :=
  match e with
  | Click target =>
      match fiber w ≫= λ f, reached root f target with
      | Some [ToggleClosure _] => Trigger
      | Some [SelectClosure _ modelId] => Choose modelId
      | _ => Idle
      end
  | MouseDown target =>
      if contains (root ++ button_path) target || contains (root ++ dropdown_path) target
      then PressInside else PressOutside
  | Tick => NextTurn
  | SetProps p => NewProps p
  | Unmount => Destroy
  | Render | Flush => Idle
  end.

(** The runs React performs: every event is followed by [settle]. *)
Definition sync_step e w : World B := settle (step e w).

Definition sync_run (es : list Event) w : World B := foldl (λ w e, sync_step e w) w es.

(** The inputs of a synchronous run, read off the worlds it passes. *)
Fixpoint actions_of (es : list Event) w : list Action :=
  match es with
  | [] => []
  | e :: es' => action_of w e :: actions_of es' (sync_step e w)
  end.

(** ** Quiescent worlds *)

Lemma reachable_settle p w : reachable p w → reachable p (settle w).
Proof. intros Hw. by apply (reachable_step _ _ _ Flush), (reachable_step _ _ _ Render). Qed.

Lemma reachable_sync_step p w e : reachable p w → reachable p (sync_step e w).
Proof. intros Hw. by apply reachable_settle, reachable_step. Qed.

Lemma calls_app tr1 tr2 : calls (tr1 ++ tr2) = calls tr1 ++ calls tr2.
Proof. apply omap_app. Qed.

(** The three phases of a quiescent world, by what the browser holds. *)
Inductive PhaseView w f : Phase → Prop :=
| ViewClosed :
    isOpen f = false → timers (surface w) = [] → listeners (surface w) = [] →
    PhaseView w f Closed
| ViewOpening :
    isOpen f = true → timers (surface w) ≠ [] → listeners (surface w) = [] →
    PhaseView w f Opening
| ViewOpen l :
    isOpen f = true → timers (surface w) = [] → listeners (surface w) = [l] →
    PhaseView w f Open.

Lemma phase_view w f :
  wf w → quiescent w → fiber w = Some f → PhaseView w f (phase_of w f).
Proof.
  intros Hw Hq Hf. unfold quiescent in Hq. unfold wf, Invariant.wf in Hw.
  rewrite Hf in Hq, Hw. destruct Hq as [_ Hdeps]. destruct Hw as (_ & _ & Heff).
  unfold wf_effect in Heff. rewrite Hdeps in Heff. unfold phase_of.
  destruct (isOpen f) eqn:Ho, (effect_cleanup f) as [c|]; try done.
  - destruct Heff as [[Ht Hl]|[Ht Hl]]; rewrite Hl.
    + rewrite decide_True by done. apply ViewOpening; [done| |done]. by rewrite Ht.
    + rewrite decide_False by done. by eapply ViewOpen.
  - destruct Heff as [Ht Hl]. by apply ViewClosed.
Qed.

(** What settling after the commands of a handler means for the machine. *)
Lemma abs_settle_cmds w f cmds out :
  wf w → quiescent w → fiber w = Some f →
  let w' := settle (say out (exec_all cmds w)) in
  let o := default (isOpen f) (last (sets_of cmds)) in
  quiescent w' ∧
  abs w' = Live (props f)
             (if decide (o = isOpen f) then phase_of w f
              else if o then Opening else Closed) ∧
  calls (trace w') = calls (trace w) ++ calls (calls_of cmds ++ out).
Proof.
  intros Hw Hq Hf.
  destruct (settle_cmds models root w f cmds out Hw Hq Hf)
    as (Hq' & Htr & (f' & Hf' & Ho & Hp) & Hsame & Hdiff).
  cbv zeta in *. split_and!; [done| |by rewrite Htr, <-app_assoc, calls_app].
  unfold abs. rewrite Hf', Hp. f_equal. unfold phase_of. rewrite Ho.
  set (o := default (isOpen f) (last (sets_of cmds))) in *.
  destruct (decide (o = isOpen f)) as [Heq|Hne].
  - by rewrite Hsame, Heq.
  - destruct (Hdiff Hne) as [-> _]. by rewrite decide_True.
Qed.

(** ** One step of the runtime is one step of the machine *)

(** The event [e] in the world [w], settled, is the step of the machine on
    the input [e] is. *)
Definition refines w e : Prop :=
  quiescent (sync_step e w) ∧
  abs (sync_step e w) = (spec_step (action_of w e) (abs w)).1 ∧
  calls (trace (sync_step e w)) = calls (trace w) ++ (spec_step (action_of w e) (abs w)).2.

(** An event that leaves a quiescent world as it is refines every input on
    which the machine does not move. *)
Lemma refines_stutter w e :
  wf w → quiescent w → step e w = w →
  spec_step (action_of w e) (abs w) = (abs w, []) → refines w e.
Proof.
  intros Hw Hq He Hspec. unfold refines, sync_step. rewrite He, Hspec.
  rewrite settle_quiescent by done. simpl. by rewrite app_nil_r.
Qed.

Lemma refines_unmounted w e : wf w → fiber w = None → refines w e.
Proof.
  intros Hw Hnone. apply refines_stutter; [done| |by apply step_unmounted|].
  - unfold quiescent. by rewrite Hnone.
  - unfold abs. by rewrite Hnone.
Qed.

Lemma abs_live w f : fiber w = Some f → abs w = Live (props f) (phase_of w f).
Proof. intros Hf. unfold abs. by rewrite Hf. Qed.

Lemma action_of_click w f target :
  fiber w = Some f →
  action_of w (Click target) =
    match reached root f target with
    | Some [ToggleClosure _] => Trigger
    | Some [SelectClosure _ modelId] => Choose modelId
    | _ => Idle
    end.
Proof. intros Hf. unfold action_of. by rewrite Hf. Qed.

(** An event that amounts to the commands [cmds] of a handler (and [out]
    said on the trace) refines an input on which the machine moves as the
    render and the effect do. *)
Lemma refines_cmds w f e cmds out :
  wf w → quiescent w → fiber w = Some f →
  step e w = say out (exec_all cmds w) →
  spec_step (action_of w e) (abs w) =
    (Live (props f)
       (if decide (default (isOpen f) (last (sets_of cmds)) = isOpen f)
        then phase_of w f
        else if default (isOpen f) (last (sets_of cmds)) then Opening else Closed),
     calls (calls_of cmds ++ out)) →
  refines w e.
Proof.
  intros Hw Hq Hf He Hspec. unfold refines, sync_step. rewrite He, Hspec.
  by apply abs_settle_cmds.
Qed.

Lemma refines_click w f target :
  wf w → quiescent w → fiber w = Some f → refines w (Click target).
Proof.
  intros Hw Hq Hf. pose proof (phase_view w f Hw Hq Hf) as Hview.
  pose proof (reached_cases models root w f target Hw Hf) as Hreach.
  destruct (reached root f target) as [hs|] eqn:Hr.
  2: { apply refines_stutter; [done..|by apply (click_miss root w f)|].
       by rewrite (action_of_click w f), Hr, (abs_live w f). }
  inversion Hreach as [|? Hhs|? ? Hhs|q ? Hhs|i q m Ho ? Hi Hhs]; subst hs.
  1,2: apply (refines_cmds w f _ [] [Propagated target]);
       [done..|by apply (click_plain root w f)|];
       rewrite (action_of_click w f), Hr, (abs_live w f) by done;
       simpl; by rewrite decide_True.
  - apply (refines_cmds w f _ (handleToggle (isOpen f)) []); [done..| |].
    + rewrite say_nil. by apply (click_toggle root w f).
    + rewrite (action_of_click w f), Hr, (abs_live w f) by done. simpl.
      rewrite decide_False by by destruct (isOpen f).
      destruct Hview as [Ho ??|Ho ??|? Ho ??]; by rewrite Ho.
  - apply (refines_cmds w f _ (handleSelect (onChange (props f)) (id m))
             [Propagated target]); [done..|by apply (click_select root w f)|].
    rewrite (action_of_click w f), Hr, (abs_live w f) by done. simpl.
    rewrite Ho, decide_False by done.
    destruct Hview as [Ho' ??|? ??|? ? ??]; [congruence|done..].
Qed.

Lemma refines_mousedown w f target :
  wf w → quiescent w → fiber w = Some f → refines w (MouseDown target).
Proof.
  intros Hw Hq Hf. pose proof (abs_live w f Hf) as Habs.
  destruct (phase_view w f Hw Hq Hf) as [Ho Ht Hl|Ho Ht Hl|l Ho Ht Hl].
  1,2: apply refines_stutter; [done|done|by apply mousedown_none|];
       rewrite Habs; unfold action_of; by destruct (_ || _).
  destruct (contains (root ++ button_path) target
            || contains (root ++ dropdown_path) target) eqn:Hin.
  - apply refines_stutter; [done..| |].
    + apply (mousedown_inside models root); [done|]. by apply orb_true_iff.
    + rewrite Habs. unfold action_of. by rewrite Hin.
  - apply orb_false_iff in Hin as [Hb Hd].
    apply (refines_cmds w f _ [SetIsOpen false] []); [done..| |].
    + rewrite say_nil. simpl. rewrite (mousedown_one w f target l) by done.
      pose proof Hw as Hw'. unfold wf, Invariant.wf in Hw'. rewrite Hf in Hw'.
      destruct Hw' as (_ & [-> ->] & _). rewrite Ho. unfold handleClickOutside.
      by rewrite Hb, Hd.
    + rewrite Habs. unfold action_of. rewrite Hb, Hd. simpl.
      by rewrite Ho, decide_False.
Qed.

Lemma refines_tick w f :
  wf w → quiescent w → fiber w = Some f → refines w Tick.
Proof.
  intros Hw Hq Hf. pose proof (abs_live w f Hf) as Habs.
  destruct (phase_view w f Hw Hq Hf) as [Ho Ht Hl|Ho Ht Hl|l Ho Ht Hl].
  1,3: apply refines_stutter; [done|done|by apply tick_none|by rewrite Habs].
  destruct (tick_pending models root w Hw Ht) as (Hf' & Htr & Ht' & l & Hl').
  assert (quiescent (tick w)) as Hq'.
  { unfold quiescent in *. by rewrite Hf'. }
  unfold refines, sync_step. simpl.
  rewrite settle_quiescent by (done || by apply wf_tick).
  split_and!; [done| |].
  - rewrite Habs. unfold abs. rewrite Hf', Hf. simpl. f_equal.
    unfold phase_of. rewrite Ho, Hl'. by rewrite decide_False.
  - rewrite Htr, Habs. simpl. by rewrite app_nil_r.
Qed.

Lemma refines_idle w e :
  wf w → quiescent w → e = Render ∨ e = Flush → refines w e.
Proof.
  intros Hw Hq He.
  apply refines_stutter; [done|done|destruct He as [-> | ->]; simpl|].
  - by apply rerender_quiescent.
  - by apply flush_quiescent.
  - destruct He as [-> | ->]; simpl; unfold abs; by destruct (fiber w).
Qed.

Lemma refines_set_props w f p' :
  wf w → quiescent w → fiber w = Some f → refines w (SetProps p').
Proof.
  intros Hw Hq Hf.
  destruct (rerender_with_quiescent models root w f p' Hw Hq Hf) as (m' & Hm' & Hre).
  pose proof (wf_rerender_with models root p' w Hw) as Hw'.
  assert (quiescent (rerender_with models root p' w)) as Hq'.
  { unfold quiescent in *. rewrite Hre. simpl. rewrite Hf in Hq. by destruct Hq. }
  unfold refines, sync_step. simpl. rewrite settle_quiescent by done.
  split_and!; [done| |].
  - rewrite (abs_live w f) by done. rewrite Hre. by unfold abs, phase_of.
  - rewrite Hre, (abs_live w f) by done. simpl. by rewrite app_nil_r.
Qed.

Lemma refines_unmount w f :
  wf w → quiescent w → fiber w = Some f → refines w Unmount.
Proof.
  intros Hw Hq Hf. pose proof (wf_unmount models root w Hw) as Hw'.
  assert (unmount w = mkWorld None (run_cleanup f (surface w)) (next_closure w) (trace w))
    as Hun.
  { unfold unmount. by rewrite flush_quiescent, Hf. }
  assert (quiescent (unmount w)) as Hq' by by rewrite Hun.
  unfold refines, sync_step. simpl. rewrite settle_quiescent by done.
  rewrite (abs_live w f), Hun by done. simpl. by rewrite app_nil_r.
Qed.

Lemma refines_step w e : wf w → quiescent w → refines w e.
Proof.
  intros Hw Hq.
  destruct (fiber w) as [f|] eqn:Hf; [|by apply refines_unmounted].
  destruct e.
  - by apply (refines_click w f).
  - by apply (refines_mousedown w f).
  - by apply (refines_tick w f).
  - apply refines_idle; auto.
  - apply refines_idle; auto.
  - by apply (refines_set_props w f).
  - by apply (refines_unmount w f).
Qed.

(** C1: the component refines the two-state machine of the specification:
    from any reachable quiescent world, an event followed by the render
    and the effect flush is the step the machine takes on the input the
    event is; the calls of the change callback are exactly the machine's;
    and the world reached is again reachable and quiescent, so the next
    event refines in turn. *)
Theorem refinement p w e :
  reachable p w → quiescent w →
  reachable p (sync_step e w) ∧ quiescent (sync_step e w) ∧
  abs (sync_step e w) = (spec_step (action_of w e) (abs w)).1 ∧
  calls (trace (sync_step e w)) = calls (trace w) ++ (spec_step (action_of w e) (abs w)).2.
Proof.
  intros Hreach Hq. split; [by apply reachable_sync_step|].
  by apply refines_step; [apply (wf_reachable models root p)|].
Qed.

(** ** Runs *)

(** The world React leaves after the initial render and its effects. *)
Definition init p : World B := settle (mount models root p blank).

Lemma reachable_init p : reachable p (init p).
Proof. apply reachable_settle, reachable_mount. Qed.

(** After the initial render the effect runs once, closed, and does
    nothing. *)
Lemma init_eq p m :
  currentModel models (value p) = Some m →
  init p =
    mkWorld (Some (committed root p false (view models p false (label m))
                             (Some false) None))
            blank 1 [].
Proof.
  intros Hm. unfold init, Runtime.settle, rerender, mount.
  rewrite (render_view models p false m Hm). cbn [fiber props committed].
  unfold rerender_with.
  set (f0 := committed root p false (view models p false (label m)) None None).
  change (flush_effects (mkWorld (Some f0) blank 0 []))
    with (mkWorld (Some (ran_effect None f0)) blank 1 []).
  cbn [fiber]. change (next_isOpen (ran_effect None f0)) with false.
  by rewrite (render_view models p false m Hm).
Qed.

Lemma init_mounted p m :
  currentModel models (value p) = Some m →
  quiescent (init p) ∧ abs (init p) = Live p Closed ∧ trace (init p) = [].
Proof. intros Hm. by rewrite (init_eq p m Hm). Qed.

Lemma sync_run_cons e es w : sync_run (e :: es) w = sync_run es (sync_step e w).
Proof. done. Qed.

Lemma refines_run p es w :
  reachable p w → quiescent w →
  reachable p (sync_run es w) ∧ quiescent (sync_run es w) ∧
  abs (sync_run es w) = (spec_run (actions_of es w) (abs w)).1 ∧
  calls (trace (sync_run es w)) = calls (trace w) ++ (spec_run (actions_of es w) (abs w)).2.
Proof.
  revert w. induction es as [|e es IH]; intros w Hreach Hq.
  { simpl. by rewrite app_nil_r. }
  destruct (refines_step w e (wf_reachable models root p w Hreach) Hq) as (Hq1 & Habs1 & Hcalls1).
  destruct (IH (sync_step e w) (reachable_sync_step p w e Hreach) Hq1)
    as (Hreach2 & Hq2 & Habs2 & Hcalls2).
  rewrite sync_run_cons. simpl.
  destruct (spec_step (action_of w e) (abs w)) as [st1 out1]. simpl in *.
  rewrite <-Habs1. destruct (spec_run _ (abs (sync_step e w))) as [st2 out2]. simpl in *.
  split_and!; [done..|]. by rewrite Hcalls2, Hcalls1, app_assoc.
Qed.

(** C9: when the registry is not empty, so that the selected value has a
    current model and the first render mounts, every synchronous run of
    the component from its initial render is a run of the specification's
    machine from Closed: the machine ends in the state the final world
    shows, and the calls of the change callback on the trace are exactly
    the calls the machine makes, in order. *)
Theorem refinement_run p m es :
  currentModel models (value p) = Some m →
  abs (sync_run es (init p)) = (spec_run (actions_of es (init p)) (Live p Closed)).1 ∧
  calls (trace (sync_run es (init p))) =
    (spec_run (actions_of es (init p)) (Live p Closed)).2.
Proof.
  intros Hm. destruct (init_mounted p m Hm) as (Hq & Habs & Htr).
  destruct (refines_run p es (init p) (reachable_init p) Hq) as (_ & _ & Hst & Hcalls).
  rewrite Habs in *. by rewrite Htr in Hcalls.
Qed.

(** A closed component at rest holds nothing in the browser. *)
Lemma closed_nothing w p :
  wf w → quiescent w → abs w = Live p Closed →
  timers (surface w) = [] ∧ listeners (surface w) = [].
Proof.
  intros Hw Hq. unfold abs. destruct (fiber w) as [f|] eqn:Hf; [|done].
  intros [= _ Hph]. pose proof (phase_view w f Hw Hq Hf) as Hv.
  rewrite Hph in Hv. by inversion Hv.
Qed.

(** A press outside the button and the dropdown, settled, leaves a
    component at rest whose timer is not pending closed. *)
Lemma press_outside_closed w f target :
  wf w → quiescent w → fiber w = Some f → timers (surface w) = [] →
  contains (root ++ button_path) target = false →
  contains (root ++ dropdown_path) target = false →
  let w' := sync_step (MouseDown target) w in
  quiescent w' ∧ abs w' = Live (props f) Closed ∧ calls (trace w') = calls (trace w).
Proof.
  intros Hw Hq Hf Ht Hb Hd. cbv zeta.
  destruct (refines_step w (MouseDown target) Hw Hq) as (Hq' & Ha & Hc).
  rewrite Ha, Hc, (abs_live w f Hf). simpl. rewrite Hb, Hd. simpl.
  destruct (phase_view w f Hw Hq Hf) as [Ho _ _|Ho Hne _|l Ho _ _];
    [|done|]; by rewrite app_nil_r.
Qed.

(** ** The dropdown can always be closed *)

(** C27: a mounted component can always be brought to rest: from any
    reachable world, once the renders and effects that are due have run,
    letting the pending timer fire and pressing a node outside the button
    and the dropdown leaves the component mounted with its props, closed,
    and without a call of [onChange]. *)
Theorem can_always_close p w f target :
  reachable p w → fiber w = Some f →
  contains (root ++ button_path) target = false →
  contains (root ++ dropdown_path) target = false →
  let w' := sync_run [Tick; MouseDown target] (settle w) in
  reachable p w' ∧ quiescent w' ∧
  abs w' = Live (props f) Closed ∧ calls (trace w') = calls (trace w).
Proof.
  intros Hr Hf Hb Hd. cbv zeta. pose proof (wf_reachable _ _ _ _ Hr) as Hw.
  destruct (settle_mounted models root w f Hw Hf) as (f0 & Hf0 & Hp0).
  pose proof (reachable_settle _ _ Hr) as Hr0.
  pose proof (quiescent_settle models root w) as Hq0.
  rewrite <-(settle_trace models root w Hw). revert Hr0 Hq0 Hf0.
  generalize (Runtime.settle models root w). intros w0 Hr0 Hq0 Hf0.
  destruct (refines_step w0 Tick (wf_reachable _ _ _ _ Hr0) Hq0) as (Hq1 & Ha1 & Hc1).
  pose proof (reachable_sync_step _ _ Tick Hr0) as Hr1.
  destruct (refines_step _ (MouseDown target) (wf_reachable _ _ _ _ Hr1) Hq1)
    as (Hq2 & Ha2 & Hc2).
  change (sync_run [Tick; MouseDown target] w0)
    with (sync_step (MouseDown target) (sync_step Tick w0)).
  split_and!; [by apply reachable_sync_step|done|..].
  - rewrite Ha2, Ha1, (abs_live w0 f0 Hf0), Hp0. simpl. rewrite Hb, Hd. simpl.
    by destruct (phase_of w0 f0).
  - rewrite Hc2, Hc1, Ha1, (abs_live w0 f0 Hf0). simpl. rewrite Hb, Hd. simpl.
    destruct (phase_of w0 f0); simpl; by rewrite ?app_nil_r.
Qed.

End simulation.

End Spec.
