(* ===== verification/Strict.v ===== *)
(** * Effects that run again

    React may run the cleanup of an effect and the effect once more
    although no dependency changed: in development under StrictMode right
    after the first mount, when the module is replaced while the page is
    open, and when a hidden subtree is shown again.  The state and the
    refs of the component are kept.

    For the effect of ModelSelect.tsx (lines 40-63) this is harmless: the
    cleanup releases what the last run left on the page, whichever of the
    timer and the listener that is, and the new run sets a new timer; a
    closed dropdown holds nothing before and after.  What the user sees
    does not change, nothing is told to the owner, and the detector of an
    open dropdown is live again after the next turn of the event loop. *)

From S2P Require Import Prelude Jsx Models Browser ModelSelect Runtime Invariant Behaviour.
From S2P Require Import Spec.
Import Jsx Registry Browser ModelSelect Runtime Invariant Behaviour Spec.
From S2P Require Import ModelSelectFacts.
Import ModelSelectFacts.

Module Strict.

Section strict.
Context (models : list Model) (root : Node) `{Surface B}.
Implicit Types (w : World B) (f : Fiber) (p : ModelSelectProps) (s : B).

#[local] Abbreviation wf := (Invariant.wf models root).

(** ** What the run leaves *)

Lemma rerun_effect_fiber w f :
  fiber w = Some f →
  (∃ c, fiber (rerun_effect w) = Some (ran_effect c f)) ∧
  trace (rerun_effect w) = trace w.
Proof.
  intros Hf. unfold rerun_effect. rewrite Hf.
  destruct (effect _ _ _) as [c s]. eauto.
Qed.

(** A closed dropdown holds nothing after the run, an open one its new
    timer. *)
Lemma rerun_effect_surface w f :
  wf w → fiber w = Some f →
  listeners (surface (rerun_effect w)) = [] ∧
  (timers (surface (rerun_effect w)) = [] ↔ isOpen f = false).
Proof.
  unfold Invariant.wf, rerun_effect. intros Hw Hf. rewrite Hf in *.
  destruct Hw as (_ & _ & Heff).
  pose proof (run_cleanup_clean f (surface w) Heff) as [Ht Hl].
  destruct (isOpen f) eqn:Ho.
  - rewrite effect_open. simpl. autorewrite with ui. rewrite Ht, Hl. by split.
  - simpl. by rewrite Ht, Hl.
Qed.

(** ** What the component is after it *)

Lemma quiescent_rerun_effect w : quiescent w → quiescent (rerun_effect w).
Proof.
  unfold quiescent, rerun_effect. destruct (fiber w) as [f|] eqn:Hf; [|by rewrite Hf].
  destruct (effect _ _ _) as [c s]. simpl. by intros [? _].
Qed.

Lemma abs_rerun_effect w f :
  wf w → fiber w = Some f →
  abs (rerun_effect w) = Live (props f) (if isOpen f then Opening else Closed).
Proof.
  intros Hw Hf. destruct (rerun_effect_fiber w f Hf) as [[c Hf'] _].
  destruct (rerun_effect_surface w f Hw Hf) as [Hl _].
  unfold abs, phase_of. rewrite Hf', Hl. simpl. by destruct (isOpen f).
Qed.

(** C24: the effect can be run again at any time: when React runs the
    cleanup and the effect of a component at rest once more (StrictMode,
    a replaced module, a subtree shown again), the invariant holds, the
    component stays at rest with its props, open or closed as it was, and
    nothing is told to the owner; an open dropdown is back in the turn
    after its opening (its new timer pending, no listener registered), and
    after the next turn of the event loop its detector is live again. *)
Theorem reconnect_rearms w f :
  wf w → quiescent w → fiber w = Some f →
  let w' := reconnect w in
  wf w' ∧ quiescent w' ∧ trace w' = trace w ∧
  abs w' = Live (props f) (if isOpen f then Opening else Closed) ∧
  abs (sync_step models root Tick w') = Live (props f) (if isOpen f then Open else Closed) ∧
  calls (trace (sync_step models root Tick w')) = calls (trace w).
Proof.
  intros Hw Hq Hf. cbv zeta. unfold reconnect. rewrite (flush_quiescent w) by done.
  pose proof (wf_rerun_effect models root w Hw) as Hw'.
  pose proof (quiescent_rerun_effect w Hq) as Hq'.
  pose proof (abs_rerun_effect w f Hw Hf) as Ha.
  destruct (rerun_effect_fiber w f Hf) as [_ Htr].
  destruct (refines_step models root _ Tick Hw' Hq') as (_ & Ha2 & Hc2).
  split_and!; [done..| |].
  - rewrite Ha2, Ha. simpl. by destruct (isOpen f).
  - rewrite Hc2, Ha, Htr. simpl. destruct (isOpen f); simpl; by rewrite app_nil_r.
Qed.

(** Under StrictMode the first mount runs the effect twice; the dropdown
    is closed then, so both runs return at once: the component and the
    page are what they are after one run. *)
Lemma strict_mount_same p s :
  let w0 := flush_effects (mount models root p s) in
  let w1 := reconnect (mount models root p s) in
  fiber w1 = fiber w0 ∧ surface w1 = surface w0 ∧ trace w1 = trace w0.
Proof.
  cbv zeta. unfold reconnect, mount.
  destruct (render models p false) as [t|err]; [|done].
  unfold flush_effects, rerun_effect. simpl. done.
Qed.

End strict.

End Strict.
