(* ===== verification/Bounds.v ===== *)
(** * Bounds and termination

    What a run can add: every click adds at most two entries to the trace
    (the call of [onChange] and the click leaving the component) and at
    most one call of [onChange]; nothing else adds any; only a render, an
    effect flush, new props and the unmount create a closure, one each at
    most.  And the widget comes to rest when it is left alone: the work
    that is pending (a queued update, an effect that is due, a pending
    timer) is bounded, and every render, effect flush and turn of the
    event loop that changes anything lowers it, because the effect of
    ModelSelect.tsx sets one timer and its timer callback sets none. *)

From S2P Require Import Prelude Jsx Models Browser ModelSelect Runtime Invariant Behaviour Spec.
Import Jsx Registry Browser ModelSelect Runtime Invariant Behaviour Spec.
From S2P Require Import ModelSelectFacts.
Import ModelSelectFacts.

Module Bounds.

(** The events that can run the effect, and so create a closure. *)
Definition may_flush (e : Event) : bool :=
  match e with
  | Render | Flush | SetProps _ | Unmount => true
  | Click _ | MouseDown _ | Tick => false
  end.

Definition clicks (es : list Event) : nat := length (filter (λ e, is_click e) es).

Definition flushes (es : list Event) : nat := length (filter (λ e, may_flush e) es).

(** The events that need no input: React's render and effect flush and
    the turns of the event loop. *)
Definition internal (e : Event) : bool :=
  match e with
  | Render | Flush | Tick => true
  | Click _ | MouseDown _ | SetProps _ | Unmount => false
  end.

(** What React and the event loop do after an event when nothing else
    happens: the render, the effect flush, one turn. *)
Definition to_rest : list Event := [Render; Flush; Tick].

Section bounds.
Context (models : list Model) (root : Node) `{Surface B}.
Implicit Types (w : World B) (f : Fiber) (p : ModelSelectProps).
Implicit Types (target : Node) (e : Event) (es : list Event).

#[local] Abbreviation wf := (Invariant.wf models root).
#[local] Abbreviation reachable := (Runtime.reachable models root).
#[local] Abbreviation settle := (Runtime.settle models root).
#[local] Abbreviation step := (Runtime.step models root).
#[local] Abbreviation run := (Runtime.run models root).

(** What an event may add to the trace, and how many calls of it. *)
Definition budget (e : Event) : nat * nat := if is_click e then (2, 1) else (0, 0).

Lemma clicks_cons e es : clicks (e :: es) = (budget e).2 + clicks es.
Proof. unfold clicks, budget. rewrite filter_cons. by destruct (is_click e). Qed.

Lemma flushes_cons e es : flushes (e :: es) = (if may_flush e then 1 else 0) + flushes es.
Proof. unfold flushes. rewrite filter_cons. by destruct (may_flush e). Qed.

(** ** One event *)

#[local] Ltac by_lia := split_and!; simpl; first [done | lia].

Lemma click_adds w target :
  wf w → ∃ out, trace (Runtime.click root target w) = trace w ++ out ∧
                length out ≤ 2 ∧ length (calls out) ≤ 1.
Proof.
  intros Hw. destruct (fiber w) as [f|] eqn:Hf.
  - pose proof (reached_cases models root w f target Hw Hf) as Hr.
    remember (reached root f target) as r eqn:Hreach. symmetry in Hreach.
    destruct Hr as [|?|??|q ?|i q m ???].
    + exists []. rewrite (click_miss root w f), app_nil_r by done. by_lia.
    + exists [Propagated target]. rewrite (click_plain root w f) by done. by_lia.
    + exists [Propagated target]. rewrite (click_plain root w f) by done. by_lia.
    + exists []. rewrite (click_toggle root w f target (isOpen f)), exec_all_eq by done.
      by_lia.
    + exists [Changed (onChange (props f)) (id m); Propagated target].
      rewrite (click_select root w f target (onChange (props f)) (id m)) by done.
      rewrite exec_all_eq. simpl. rewrite <-app_assoc. by_lia.
  - exists []. unfold Runtime.click. rewrite Hf, app_nil_r. by_lia.
Qed.

Lemma step_adds w e :
  wf w → ∃ out, trace (step e w) = trace w ++ out ∧
                length out ≤ (budget e).1 ∧ length (calls out) ≤ (budget e).2.
Proof.
  intros Hw. destruct (is_click e) eqn:He.
  - destruct e; try done. unfold budget. simpl. by apply click_adds.
  - exists []. rewrite (quiet_step models root w e), app_nil_r by done.
    unfold budget. rewrite He. by_lia.
Qed.

Lemma flush_effects_closure w :
  next_closure w ≤ next_closure (flush_effects w) ≤ S (next_closure w).
Proof.
  unfold flush_effects. destruct (fiber w) as [f|]; [|lia].
  destruct (effect_due f); [|lia]. destruct (effect _ _ _). simpl. lia.
Qed.

Lemma rerender_with_closure w p' :
  next_closure w ≤ next_closure (rerender_with models root p' w) ≤ S (next_closure w).
Proof.
  pose proof (flush_effects_closure w). unfold rerender_with. cbv zeta.
  destruct (fiber (flush_effects w)) as [f|]; [|done].
  by destruct (render models p' (next_isOpen f)).
Qed.

Lemma step_closure w e :
  next_closure w ≤ next_closure (step e w) ≤
  next_closure w + (if may_flush e then 1 else 0).
Proof.
  destruct e; simpl.
  - unfold Runtime.click. destruct (fiber w) as [f|]; [|lia].
    destruct (reached root f target) as [hs|]; [|lia].
    assert (∀ w0, next_closure (dispatch hs w0).2 = next_closure w0) as Hd.
    { induction hs as [|h hs IH]; intros w0; simpl; [done|].
      destruct (stops (call h)); simpl; [|rewrite IH]; by rewrite exec_all_eq. }
    specialize (Hd w). destruct (dispatch hs w) as [[] w']; simpl in *; lia.
  - assert (∀ ls w0, next_closure (foldl (listen target) w0 ls) = next_closure w0) as Hl.
    { induction ls as [|l ls IH]; intros w0; simpl; [done|].
      rewrite IH. unfold listen. by rewrite exec_all_eq. }
    unfold mousedown. rewrite Hl. lia.
  - unfold tick. destruct (takeTimer (surface w)) as [[??]|]; simpl; lia.
  - unfold rerender. destruct (fiber w); [|lia].
    pose proof (rerender_with_closure w (props f)). lia.
  - pose proof (flush_effects_closure w). lia.
  - pose proof (rerender_with_closure w p). lia.
  - pose proof (flush_effects_closure w). unfold unmount. cbv zeta.
    destruct (fiber (flush_effects w)); simpl; lia.
Qed.

(** ** Runs *)

Lemma run_adds es w :
  wf w →
  length (trace (run es w)) ≤ length (trace w) + 2 * clicks es ∧
  length (calls (trace (run es w))) ≤ length (calls (trace w)) + clicks es ∧
  next_closure w ≤ next_closure (run es w) ≤ next_closure w + flushes es.
Proof.
  revert w. induction es as [|e es IH]; intros w Hw; [simpl; lia|].
  change (run (e :: es) w) with (run es (step e w)).
  destruct (IH (step e w) (wf_step models root e w Hw)) as (Ht & Hc & Hn).
  destruct (step_adds w e Hw) as (out & Hout & Hlen & Hcalls).
  pose proof (step_closure w e) as Hs.
  rewrite Hout, calls_app, !length_app in *. rewrite clicks_cons, flushes_cons.
  unfold budget in *. destruct (is_click e), (may_flush e); simpl in *; lia.
Qed.

(** C29: a run adds at most two entries to the trace per click and calls
    [onChange] at most once per click, whatever else happens in between;
    and it creates at most one closure for each render, effect flush, new
    props or unmount. *)
Theorem run_bounds p es w :
  reachable p w →
  length (trace (run es w)) ≤ length (trace w) + 2 * clicks es ∧
  length (calls (trace (run es w))) ≤ length (calls (trace w)) + clicks es ∧
  next_closure w ≤ next_closure (run es w) ≤ next_closure w + flushes es.
Proof. intros Hw%wf_reachable. by apply run_adds. Qed.

(** ** Coming to rest *)

(** The render and the flush after an event reach a world in which no
    update is queued and no effect is due. *)
Lemma settle_fixpoint w :
  wf w →
  quiescent (settle w) ∧ settle (settle w) = settle w ∧
  step Render (settle w) = settle w ∧ step Flush (settle w) = settle w.
Proof.
  intros Hw. pose proof (quiescent_settle models root w) as Hq.
  assert (wf (settle w)) as Hw'.
  { by apply (wf_step models root Flush), (wf_step models root Render). }
  split_and!; [done|by apply settle_quiescent|..]; simpl.
  - by apply rerender_quiescent.
  - by apply flush_quiescent.
Qed.

(** The work a world has pending: 4 for queued updates (a render is
    needed, which may make the effect due and so set a timer), 2 for an
    effect that is due (its run may set a timer), 1 for each pending
    timer. *)
Definition fiber_work f : nat :=
  (if decide (updates f = []) then 0 else 4) + (if effect_due f then 2 else 0).

Definition pending_work w : nat :=
  from_option fiber_work 0 (fiber w) + length (timers (surface w)).

Lemma fiber_work_bound f : fiber_work f ≤ 6.
Proof. unfold fiber_work. case_decide; destruct (effect_due f); lia. Qed.

Lemma fiber_work_quiescent w f :
  fiber w = Some f → fiber_work f = 0 ↔ quiescent w.
Proof.
  intros Hf. unfold fiber_work, quiescent, effect_due. rewrite Hf.
  case_decide as Hu; case_bool_decide as Hd; split; try lia; try by intros [??].
  by intros _.
Qed.

Lemma pending_work_0 w :
  pending_work w = 0 ↔ quiescent w ∧ timers (surface w) = [].
Proof.
  unfold pending_work. rewrite <-length_zero_iff_nil.
  destruct (fiber w) as [f|] eqn:Hf; simpl.
  - rewrite <-(fiber_work_quiescent w f Hf). lia.
  - unfold quiescent. rewrite Hf. intuition lia.
Qed.

Lemma pending_work_bound w : wf w → pending_work w ≤ 7.
Proof.
  intros Hs%(wf_surface models root). unfold pending_work.
  destruct (fiber w) as [f|]; simpl; [pose proof (fiber_work_bound f)|]; lia.
Qed.

(** A turn of the event loop runs the pending timer, whose callback sets
    none. *)
Lemma tick_work w : wf w → tick w = w ∨ pending_work (tick w) < pending_work w.
Proof.
  intros Hw. destruct (timers (surface w)) as [|e l] eqn:Ht; [left; by apply tick_none|].
  right. destruct (tick_pending models root w Hw) as (Hf & _ & Ht' & _); [by rewrite Ht|].
  unfold pending_work. rewrite Hf, Ht', Ht. simpl. lia.
Qed.

(** A flush runs the effect when it is due: the effect is then no longer
    due, no update is queued by it, and at most one timer is pending. *)
Lemma flush_work w :
  wf w → flush_effects w = w ∨ pending_work (flush_effects w) < pending_work w.
Proof.
  intros Hw. destruct (fiber w) as [f|] eqn:Hf; [|left; unfold flush_effects; by rewrite Hf].
  destruct (effect_due f) eqn:Hdue; [right|left; by apply (flush_effects_not_due_id w f)].
  pose proof (wf_surface models root _ (wf_flush_effects models root w Hw)) as Hs.
  destruct (flush_effects_fiber w f Hf) as (c & Hf' & _).
  pose proof (flush_effects_not_due w _ Hf') as Hdue'.
  unfold pending_work. rewrite Hf, Hf'. simpl. unfold fiber_work.
  rewrite Hdue, Hdue'. simpl. case_decide; lia.
Qed.

(** A render consumes the queued updates; when none is queued it leaves
    the state as it is, so the effect is not due after it. *)
Lemma rerender_fiber w f :
  wf w → fiber w = Some f →
  ∃ f', fiber (rerender models root w) = Some f' ∧ updates f' = [] ∧
        (updates f = [] → effect_due f' = false).
Proof.
  intros Hw Hf. unfold rerender, rerender_with. rewrite Hf. cbv zeta.
  destruct (flush_effects_fiber w f Hf) as (c & Hf1 & _). rewrite Hf1.
  destruct (wf_render_Ok models root _ _ (props f) (next_isOpen (ran_effect c f))
              (wf_flush_effects models root w Hw) Hf1) as [t ->].
  eexists. split_and!; [done..|]. intros Hu. unfold effect_due, next_isOpen. simpl.
  rewrite Hu. simpl. apply bool_decide_eq_false. by intros [].
Qed.

Lemma rerender_work w :
  wf w → rerender models root w = w ∨ pending_work (rerender models root w) < pending_work w.
Proof.
  intros Hw. destruct (fiber w) as [f|] eqn:Hf; [|left; unfold rerender; by rewrite Hf].
  destruct (decide (fiber_work f = 0)) as [Hq|Hq].
  { left. by apply rerender_quiescent, (fiber_work_quiescent w f). }
  right. destruct (rerender_fiber w f Hw Hf) as (f' & Hf' & Hu' & Hdue').
  pose proof (wf_surface models root _ (wf_rerender models root w Hw)) as Hs.
  unfold pending_work. rewrite Hf, Hf'. simpl. unfold fiber_work in *. rewrite Hu'.
  rewrite decide_True by done. destruct (decide (updates f = [])) as [Hu|Hu].
  - rewrite Hdue' by done. destruct (effect_due f); [lia|done].
  - destruct (effect_due f'); lia.
Qed.

(** The events that need no input: React's render and effect flush and
    the turns of the event loop. *)
Lemma internal_work w e :
  wf w → internal e = true → step e w = w ∨ pending_work (step e w) < pending_work w.
Proof.
  intros Hw He. destruct e; try done; simpl.
  - by apply tick_work.
  - by apply rerender_work.
  - by apply flush_work.
Qed.

(** A run of such events changes nothing or lowers the pending work. *)
Lemma internal_run_work es w :
  wf w → Forall (λ e, internal e = true) es →
  run es w = w ∨ pending_work (run es w) < pending_work w.
Proof.
  revert w. induction es as [|e es IH]; intros w Hw Hes; [by left|].
  apply Forall_cons in Hes as [He Hes].
  change (run (e :: es) w) with (run es (step e w)).
  destruct (IH (step e w) (wf_step models root e w Hw) Hes) as [->|Hlt];
    destruct (internal_work w e Hw He) as [Heq|Hlt']; rewrite ?Heq in *; auto. lia.
Qed.

(** React's schedule after an event, then one turn of the event loop,
    leaves no work. *)
Lemma to_rest_work w : wf w → pending_work (run to_rest w) = 0.
Proof.
  intros Hw. change (run to_rest w) with (tick (settle w)).
  destruct (settle_fixpoint w Hw) as (Hq & _).
  assert (wf (settle w)) as Hw' by by apply (wf_run models root [Render; Flush]).
  apply pending_work_0. destruct (timers (surface (settle w))) as [|e l] eqn:Ht.
  - by rewrite tick_none.
  - destruct (tick_pending models root _ Hw') as (Hf & _ & Ht' & _); [by rewrite Ht|].
    split; [|done]. unfold quiescent in *. by rewrite Hf.
Qed.

(** C28: left alone, the widget comes to rest.  The pending work of a
    reachable world (4 for queued updates, 2 for an effect that is due, 1
    for a pending timer) is at most 7; a run of renders, effect flushes
    and turns of the event loop, in any order and of any length, either
    leaves the world as it is or lowers the pending work, so at most
    seven of them change anything; and the schedule React and the event
    loop follow after an event (render, flush, one turn) leaves no work at
    all.  The effect queues no update and sets one timer, and the timer's
    callback sets none. *)
Theorem comes_to_rest p w es :
  reachable p w → Forall (λ e, internal e = true) es →
  pending_work w ≤ 7 ∧
  (run es w = w ∨ pending_work (run es w) < pending_work w) ∧
  pending_work (run to_rest w) = 0.
Proof.
  intros Hw%wf_reachable Hes. split_and!.
  - by apply pending_work_bound.
  - by apply internal_run_work.
  - by apply to_rest_work.
Qed.

End bounds.

End Bounds.
