(* ===== verification/Instances.v ===== *)
(** * Several instances of the component on one page

    A [Document] holds the instances React has mounted, each with its own
    state, refs, closures and trace, and the one page they share
    ([Multi.MultiPage]).  React mounts an instance ([MountAt]), renders
    it, flushes its effects, hands it new props and unmounts it ([At]);
    the browser dispatches a click to the instances ([ClickOn]), calls
    every registered [mousedown] listener in registration order, whoever
    registered it ([PressOn]), and runs the timer at the head of the queue
    ([Turn]); other code on the page sets and clears timers and adds and
    removes listeners of its own at any time ([Elsewhere]).

    [proj i] is the document as instance [i] sees it: its own world on a
    [Shared.SharedPage] where the closures of the other instances are other
    code's, like those of other code.  Every step of the document is, for
    instance [i], a run on that shared page in which the other instances
    do what other code may do ([proj_step]): what an instance promises the
    page in [Frame] is what the others rely on.  So the invariant holds
    for every instance, and each instance behaves as it does alone on a
    page.  [Together] has what follows for the instances together. *)

From stdpp Require Import countable gmap.
From S2P Require Import Prelude Jsx Models Browser Shared ModelSelect Runtime.
From S2P Require Import Invariant Independence Morphism Multi Frame Behaviour Bounds.
Import Jsx Registry Browser Shared ModelSelect Runtime Invariant Independence.
From S2P Require Import ModelSelectFacts.
Import ModelSelectFacts.
Import Morphism Multi Frame Behaviour Bounds.

Module Instances.

(** One instance: what [Runtime.World] holds but the page. *)
Record Widget : Type := mkWidget {
  its_fiber : option Fiber;
  its_next_closure : nat;
  its_trace : list Output;
}.

Record Document : Type := mkDocument {
  (** The instances, by the number React gave them when they were
      mounted. *)
  instances : gmap nat Widget;
  page : MultiPage;
}.

Definition empty_document : Document := mkDocument ∅ empty_multi.

(** The events of a document.  React addresses one instance with a render,
    an effect flush, new props or the unmount ([At j e], for the events [e]
    of [Bounds.may_flush]); clicks, presses and timers come from the
    browser and are addressed to no instance; other code calls the page. *)
Inductive DocEvent : Type :=
| MountAt (j : nat) (p : ModelSelectProps)
| At (j : nat) (e : Event)
| ClickOn (target : Node)
| PressOn (target : Node)
| Turn
| Elsewhere (op : ForeignOp).

Abbreviation MultiWorld := (World MultiPage).

(** The world of instance [j]: its state on the page all share. *)
Definition world_with (s : MultiPage) (x : Widget) : MultiWorld :=
  mkWorld (its_fiber x) s (its_next_closure x) (its_trace x).

Definition never_mounted : Widget := mkWidget None 0 [].

Definition world_of (j : nat) (d : Document) : MultiWorld :=
  world_with (page d) (default never_mounted (instances d !! j)).

Definition widget_of (w : MultiWorld) : Widget :=
  mkWidget (fiber w) (next_closure w) (trace w).

Definition put (j : nat) (w : MultiWorld) (d : Document) : Document :=
  mkDocument (<[j := widget_of w]> (instances d)) (surface w).

(** Instance [j] does [f], if it was ever mounted. *)
Definition act (j : nat) (f : MultiWorld → MultiWorld) (d : Document) : Document :=
  match instances d !! j with
  | Some _ => put j (f (world_of j d)) d
  | None => d
  end.

Section instances.
Context (models : list Model) (root : nat → Node).
Implicit Types (d : Document) (w : MultiWorld) (x : Widget) (s : MultiPage).
Implicit Types (i j : nat) (p : ModelSelectProps) (target : Node) (c : Owned).

(** An event of the life cycle of instance [j], on the page as [j] calls
    it. *)
Definition step_at (j : nat) (e : Event) : MultiWorld → MultiWorld :=
  Runtime.step (H := multi_surface j) models (root j) e.

(** React mounts a new instance under the number [j]. *)
Definition mount_at (j : nat) p d : Document :=
  match instances d !! j with
  | Some _ => d
  | None => put j (mount models (root j) p (page d)) d
  end.

(** A click on [target]: every instance handles it; it reaches the
    closures of those whose tree contains the target. *)
Definition click_on target d : Document :=
  mkDocument
    (map_imap (λ j x, Some (widget_of (click (root j) target (world_with (page d) x))))
              (instances d))
    (page d).

(** The call of one registered listener: [handleClickOutside] of the
    instance that registered it; a listener of other code is none of the
    instances' business. *)
Definition hear target d c : Document :=
  match c.1 with
  | Some j => act j (λ w, listen target w c.2) d
  | None => d
  end.

(** A [mousedown] on [target]: every listener registered when the event is
    dispatched is called, in registration order. *)
Definition press_on target d : Document := foldl (hear target) d (hearing (page d)).

(** The event loop runs the timer at the head of the queue: the callback
    of an instance registers the listener it closes over (lines 55-57);
    what a callback of other code does to the page is a step of other
    code. *)
Definition turn_page d : Document :=
  match waiting (page d) with
  | [] => d
  | (t, c) :: q =>
      let s := mkMulti q (hearing (page d)) (next_timer (page d)) in
      mkDocument (instances d) (if c.1 is Some _ then add_hearing c s else s)
  end.

Definition doc_step (ev : DocEvent) d : Document :=
  match ev with
  | MountAt j p => mount_at j p d
  | At j e => if may_flush e then act j (step_at j e) d else d
  | ClickOn target => click_on target d
  | PressOn target => press_on target d
  | Turn => turn_page d
  | Elsewhere op => mkDocument (instances d) (elsewhere_op op (page d))
  end.

Definition doc_run (evs : list DocEvent) d : Document :=
  foldl (λ d ev, doc_step ev d) d evs.

(** The documents React and the browser can make of an empty page. *)
Inductive doc_reachable : Document → Prop :=
| doc_empty : doc_reachable empty_document
| doc_next ev d : doc_reachable d → doc_reachable (doc_step ev d).

(** ** The document as one instance sees it *)

Definition proj (i : nat) d : SharedWorld := on_surface (view_of i) (world_of i d).

(** The events of instance [i] that a step of the document amounts to. *)
Definition events_of (i : nat) (ev : DocEvent) d : list Event :=
  match ev with
  | MountAt _ _ => []
  | At j e => if decide (j = i) then (if may_flush e then [e] else []) else []
  | ClickOn target => [Click target]
  | PressOn target => [MouseDown target]
  | Turn =>
      match waiting (page d) with
      | (_, c) :: _ => if decide (c.1 = Some i) then [Tick] else []
      | [] => []
      end
  | Elsewhere _ => []
  end.

Fixpoint events_of_run (i : nat) (evs : list DocEvent) d : list Event :=
  match evs with
  | [] => []
  | ev :: evs' => events_of i ev d ++ events_of_run i evs' (doc_step ev d)
  end.

(** Every instance is well formed on the page as it sees it. *)
Definition doc_wf d : Prop := ∀ i, shared_wf models (root i) (proj i d).

(** ** Reading and writing one instance *)

Lemma world_with_instance_of w : world_with (surface w) (widget_of w) = w.
Proof. by destruct w. Qed.

Lemma world_of_put j w d : world_of j (put j w d) = w.
Proof.
  unfold world_of, put. simpl. rewrite lookup_insert_eq. apply world_with_instance_of.
Qed.

Lemma world_of_put_ne i j w d :
  i ≠ j → world_of i (put j w d) = world_with (surface w) (widget_of (world_of i d)).
Proof. intros Hij. unfold world_of, put. simpl. by rewrite lookup_insert_ne. Qed.

Lemma proj_put j w d : proj j (put j w d) = on_surface (view_of j) w.
Proof. unfold proj. by rewrite world_of_put. Qed.

Lemma proj_put_ne i j w d :
  i ≠ j →
  proj i (put j w d) =
    mkWorld (fiber (proj i d)) (view_of i (surface w)) (next_closure (proj i d))
            (trace (proj i d)).
Proof. intros Hij. unfold proj. by rewrite world_of_put_ne. Qed.

Lemma proj_never_mounted i d : instances d !! i = None → fiber (proj i d) = None.
Proof. unfold proj, world_of. by intros ->. Qed.

(** ** A step of another instance is a step of other code *)

Section others.
Context (i j : nat) (Hij : j ≠ i).

#[local] Abbreviation as_j := (on_surface (view_of j)).

(** The timer an instance holds is no timer of another instance. *)
Lemma held_not_mine w (c : Cleanup) :
  ids_ok (as_j w) → held w = Some c → timer c ∉ (own_timers (view_of i (surface w))).*1.
Proof.
  intros [_ Hc] Hheld Hin. destruct (Hc c Hheld) as [_ Hfresh].
  by apply Hfresh, (own_timer_foreign i j Hij).
Qed.

Lemma meanwhile_cleanup (c : Cleanup) s :
  timer c ∉ (own_timers (view_of i s)).*1 →
  meanwhile (view_of i s) (view_of i (cleanup (H := multi_surface j) c s)).
Proof.
  intros Hc.
  change (meanwhile (view_of i s)
            (view_of i (multi_removeEventListener j (listener c) (clear_timer (timer c) s)))).
  rewrite (view_other_removeEventListener i j Hij), (view_other_clearTimeout i) by done.
  etrans; apply meanwhile_op.
Qed.

Lemma meanwhile_effect (o : bool) (fresh : nat) s :
  meanwhile (view_of i s) (view_of i (effect (H := multi_surface j) o fresh s).2).
Proof.
  destruct o; [|done].
  change (meanwhile (view_of i s) (view_of i (multi_setTimeout j fresh s).2)).
  rewrite (view_other_setTimeout i j Hij). apply meanwhile_op.
Qed.

Lemma meanwhile_run_cleanup w f :
  ids_ok (as_j w) → fiber w = Some f →
  meanwhile (view_of i (surface w)) (view_of i (run_cleanup (H := multi_surface j) f (surface w))).
Proof.
  intros Hok Hf. unfold run_cleanup. destruct (effect_cleanup f) as [c|] eqn:Hc; [|done].
  apply meanwhile_cleanup, held_not_mine; [done|]. unfold held. by rewrite Hf.
Qed.

Lemma meanwhile_flush_effects w :
  ids_ok (as_j w) →
  meanwhile (view_of i (surface w)) (view_of i (surface (flush_effects (H := multi_surface j) w))).
Proof.
  intros Hok. unfold flush_effects. destruct (fiber w) as [f|] eqn:Hf; [|done].
  destruct (effect_due f); [|done].
  pose proof (meanwhile_effect (isOpen f) (next_closure w)
                (run_cleanup (H := multi_surface j) f (surface w))) as He.
  destruct (effect _ _ _) as [c s']. simpl in *.
  etrans; [by apply meanwhile_run_cleanup|done].
Qed.

Lemma ids_ok_flush_effects w :
  ids_ok (as_j w) → ids_ok (as_j (flush_effects (H := multi_surface j) w)).
Proof.
  intros Hok. rewrite <-(morph_flush_effects (view_of j)). by apply flush_effects_frame.
Qed.

Lemma meanwhile_rerender_with p w :
  ids_ok (as_j w) →
  meanwhile (view_of i (surface w))
    (view_of i (surface (rerender_with (H := multi_surface j) models (root j) p w))).
Proof.
  intros Hok. pose proof (meanwhile_flush_effects w Hok) as Hfl.
  apply ids_ok_flush_effects in Hok. unfold rerender_with. cbv zeta.
  destruct (fiber (flush_effects w)) as [f|] eqn:Hf; [|done].
  destruct (render models p (next_isOpen f)); [done|]. simpl.
  etrans; [done|by apply meanwhile_run_cleanup].
Qed.

Lemma meanwhile_unmount w :
  ids_ok (as_j w) →
  meanwhile (view_of i (surface w)) (view_of i (surface (unmount (H := multi_surface j) w))).
Proof.
  intros Hok. pose proof (meanwhile_flush_effects w Hok) as Hfl.
  apply ids_ok_flush_effects in Hok. unfold unmount. cbv zeta.
  destruct (fiber (flush_effects w)) as [f|] eqn:Hf; [|done]. simpl.
  etrans; [done|by apply meanwhile_run_cleanup].
Qed.

Lemma meanwhile_step_at e w :
  may_flush e = true → ids_ok (as_j w) →
  meanwhile (view_of i (surface w)) (view_of i (surface (step_at j e w))).
Proof.
  intros He Hok. destruct e; try done; simpl.
  - unfold rerender. destruct (fiber w); [by apply meanwhile_rerender_with|done].
  - by apply meanwhile_flush_effects.
  - by apply meanwhile_rerender_with.
  - by apply meanwhile_unmount.
Qed.

End others.

(** ** What one instance sees of a step of the document *)

Section seen.
Context (i : nat).

#[local] Abbreviation as_i := (on_surface (view_of i)).
#[local] Abbreviation shared_run_i := (shared_run models (root i)).
#[local] Abbreviation seen_run_i := (seen_run models (root i)).

Lemma act_absent j (f : MultiWorld → MultiWorld) d :
  instances d !! j = None → act j f d = d.
Proof. unfold act. by intros ->. Qed.

Lemma proj_act (f : MultiWorld → MultiWorld) d :
  is_Some (instances d !! i) → proj i (act i f d) = as_i (f (world_of i d)).
Proof. intros [x Hx]. unfold act. rewrite Hx. apply proj_put. Qed.

(** Another instance acts: instance [i] sees the page change. *)
Lemma proj_act_ne j (f : MultiWorld → MultiWorld) d :
  j ≠ i → is_Some (instances d !! j) →
  proj i (act j f d) =
    mkWorld (fiber (proj i d)) (view_of i (surface (f (world_of j d))))
            (next_closure (proj i d)) (trace (proj i d)).
Proof. intros Hij [x Hx]. unfold act. rewrite Hx. by apply proj_put_ne. Qed.

Lemma proj_act_keep j (f : MultiWorld → MultiWorld) d :
  j ≠ i → (∀ w, surface (f w) = surface w) → proj i (act j f d) = proj i d.
Proof.
  intros Hij Hf. destruct (instances d !! j) as [x|] eqn:Hx.
  - rewrite proj_act_ne, Hf by done. done.
  - by rewrite act_absent.
Qed.

Lemma proj_act_other j (f : MultiWorld → MultiWorld) d :
  j ≠ i → meanwhile (view_of i (page d)) (view_of i (surface (f (world_of j d)))) →
  ∃ ops, proj i (act j f d) = shared_run_i (OtherCode <$> ops) (proj i d).
Proof.
  intros Hij [ops Hops]. destruct (instances d !! j) as [x|] eqn:Hx.
  - exists ops. by rewrite proj_act_ne, shared_run_other_code, Hops.
  - exists []. by rewrite act_absent.
Qed.

(** Its own render, effect flush, new props and unmount. *)
Lemma proj_own_step (e : Event) d :
  Invariant.wf models (root i) (proj i d) →
  proj i (act i (step_at i e) d) = Runtime.step models (root i) e (proj i d).
Proof.
  intros Hwf. destruct (instances d !! i) as [x|] eqn:Hx.
  - rewrite proj_act by done. symmetry. apply (morph_step models (root i) (view_of i)).
  - rewrite act_absent by done. symmetry.
    apply (step_unmounted models (root i)); [done|by apply proj_never_mounted].
Qed.

(** A click. *)
Lemma proj_click_on target d :
  proj i (click_on target d) = click (root i) target (proj i d).
Proof.
  unfold proj at 1, world_of, click_on. simpl. rewrite map_lookup_imap.
  destruct (instances d !! i) as [x|] eqn:Hx; simpl.
  - rewrite <-(click_surface (root i) target (world_with (page d) x)) at 1.
    rewrite world_with_instance_of. unfold proj, world_of. rewrite Hx. simpl.
    symmetry. apply (morph_click (root i) (view_of i)).
  - unfold proj, world_of. by rewrite Hx.
Qed.

(** A press: of the listeners registered, the instance hears its own. *)
Lemma proj_hear target d c :
  proj i (hear target d c) =
    match own (side i c) with
    | Some l => listen target (proj i d) l
    | None => proj i d
    end.
Proof.
  unfold hear, side. destruct c as [[j|] l]; simpl; [|done].
  destruct (decide (Some j = Some i)) as [[= ->]|Hc]; simpl.
  - destruct (instances d !! i) as [x|] eqn:Hx.
    + rewrite proj_act by done. symmetry. apply (morph_listen (view_of i)).
    + rewrite act_absent by done. unfold listen.
      by rewrite proj_never_mounted.
  - apply proj_act_keep; [congruence|]. intros w. apply listen_surface.
Qed.

Lemma proj_hear_all target (cs : list Owned) d :
  proj i (foldl (hear target) d cs) =
    foldl (listen target) (proj i d) (omap own (side i <$> cs)).
Proof.
  revert d. induction cs as [|c cs IH]; intros d; [done|].
  rewrite fmap_cons, omap_cons. simpl. rewrite IH, proj_hear.
  by destruct (own (side i c)).
Qed.

Lemma proj_press_on target d :
  proj i (press_on target d) = mousedown target (proj i d).
Proof. apply proj_hear_all. Qed.

(** A turn of the event loop: the timer at the head of the queue is the
    instance's, or another's, whose listener is then one of other code. *)
Lemma proj_turn_page d :
  ∃ ops, proj i (turn_page d) = shared_run_i (Component Tick :: (OtherCode <$> ops)) (proj i d) ∧
         seen (Component Tick) (proj i d) = events_of i Turn d.
Proof.
  unfold turn_page, events_of. simpl. unfold turn, proj, world_of. simpl.
  destruct (waiting (page d)) as [|[t c] q] eqn:Hq; simpl; [by exists []|].
  unfold side_timer, side. simpl. destruct (decide (c.1 = Some i)) as [Hc|Hc]; simpl.
  - exists []. split; [|done]. simpl. unfold on_surface. simpl. f_equal.
    rewrite Hc, view_add_hearing. unfold side. by rewrite decide_True.
  - destruct c as [[j|] l]; simpl in *.
    + exists [FAddListener (encode_nat (Some j, l))]. split; [|done]. simpl.
      unfold on_surface, other_code. simpl. f_equal.
      rewrite view_add_hearing. unfold side. by rewrite decide_False.
    + by exists [].
Qed.

(** Other code. *)
Lemma proj_elsewhere op d :
  shared_wf models (root i) (proj i d) →
  ∃ ops, proj i (doc_step (Elsewhere op) d) =
           shared_run_i (OtherCode <$> ops) (proj i d).
Proof.
  intros [Hw Hok]. destruct (view_elsewhere_op i op (page d)) as [ops Hops].
  { intros t. by apply (own_ids_apart models (root i) (proj i d)). }
  exists ops. rewrite shared_run_other_code. unfold proj at 1, world_of, on_surface.
  simpl. by rewrite Hops.
Qed.

(** The mount. *)
Lemma mount_surface (r : Node) p s : surface (mount models r p s) = s.
Proof. unfold mount. by destruct (render models p false). Qed.

Lemma proj_mount_at p d :
  instances d !! i = None →
  proj i (mount_at i p d) = mount models (root i) p (view_of i (page d)).
Proof.
  intros Hi. unfold mount_at. rewrite Hi, proj_put. symmetry.
  apply (morph_mount models (root i) (view_of i)).
Qed.

Lemma proj_mount_at_ne j p d : j ≠ i → proj i (mount_at j p d) = proj i d.
Proof.
  intros Hij. unfold mount_at. destruct (instances d !! j); [done|].
  rewrite proj_put_ne, mount_surface by done. done.
Qed.

Lemma mount_at_present p d : is_Some (instances d !! i) → mount_at i p d = d.
Proof. intros [x Hx]. unfold mount_at. by rewrite Hx. Qed.

(** Every step of the document but the mount of the instance itself is,
    for instance [i], a run on its shared page: its own events, turns of
    the event loop, and what other code may do. *)
Lemma proj_step (ev : DocEvent) d :
  doc_wf d → (∀ p, ev = MountAt i p → is_Some (instances d !! i)) →
  ∃ evs, proj i (doc_step ev d) = shared_run_i evs (proj i d) ∧
         seen_run_i evs (proj i d) = events_of i ev d.
Proof.
  intros Hwf Hmount. destruct ev as [j p|j e|target|target| |op]; simpl.
  - exists []. split; [|done]. destruct (decide (j = i)) as [->|Hij].
    + by rewrite mount_at_present by eauto.
    + by rewrite proj_mount_at_ne.
  - destruct (decide (j = i)) as [->|Hij], (may_flush e) eqn:He; try by exists [].
    + exists [Component e]. simpl. rewrite proj_own_step, app_nil_r by apply Hwf.
      by destruct e.
    + destruct (proj_act_other j (step_at j e) d Hij) as [ops Hops].
      { apply meanwhile_step_at; [done..|apply Hwf]. }
      exists (OtherCode <$> ops). split; [done|apply seen_run_other_code].
  - exists [Component (Click target)]. by rewrite proj_click_on.
  - exists [Component (MouseDown target)]. by rewrite proj_press_on.
  - destruct (proj_turn_page d) as (ops & Hp & Hs).
    exists (Component Tick :: (OtherCode <$> ops)). split; [done|].
    cbn [seen_run]. by rewrite seen_run_other_code, app_nil_r.
  - destruct (proj_elsewhere op d (Hwf i)) as [ops Hops].
    exists (OtherCode <$> ops). split; [done|apply seen_run_other_code].
Qed.

(** A page on which instance [i] was never mounted holds nothing of it. *)
Lemma foreign_only_never_mounted d :
  shared_wf models (root i) (proj i d) → instances d !! i = None →
  foreign_only (view_of i (page d)).
Proof.
  intros [Hw [Hb _]] Hi. unfold Invariant.wf in Hw.
  rewrite proj_never_mounted in Hw by done. by destruct Hw.
Qed.

(** A step is the mount of the instance, or one it sees from inside. *)
Lemma mount_cases (ev : DocEvent) d :
  (∃ p, ev = MountAt i p ∧ instances d !! i = None) ∨
  (∀ p, ev = MountAt i p → is_Some (instances d !! i)).
Proof.
  destruct ev as [j p| | | | |]; try by right.
  destruct (decide (j = i)) as [->|Hij]; [|right; by intros ? [=]].
  destruct (instances d !! i) eqn:Hi; [right|left]; eauto.
Qed.

Lemma shared_wf_doc_step (ev : DocEvent) d :
  doc_wf d → shared_wf models (root i) (proj i (doc_step ev d)).
Proof.
  intros Hwf. destruct (mount_cases ev d) as [(p & -> & Hi)|Hin].
  - simpl. rewrite proj_mount_at by done.
    by apply shared_wf_mount, foreign_only_never_mounted.
  - destruct (proj_step ev d Hwf Hin) as (evs & -> & _). by apply shared_wf_run.
Qed.

End seen.

(** ** The invariant *)

Lemma doc_wf_empty : doc_wf empty_document.
Proof. intros i. split; [done|]. split; [by apply Forall_nil|done]. Qed.

Lemma doc_wf_step (ev : DocEvent) d : doc_wf d → doc_wf (doc_step ev d).
Proof. intros Hwf i. by apply shared_wf_doc_step. Qed.

Lemma doc_wf_run (evs : list DocEvent) d : doc_wf d → doc_wf (doc_run evs d).
Proof.
  revert d. induction evs as [|ev evs IH]; intros d Hwf; [done|].
  by apply IH, doc_wf_step.
Qed.

Lemma doc_wf_reachable d : doc_reachable d → doc_wf d.
Proof. induction 1; [apply doc_wf_empty|by apply doc_wf_step]. Qed.

Lemma doc_reachable_run (evs : list DocEvent) d :
  doc_reachable d → doc_reachable (doc_run evs d).
Proof.
  revert d. induction evs as [|ev evs IH]; intros d Hd; [done|].
  by apply IH, doc_next.
Qed.

(** ** Instances stay *)

Lemma present_put i j w d :
  is_Some (instances d !! i) → is_Some (instances (put j w d) !! i).
Proof. intros Hi. unfold put. simpl. rewrite lookup_insert. by case_decide. Qed.

Lemma present_act i j (f : MultiWorld → MultiWorld) d :
  is_Some (instances d !! i) → is_Some (instances (act j f d) !! i).
Proof. intros Hi. unfold act. destruct (instances d !! j); [by apply present_put|done]. Qed.

Lemma present_step i (ev : DocEvent) d :
  is_Some (instances d !! i) → is_Some (instances (doc_step ev d) !! i).
Proof.
  intros Hi. destruct ev as [j p|j e|target|target| |op]; simpl; [| | | | |done].
  - unfold mount_at. destruct (instances d !! j); [done|by apply present_put].
  - destruct (may_flush e); [by apply present_act|done].
  - rewrite map_lookup_imap. by destruct Hi as [x ->].
  - unfold press_on. generalize (hearing (page d)). intros cs. revert d Hi.
    induction cs as [|c cs IH]; intros d Hi; [done|]. apply IH. unfold hear.
    destruct c.1; [by apply present_act|done].
  - unfold turn_page. by destruct (waiting (page d)) as [|[t c] q].
Qed.

(** ** Each instance behaves as it does alone *)

Section alone.
Context `{Surface B}.
Implicit Types (v : World B).

Lemma alike_doc_step i (ev : DocEvent) d v :
  doc_wf d → is_Some (instances d !! i) → Invariant.wf models (root i) v →
  alike (proj i d) v →
  alike (proj i (doc_step ev d)) (Runtime.run models (root i) (events_of i ev d) v).
Proof.
  intros Hwf Hi Hv Ha. destruct (proj_step i ev d Hwf) as (evs & -> & <-); [done|].
  apply alike_shared_run; [apply Hwf|done..].
Qed.

Lemma alike_doc_run i (evs : list DocEvent) d v :
  doc_wf d → is_Some (instances d !! i) → Invariant.wf models (root i) v →
  alike (proj i d) v →
  alike (proj i (doc_run evs d)) (Runtime.run models (root i) (events_of_run i evs d) v).
Proof.
  revert d v. induction evs as [|ev evs IH]; intros d v Hwf Hi Hv Ha; [done|].
  simpl. rewrite run_app. apply IH.
  - by apply doc_wf_step.
  - by apply present_step.
  - by apply wf_run.
  - by apply alike_doc_step.
Qed.

Lemma alike_mount_at i p d (s0 : B) :
  doc_wf d → instances d !! i = None → timers s0 = [] → listeners s0 = [] →
  alike (proj i (mount_at i p d)) (mount models (root i) p s0).
Proof.
  intros Hwf Hi Ht Hl. rewrite proj_mount_at by done.
  destruct (foreign_only_never_mounted i d (Hwf i) Hi) as (? & ? & _).
  by apply alike_mount.
Qed.

(** C14: an instance on a page with other instances behaves as it does alone:
    mounted on any reachable document, whatever React and the browser do
    with the other instances, it reaches the state its own events lead to
    on a page of its own, up to the ids of the timers: the same tree,
    state and refs, the same calls of [onChange] on the same trace, the
    same listeners and timer callbacks of its own. *)
Theorem instance_as_alone i p (evs : list DocEvent) d (s0 : B) :
  doc_reachable d → instances d !! i = None → timers s0 = [] → listeners s0 = [] →
  let d0 := doc_step (MountAt i p) d in
  observe (proj i (doc_run evs d0)) =
  observe (Runtime.run models (root i) (events_of_run i evs d0) (mount models (root i) p s0)).
Proof.
  intros Hd%doc_wf_reachable Hi Ht Hl. apply alike_doc_run.
  - by apply doc_wf_step.
  - simpl. unfold mount_at. rewrite Hi. simpl. by rewrite lookup_insert_eq.
  - by apply wf_mount_on.
  - by apply alike_mount_at.
Qed.

End alone.

(** ** What the instances hold on the page *)

Lemma share_bound i d :
  doc_wf d → length (timers_by i (page d)) + length (listeners_by i (page d)) ≤ 1.
Proof.
  intros Hwf. destruct (Hwf i) as [Hw _].
  pose proof (wf_surface models (root i) (proj i d) Hw) as Hlen.
  change (length (own_timers (view_of i (page d))) +
          length (own_listeners (view_of i (page d))) ≤ 1) in Hlen.
  by rewrite own_timers_view, own_listeners_view, !length_fmap in Hlen.
Qed.

(** C16: on a page with several instances the invariant holds for each of
    them in every reachable document: what the instance committed, what
    its effect last did and what the page holds for it agree; the timer id
    it keeps is the id of no timer of another instance; and it has at most
    one timer or listener on the page. *)
Theorem instances_wf d i :
  doc_reachable d →
  Invariant.wf models (root i) (proj i d) ∧ ids_ok (proj i d) ∧
  length (timers_by i (page d)) + length (listeners_by i (page d)) ≤ 1.
Proof.
  intros Hd%doc_wf_reachable. destruct (Hd i) as [Hw Hok].
  split_and!; [done..|by apply share_bound].
Qed.

End instances.

End Instances.
