(* ===== verification/Together.v ===== *)
(** * The instances together

    What follows from [Instances.proj_step] for the document as a whole:
    a step an instance does not see leaves it as it is, and the instances
    leave the entries of other code as they are (the frame); a press
    outside an instance closes it; the page holds at most one entry for
    each open instance (the bound); unmounting every instance leaves the
    page to other code; each instance implements the machine of [Spec] on
    the inputs it sees; and every mounted instance can be closed, however
    many timers of others are in the queue before its own. *)

From stdpp Require Import countable gmap.
From S2P Require Import Prelude Jsx Models Browser Shared ModelSelect Runtime.
From S2P Require Import Invariant Independence Morphism Multi Frame Behaviour Spec.
From S2P Require Import Bounds Instances.
Import Jsx Registry Browser Shared ModelSelect Runtime Invariant Independence.
From S2P Require Import ModelSelectFacts.
Import ModelSelectFacts.
Import Morphism Multi Frame Behaviour Spec Bounds Instances.

Module Together.

(** The instances whose effect last ran for an open dropdown. *)
Definition holds_open (x : Widget) : bool :=
  match its_fiber x with
  | Some f => bool_decide (effect_deps f = Some true)
  | None => false
  end.

Definition open_instances (d : Document) : gmap nat Widget :=
  filter (λ jx, holds_open jx.2 = true) (instances d).

(** A press, then the render and the effect flush of instance [j]. *)
Definition press_and_settle (j : nat) (target : Node) : list DocEvent :=
  [PressOn target; At j Render; At j Flush].

(** React unmounts every instance. *)
Definition unmount_all (d : Document) : list DocEvent :=
  (λ j, At j Unmount) <$> elements (dom (instances d)).

Section together.
Context (models : list Model) (root : nat → Node).
Implicit Types (d : Document) (w : MultiWorld) (x : Widget) (s : MultiPage).
Implicit Types (i j : nat) (p : ModelSelectProps) (target : Node) (c : Owned).

#[local] Abbreviation step_at := (Instances.step_at models root).
#[local] Abbreviation doc_step := (Instances.doc_step models root).
#[local] Abbreviation doc_run := (Instances.doc_run models root).
#[local] Abbreviation doc_reachable := (Instances.doc_reachable models root).
#[local] Abbreviation doc_wf := (Instances.doc_wf models root).
#[local] Abbreviation click_on := (Instances.click_on root).

(** The render and the effect flush of instance [i] that are due. *)
Definition settle_at (i : nat) : list DocEvent := [At i Render; At i Flush].

(** The plan that closes instance [i]: what is due; as many turns of the
    event loop as timers are pending then; a press on [target], outside
    the instance, and what is due after it. *)
Definition close_plan (i : nat) target d : list DocEvent :=
  settle_at i
  ++ replicate (length (waiting (page (doc_run (settle_at i) d)))) Turn
  ++ press_and_settle i target.

(** A click outside the subtree of an instance is none of its business. *)
Lemma click_elsewhere i target d :
  contains (root i) target = false → proj i (click_on target d) = proj i d.
Proof.
  intros Hout. rewrite proj_click_on. unfold click.
  destruct (fiber (proj i d)) as [f|]; [|done].
  unfold reached. by rewrite (proj2 (below_None (root i) target) Hout).
Qed.

(** While other code acts, the share of an instance stays. *)
Lemma share_kept i (ops : list ForeignOp) d d' :
  proj i d' = shared_run models (root i) (OtherCode <$> ops) (proj i d) →
  timers_by i (page d') = timers_by i (page d) ∧
  listeners_by i (page d') = listeners_by i (page d).
Proof.
  rewrite shared_run_other_code. intros [= _ Hpage _ _].
  destruct (own_view_foreign_ops ops (view_of i (page d))) as [Ht Hl].
  split; [apply timers_by_view|apply listeners_by_view]; by rewrite Hpage.
Qed.

(** What React does with another instance. *)
Lemma step_elsewhere i j (e : Event) d :
  doc_wf d → j ≠ i →
  let d' := doc_step (At j e) d in
  instances d' !! i = instances d !! i ∧
  timers_by i (page d') = timers_by i (page d) ∧
  listeners_by i (page d') = listeners_by i (page d).
Proof.
  intros Hd Hij. cbv zeta. simpl.
  destruct (may_flush e) eqn:He; [|done].
  destruct (proj_act_other models root i j (step_at j e) d Hij) as [ops Hops].
  { apply meanwhile_step_at; [done..|apply Hd]. }
  split; [|by eapply share_kept].
  unfold act. destruct (instances d !! j); [|done]. simpl. by rewrite lookup_insert_ne.
Qed.

(** The timer of someone else fires. *)
Lemma turn_elsewhere i d :
  events_of i Turn d = [] →
  timers_by i (page (turn_page d)) = timers_by i (page d) ∧
  listeners_by i (page (turn_page d)) = listeners_by i (page d).
Proof.
  unfold turn_page, events_of, timers_by, listeners_by.
  destruct (waiting (page d)) as [|[t c] q] eqn:Hq; [by rewrite Hq|].
  case_decide as Hc; [done|]. intros _. simpl. rewrite filter_cons_False by done.
  destruct c.1 eqn:Hj; [|done]. unfold add_hearing. simpl. split; [done|].
  case_decide; [done|].
  rewrite filter_app, filter_cons_False, filter_nil, app_nil_r; [done|congruence].
Qed.

(** What a mounted instance does not see does not change it. *)
Lemma unseen_step i (ev : DocEvent) d :
  doc_wf d → is_Some (instances d !! i) → events_of i ev d = [] →
  let d' := doc_step ev d in
  instances d' !! i = instances d !! i ∧
  timers_by i (page d') = timers_by i (page d) ∧
  listeners_by i (page d') = listeners_by i (page d).
Proof.
  intros Hd Hi Hev. destruct ev as [j p|j e|target|target| |op]; try done; cbv zeta.
  - destruct (decide (j = i)) as [->|Hij]; simpl; [by rewrite mount_at_present|].
    unfold mount_at. destruct (instances d !! j); [done|]. simpl.
    by rewrite lookup_insert_ne, mount_surface.
  - destruct (decide (j = i)) as [->|Hij]; [|by apply step_elsewhere].
    simpl in *. rewrite decide_True in Hev by done. by destruct (may_flush e).
  - split; [|by apply turn_elsewhere]. simpl. unfold turn_page.
    by destruct (waiting (page d)) as [|[t c] q].
  - split; [done|]. destruct (proj_elsewhere models root i op d (Hd i)) as [ops Hops].
    by eapply share_kept.
Qed.

(** C17: the instances do not interfere, and other code does not disturb
    them: a step of the document of which a mounted instance sees nothing
    (the mount, a render, an effect flush, new props or the unmount of
    another instance, the timer of another instance or of other code, a
    call of other code) leaves its state, its trace, its timer and its
    listener as they are (in particular the cleanup of one instance never
    clears the timer of another); and a click on a node outside the
    instance, inside another one say, changes nothing of it. *)
Theorem instances_frame i (ev : DocEvent) target d :
  doc_reachable d → is_Some (instances d !! i) →
  events_of i ev d = [] → contains (root i) target = false →
  let d' := doc_step ev d in
  (instances d' !! i = instances d !! i ∧
   timers_by i (page d') = timers_by i (page d) ∧
   listeners_by i (page d') = listeners_by i (page d)) ∧
  proj i (doc_step (ClickOn target) d) = proj i d.
Proof.
  intros Hd%doc_wf_reachable Hi Hev Hout.
  split; [by apply unseen_step|by apply click_elsewhere].
Qed.

(** ** What the instances leave to other code *)

Lemma page_act_keep j (f : MultiWorld → MultiWorld) d :
  (∀ w, surface (f w) = surface w) → page (act j f d) = page d.
Proof. intros Hf. unfold act. destruct (instances d !! j); [apply Hf|done]. Qed.

Lemma page_press_on target d : page (press_on target d) = page d.
Proof.
  unfold press_on. generalize (hearing (page d)). intros cs. revert d.
  induction cs as [|c cs IH]; intros d; [done|]. simpl. rewrite IH. unfold hear.
  destruct c.1; [|done]. apply page_act_keep. intros w. apply listen_surface.
Qed.

(** The life cycle of an instance leaves the entries of other code. *)
Lemma elsewhere_step_at j (e : Event) d :
  doc_wf d → may_flush e = true →
  let d' := act j (step_at j e) d in
  timers_elsewhere (page d') = timers_elsewhere (page d) ∧
  listeners_elsewhere (page d') = listeners_elsewhere (page d).
Proof.
  intros Hd He. cbv zeta. destruct (instances d !! j) as [x|] eqn:Hx;
    [|by rewrite act_absent].
  destruct (Hd j) as [Hw Hok].
  destruct (step_frame models (root j) e (proj j d)) as [_ [= Ht Hl]];
    [by destruct e|done|].
  rewrite <-proj_own_step in Ht, Hl by done. by apply (elsewhere_view j).
Qed.

(** The event loop runs a timer: of an instance, which registers the
    listener of that instance, or of other code. *)
Lemma elsewhere_turn d :
  let s' := page (turn_page d) in
  listeners_elsewhere s' = listeners_elsewhere (page d) ∧
  (timers_elsewhere s' = timers_elsewhere (page d) ∨
   ∃ t k, head (waiting (page d)) = Some (t, (None, k)) ∧
          timers_elsewhere (page d) = (t, (None, k)) :: timers_elsewhere s').
Proof.
  unfold turn_page, timers_elsewhere, listeners_elsewhere. cbv zeta.
  destruct (waiting (page d)) as [|[t [[j|] k]] q] eqn:Hq; simpl.
  - split; [done|left]. by rewrite Hq.
  - rewrite filter_cons_False by done. split; [|by left].
    unfold add_hearing. simpl. case_decide; [done|].
    by rewrite filter_app, filter_cons_False, filter_nil, app_nil_r.
  - rewrite filter_cons_True by done. split; [done|right]. by exists t, k.
Qed.

(** C18: the instances leave other code alone: in every reachable document
    nothing that React, the user or the event loop does with the instances
    (mounts, renders, effect flushes and their cleanups, new props,
    unmounts, clicks, presses) changes a listener or a timer of other
    code; the one change to its timers is the event loop running the one
    at the head of the queue. *)
Theorem instances_keep_elsewhere (ev : DocEvent) d :
  doc_reachable d → (∀ op, ev ≠ Elsewhere op) →
  let d' := doc_step ev d in
  listeners_elsewhere (page d') = listeners_elsewhere (page d) ∧
  (timers_elsewhere (page d') = timers_elsewhere (page d) ∨
   ev = Turn ∧ ∃ t k, head (waiting (page d)) = Some (t, (None, k)) ∧
                      timers_elsewhere (page d) = (t, (None, k)) :: timers_elsewhere (page d')).
Proof.
  intros Hd%doc_wf_reachable Hev. destruct ev as [j p|j e|target|target| |op]; cbv zeta.
  - simpl. unfold mount_at. destruct (instances d !! j); [by split; [|left]|].
    simpl. rewrite mount_surface. by split; [|left].
  - simpl. destruct (may_flush e) eqn:He; [|by split; [|left]].
    destruct (elsewhere_step_at j e d Hd He) as [-> ->]. by split; [|left].
  - by split; [|left].
  - simpl. rewrite page_press_on. by split; [|left].
  - destruct (elsewhere_turn d) as [Hl [Ht|Ht]]; (split; [done|]); [by left|by right].
  - by destruct (Hev op).
Qed.

(** What an instance has on the page is what it sees there. *)
Lemma timers_proj j d : timers (surface (proj j d)) = [] ↔ timers_by j (page d) = [].
Proof. apply timers_by_nil. Qed.

Lemma listeners_proj j d : listeners (surface (proj j d)) = [] ↔ listeners_by j (page d) = [].
Proof. apply listeners_by_nil. Qed.

(** The render and the effect flush of an instance, as it sees them. *)
Lemma proj_settle_at j d :
  doc_wf d → proj j (doc_run (settle_at j) d) = settle models (root j) (proj j d).
Proof.
  intros Hd. pose proof (doc_wf_step models root (At j Render) d Hd) as Hd1.
  change (proj j (act j (step_at j Flush) (act j (step_at j Render) d)) =
          settle models (root j) (proj j d)).
  rewrite proj_own_step by apply Hd1. by rewrite proj_own_step by apply Hd.
Qed.

Lemma proj_press_and_settle j target d :
  doc_wf d →
  proj j (doc_run (press_and_settle j target) d) =
    settle models (root j) (mousedown target (proj j d)).
Proof.
  intros Hd. pose proof (doc_wf_step models root (PressOn target) d Hd) as Hd1.
  change (doc_run (press_and_settle j target) d)
    with (doc_run (settle_at j) (doc_step (PressOn target) d)).
  rewrite proj_settle_at by done. simpl. by rewrite proj_press_on.
Qed.

(** C19: a press outside an instance closes it, wherever else it lands: with
    the detector of instance [j] live, a [mousedown] on a node outside the
    subtree of [j] (on another instance, say) followed by the render and
    the effect flush of [j] leaves [j] closed, with the props and the trace
    it had, and with no timer and no listener on the page. *)
Theorem press_elsewhere_closes j target d f :
  doc_reachable d → fiber (proj j d) = Some f → quiescent (proj j d) →
  listeners_by j (page d) ≠ [] →
  contains (root j) target = false →
  let d' := doc_run (press_and_settle j target) d in
  (∃ f', fiber (proj j d') = Some f' ∧ isOpen f' = false ∧ props f' = props f) ∧
  trace (proj j d') = trace (proj j d) ∧
  timers_by j (page d') = [] ∧ listeners_by j (page d') = [].
Proof.
  intros Hd%doc_wf_reachable Hf Hq Hl Hout. cbv zeta.
  rewrite <-timers_proj, <-listeners_proj, !proj_press_and_settle by done.
  rewrite <-listeners_proj in Hl.
  destruct (press_outside models (root j) (proj j d) f target)
    as (_ & Htr & Hf' & Ht' & Hl'); try done; [apply Hd|by apply contains_app_false..].
Qed.

(** An instance with something on the page is one of them. *)
Lemma owner_open i d : doc_wf d → i ∈ owners (page d) → is_Some (open_instances d !! i).
Proof.
  intros Hwf Hi%elem_of_owners. destruct (Hwf i) as [Hw _].
  destruct (wf_holding models (root i) (proj i d) Hw) as (f & Hf & Hdeps).
  { change (length (own_timers (view_of i (page d))) +
            length (own_listeners (view_of i (page d))) ≠ 0).
    rewrite own_timers_view, own_listeners_view, !length_fmap.
    destruct Hi as [Hi|Hi]; [destruct (timers_by i (page d))|destruct (listeners_by i (page d))];
      simpl; try done; lia. }
  unfold proj, world_of in Hf. simpl in Hf.
  destruct (instances d !! i) as [x|] eqn:Hx; [|done]. exists x.
  apply map_lookup_filter_Some. split; [done|]. unfold holds_open. simpl in *.
  rewrite Hf. by apply bool_decide_eq_true.
Qed.

(** What the instances have on the page is one entry for each open
    instance at most. *)
Lemma owners_bound d : doc_wf d → length (owners (page d)) ≤ size (open_instances d).
Proof.
  intros Hd. rewrite <-size_dom. apply submseteq_length, NoDup_submseteq.
  - apply NoDup_filter_length. intros i. rewrite owners_filter. by apply (share_bound models root).
  - intros i Hi. by apply elem_of_elements, elem_of_dom, owner_open.
Qed.

(** C30: no listener leaks, however many instances open and close and
    whatever other code does: in every reachable document the pending
    timers and the registered listeners that are not other code's are
    together at most as many as the instances whose effect last ran for an
    open dropdown (each has one of the two at most, and a closed,
    unmounted or never mounted instance has none), and so at most as many
    as the instances React has mounted. *)
Theorem page_bounded d :
  doc_reachable d →
  length (waiting (page d)) + length (hearing (page d)) ≤
    size (open_instances d) +
    (length (timers_elsewhere (page d)) + length (listeners_elsewhere (page d))) ∧
  size (open_instances d) ≤ size (instances d).
Proof.
  intros Hd%doc_wf_reachable. split; [|apply map_size_filter].
  rewrite length_owners. by apply Nat.add_le_mono_r, owners_bound.
Qed.

(** ** Unmounting every instance *)

Lemma fiber_proj i d : fiber (proj i d) = instances d !! i ≫= its_fiber.
Proof. unfold proj, world_of. by destruct (instances d !! i). Qed.

Lemma unmounted_stays i j d :
  doc_wf d → fiber (proj i d) = None → fiber (proj i (doc_step (At j Unmount) d)) = None.
Proof.
  intros Hd Hi. destruct (decide (j = i)) as [->|Hij].
  - change (doc_step (At i Unmount) d) with (act i (step_at i Unmount) d).
    rewrite proj_own_step by apply Hd. rewrite step_unmounted; [done|apply Hd|done].
  - rewrite fiber_proj in *. by destruct (step_elsewhere i j Unmount d Hd Hij) as [-> _].
Qed.

Lemma unmount_at_gone i d : doc_wf d → fiber (proj i (doc_step (At i Unmount) d)) = None.
Proof.
  intros Hd. change (doc_step (At i Unmount) d) with (act i (step_at i Unmount) d).
  rewrite proj_own_step by apply Hd. apply unmount_gone.
Qed.

Lemma unmount_each_gone i (js : list nat) d :
  doc_wf d → i ∈ js ∨ fiber (proj i d) = None →
  fiber (proj i (doc_run ((λ j, At j Unmount) <$> js) d)) = None.
Proof.
  revert d. induction js as [|j js IH]; intros d Hd Hi.
  { by destruct Hi as [?%elem_of_nil|]. }
  rewrite fmap_cons. apply IH; [by apply doc_wf_step|].
  destruct Hi as [[->|Hi]%elem_of_cons|Hi]; [right|by left|right].
  - by apply unmount_at_gone.
  - by apply unmounted_stays.
Qed.

Lemma unmount_all_gone i d :
  doc_wf d → fiber (proj i (doc_run (unmount_all d) d)) = None.
Proof.
  intros Hd. apply unmount_each_gone; [done|].
  destruct (instances d !! i) as [x|] eqn:Hx; [left|right; by apply proj_never_mounted].
  by apply elem_of_elements, elem_of_dom.
Qed.

(** No instance is open when none is mounted. *)
Lemma open_instances_gone d : (∀ i, fiber (proj i d) = None) → open_instances d = ∅.
Proof.
  intros Hgone. apply map_empty_filter. intros i x Hx. simpl.
  specialize (Hgone i). rewrite fiber_proj, Hx in Hgone. simpl in Hgone.
  unfold holds_open. by rewrite Hgone.
Qed.

(** C21: React can always release the page: from any reachable document,
    unmounting every instance, in any state each is in (a timer pending,
    the listener registered, an update queued, an effect due), leaves no
    instance mounted and no timer and no listener of any instance on the
    page: what is left there is other code's. *)
Theorem unmount_all_releases d :
  doc_reachable d →
  let d' := doc_run (unmount_all d) d in
  (∀ i, fiber (proj i d') = None) ∧
  waiting (page d') = timers_elsewhere (page d') ∧
  hearing (page d') = listeners_elsewhere (page d').
Proof.
  intros Hd%doc_wf_reachable. cbv zeta.
  pose proof (λ i, unmount_all_gone i d Hd) as Hgone. split; [done|].
  pose proof (owners_bound _ (doc_wf_run models root (unmount_all d) d Hd)) as Hlen.
  rewrite open_instances_gone, map_size_empty in Hlen by done.
  pose proof (length_owners (page (doc_run (unmount_all d) d))) as Hall.
  pose proof (length_filter (λ e, e.2.1 = None) (waiting (page (doc_run (unmount_all d) d)))).
  pose proof (length_filter (λ c, c.1 = None) (hearing (page (doc_run (unmount_all d) d)))).
  unfold timers_elsewhere, listeners_elsewhere in *.
  split; symmetry; apply filter_length_same; lia.
Qed.

(** ** Each instance refines the specification *)

(** What the specification sees of a world does not depend on timer
    ids. *)
Lemma quiescent_alike `{Surface B1} `{Surface B2} (w : World B1) (v : World B2) :
  alike w v → quiescent v → quiescent w.
Proof.
  intros Ha. unfold quiescent.
  destruct (alike_view w v Ha) as [f1 f2 Hf1 Hf2 Hf|Hf1 Hf2]; rewrite Hf1, Hf2; [|done].
  destruct (erase_timer_inv _ _ Hf) as (_ & Ho & Hu & _ & _ & _ & Hdeps & _).
  by rewrite Ho, Hu, Hdeps.
Qed.

Lemma abs_alike `{Surface B1} `{Surface B2} (w : World B1) (v : World B2) :
  alike w v → abs w = abs v.
Proof.
  intros Ha. pose proof Ha as [= _ _ Hl _ _]. unfold abs.
  destruct (alike_view w v Ha) as [f1 f2 Hf1 Hf2 Hf|Hf1 Hf2]; rewrite Hf1, Hf2; [|done].
  destruct (erase_timer_inv _ _ Hf) as (Hp & Ho & _).
  unfold phase_of. by rewrite Hp, Ho, Hl.
Qed.

Lemma trace_alike `{Surface B1} `{Surface B2} (w : World B1) (v : World B2) :
  alike w v → trace w = trace v.
Proof. by intros [= _ _ _ _ ?]. Qed.

(** An instance sees one event of a step of the document, or none. *)
Lemma events_of_cases i (ev : DocEvent) d :
  events_of i ev d = [] ∨ ∃ e, events_of i ev d = [e].
Proof.
  destruct ev as [j p|j e|target|target| |op]; simpl; eauto.
  - destruct (decide (j = i)), (may_flush e); eauto.
  - destruct (waiting (page d)) as [|[t c] q]; [eauto|]. case_decide; eauto.
Qed.

(** A step of the document and the render and effect flush of instance
    [i], as [i] sees them: its own events, settled. *)
Lemma alike_doc_settle i (ev : DocEvent) d :
  doc_wf d → is_Some (instances d !! i) →
  alike (proj i (doc_run [ev; At i Render; At i Flush] d))
        (settle models (root i)
           (Runtime.run models (root i) (events_of i ev d) (proj i d))).
Proof.
  intros Hd Hi. pose proof (doc_wf_step models root ev d Hd) as Hd1.
  change (doc_run [ev; At i Render; At i Flush] d)
    with (doc_run (settle_at i) (doc_step ev d)).
  rewrite proj_settle_at by done.
  apply (alike_run models (root i) [Render; Flush]).
  - apply Hd1.
  - apply wf_run, Hd.
  - apply alike_doc_step; [done..|apply Hd|done].
Qed.

(** C15: every instance on a page with other instances is the widget of the
    specification: in every reachable document, a step of the document
    (whatever it does to the other instances) followed by the render and
    the effect flush of a quiescent instance is the transition the
    specification's machine takes on the input the instance sees, or no
    transition when it sees none, with exactly the machine's calls of the
    change callback. *)
Theorem document_refines i (ev : DocEvent) d :
  doc_reachable d → is_Some (instances d !! i) → quiescent (proj i d) →
  let d' := doc_run [ev; At i Render; At i Flush] d in
  let acts := action_of (root i) (proj i d) <$> events_of i ev d in
  quiescent (proj i d') ∧
  abs (proj i d') = (spec_run acts (abs (proj i d))).1 ∧
  calls (trace (proj i d')) =
    calls (trace (proj i d)) ++ (spec_run acts (abs (proj i d))).2.
Proof.
  intros Hd%doc_wf_reachable Hi Hq. cbv zeta.
  pose proof (alike_doc_settle i ev d Hd Hi) as Ha.
  rewrite (abs_alike _ _ Ha), (trace_alike _ _ Ha).
  destruct (Hd i) as [Hw _]. destruct (events_of_cases i ev d) as [Hes|[e Hes]];
    rewrite Hes in *; simpl in *.
  - rewrite settle_quiescent in * by done. rewrite app_nil_r.
    split_and!; [by eapply quiescent_alike|done..].
  - destruct (refines_step models (root i) (proj i d) e Hw Hq) as (Hq' & Habs & Hcalls).
    destruct (spec_step _ _) as [st out]. simpl in *. rewrite app_nil_r.
    split_and!; [by eapply quiescent_alike|done..].
Qed.

(** ** Every instance can be closed *)

Lemma doc_run_app (evs1 evs2 : list DocEvent) d :
  doc_run (evs1 ++ evs2) d = doc_run evs2 (doc_run evs1 d).
Proof. apply foldl_app. Qed.

Lemma turn_page_instances d : instances (turn_page d) = instances d.
Proof. unfold turn_page. by destruct (waiting (page d)) as [|[t c] q]. Qed.

Lemma turn_page_waiting d : waiting (page (turn_page d)) = tail (waiting (page d)).
Proof.
  unfold turn_page. destruct (waiting (page d)) as [|[t c] q] eqn:Hq; simpl.
  - by rewrite Hq.
  - by destruct c.1.
Qed.

(** The event loop drains the queue: no timer is pending after as many
    turns as timers were pending, and no instance has changed. *)
Lemma turns_drain (n : nat) d :
  length (waiting (page d)) ≤ n →
  instances (doc_run (replicate n Turn) d) = instances d ∧
  waiting (page (doc_run (replicate n Turn) d)) = [].
Proof.
  revert d. induction n as [|n IH]; intros d Hn.
  - split; [done|]. simpl. destruct (waiting (page d)); [done|simpl in Hn; lia].
  - change (doc_run (replicate (S n) Turn) d)
      with (doc_run (replicate n Turn) (turn_page d)).
    destruct (IH (turn_page d)) as [Hi Hw]; [|by rewrite Hi, turn_page_instances].
    rewrite turn_page_waiting. destruct (waiting (page d)); simpl in *; lia.
Qed.

(** An instance left as it is sees itself as it was. *)
Lemma proj_widget i d d' :
  instances d' !! i = instances d !! i →
  fiber (proj i d') = fiber (proj i d) ∧ trace (proj i d') = trace (proj i d).
Proof. unfold proj, world_of. by intros ->. Qed.

(** C20: every mounted instance can be closed, whatever the others and other
    code have left on the page: from any reachable document, once the
    render and the effects of the instance that are due have run and the
    event loop has run the pending timers (those queued before the timer
    of the instance included), a press outside the instance followed by
    its render and effects leaves it mounted with its props, closed and
    at rest, without a call of [onChange], and with no timer and no
    listener on the page. *)
Theorem instance_can_close i target d f :
  doc_reachable d → fiber (proj i d) = Some f → contains (root i) target = false →
  let d' := doc_run (close_plan i target d) d in
  quiescent (proj i d') ∧ abs (proj i d') = Live (props f) Closed ∧
  calls (trace (proj i d')) = calls (trace (proj i d)) ∧
  timers_by i (page d') = [] ∧ listeners_by i (page d') = [].
Proof.
  intros Hd%doc_wf_reachable Hf Hout. cbv zeta. unfold close_plan.
  rewrite !doc_run_app. set (d1 := doc_run (settle_at i) d).
  assert (doc_wf d1) as Hd1 by by apply doc_wf_run.
  destruct (turns_drain (length (waiting (page d1))) d1) as [Hi Hw]; [done|].
  set (d2 := doc_run (replicate _ Turn) d1) in *.
  assert (doc_wf d2) as Hd2 by by apply doc_wf_run.
  destruct (proj_widget i d1 d2) as [Hf2 Ht2]; [by rewrite Hi|].
  destruct (Hd i) as [Hwf _]. unfold d1 in Hf2, Ht2. rewrite proj_settle_at in Hf2, Ht2 by done.
  destruct (settle_mounted models (root i) _ f Hwf Hf) as (f0 & Hf0 & Hp).
  rewrite settle_trace in Ht2 by done. rewrite Hf0 in Hf2.
  assert (quiescent (proj i d2)) as Hq2.
  { pose proof (quiescent_settle models (root i) (proj i d)) as Hq.
    unfold quiescent in *. rewrite Hf0 in Hq. by rewrite Hf2. }
  rewrite <-timers_proj, <-listeners_proj, proj_press_and_settle by done.
  destruct (press_outside_closed models (root i) (proj i d2) f0 target)
    as (Hq3 & Ha3 & Hc3); [apply Hd2|done|done| |by apply contains_app_false..|].
  { apply timers_proj. unfold timers_by. by rewrite Hw. }
  rewrite <-Hp, <-Ht2. split_and!; [done..| |];
    eapply (closed_nothing models (root i)); try done;
    rewrite <-proj_press_and_settle by done; apply doc_wf_run, Hd2.
Qed.

End together.

End Together.
