(* ===== verification/Scenarios.v ===== *)
(** * Concrete runs

    The component on the page implementation [Page], with the registry of
    the specification's scenario (ids "a" and "b"), mounted at a fixed place
    of the document with "b" selected: the worlds a user passes through
    (closed, opening, open), the scenario of the specification evaluated
    step by step, and the instances of the general theorems at these
    worlds. *)

From S2P Require Import Prelude Jsx Models Browser Shared ModelSelect Hooks Runtime.
From S2P Require Import Invariant Independence Frame Behaviour Spec Strict Bounds.
Import Jsx Registry Browser Shared ModelSelect Hooks Runtime Invariant Independence Frame
  Behaviour Spec Strict Bounds.
From S2P Require Import ModelSelectFacts Component.
Import ModelSelectFacts Component.

Module Scenarios.

Definition models : list Model := example_models.
Definition root : Node := [2; 0].
Definition p0 : ModelSelectProps := mkProps "b" 7.

#[local] Abbreviation run := (Runtime.run (B := Page) models root).
#[local] Abbreviation settle := (Runtime.settle (B := Page) models root).
#[local] Abbreviation click := (Runtime.click (B := Page) root).
#[local] Abbreviation reachable := (Runtime.reachable (B := Page) models root p0).

(** The nodes the scenarios click and press on. *)
Definition button : Node := root ++ button_path.
Definition button_label : Node := root ++ button_path ++ [1].
Definition row_a : Node := root ++ row_path 0.
Definition row_b_label : Node := root ++ row_path 1 ++ [1].
Definition elsewhere : Node := [5; 1].

(** The worlds: after the initial render and its effect; after a click on
    the button; after the timer. *)
Definition w_closed : World Page := run [Flush] (mount models root p0 blank).
Definition w_opening : World Page := run [Click button; Render; Flush] w_closed.
Definition w_open : World Page := run [Tick] w_opening.
Definition w_gone : World Page := run [Unmount] w_open.

(** Their fibers. *)
Definition f_closed : Fiber :=
  committed root p0 false (view models p0 false "Beta") (Some false) None.
Definition f_open : Fiber :=
  committed root p0 true (view models p0 true "Beta") (Some true) (Some (mkCleanup 1 1)).

Lemma reachable_closed : reachable w_closed.
Proof. apply reachable_run, reachable_mount. Qed.

Lemma reachable_opening : reachable w_opening.
Proof. apply reachable_run, reachable_closed. Qed.

Lemma reachable_open : reachable w_open.
Proof. apply reachable_run, reachable_opening. Qed.

Lemma reachable_gone : reachable w_gone.
Proof. apply reachable_run, reachable_open. Qed.

Lemma fiber_closed : fiber w_closed = Some f_closed.
Proof. by vm_compute. Qed.

Lemma fiber_opening : fiber w_opening = Some f_open.
Proof. by vm_compute. Qed.

Lemma fiber_open : fiber w_open = Some f_open.
Proof. by vm_compute. Qed.

(** ** The scenario of the specification

    Registry a/Alpha, b/Beta, selected "b": the trigger shows "Beta"; open;
    click the option "a"; the callback fires once with "a"; the panel
    closes and nothing of the component is left in the browser. *)

Example scenario_trigger_shows_Beta :
  node_at (tree f_closed) (button_path ++ [1; 0]) = Some (Text "Beta").
Proof. by vm_compute. Qed.

Example scenario_open :
  isOpen <$> fiber w_opening = Some true ∧
  page_timers (surface w_opening) = [(1, 1)] ∧ page_listeners (surface w_opening) = [].
Proof. by vm_compute. Qed.

Example scenario_choose_a :
  let w := settle (click row_a w_open) in
  isOpen <$> fiber w = Some false ∧
  trace w = [Changed 7 "a"; Propagated row_a] ∧
  page_timers (surface w) = [] ∧ page_listeners (surface w) = [].
Proof. by vm_compute. Qed.

(** The press in the turn of the opening click does nothing; the same press
    one turn later closes the panel. *)
Example scenario_same_turn :
  mousedown elsewhere w_opening = w_opening ∧
  isOpen <$> fiber (settle (mousedown elsewhere w_open)) = Some false.
Proof. by vm_compute. Qed.

(** Five open/close cycles leave no listener and no timer behind. *)
Example scenario_cycles :
  let cycle := [Click button; Render; Flush; Tick; Click button; Render; Flush] in
  let w := run (cycle ++ cycle ++ cycle ++ cycle ++ cycle) w_closed in
  isOpen <$> fiber w = Some false ∧
  page_timers (surface w) = [] ∧ page_listeners (surface w) = [] ∧ trace w = [].
Proof. by vm_compute. Qed.

(** With an empty registry the first render throws and nothing is
    mounted. *)
Example scenario_empty_registry :
  mount (B := Page) [] root p0 blank =
    mkWorld None blank 0
      [Crashed (TypeError "Cannot read properties of undefined (reading 'label')")].
Proof. by vm_compute. Qed.

(** ** The general theorems at these worlds *)

Lemma quiescent_closed : quiescent w_closed.
Proof. by vm_compute. Qed.

Lemma quiescent_open : quiescent w_open.
Proof. by vm_compute. Qed.

Lemma at_most_one_listener_witness :
  length (timers (surface w_open)) + length (listeners (surface w_open)) ≤ 1.
Proof. apply (at_most_one_listener models root p0 w_open), reachable_open. Defined.

Lemma listener_is_current_witness :
  ∃ f c, fiber w_open = Some f ∧ effect_deps f = Some true ∧
         effect_cleanup f = Some c ∧ listener c = 1 ∧ timers (surface w_open) = [].
Proof.
  apply (listener_is_current models root p0 w_open 1); [apply reachable_open|].
  compute_done.
Defined.

Lemma closed_holds_nothing_witness :
  timers (surface w_closed) = [] ∧ listeners (surface w_closed) = [].
Proof.
  apply (closed_holds_nothing models root p0 w_closed f_closed);
    [apply reachable_closed|apply fiber_closed|done].
Defined.

Lemma unmount_releases_witness :
  fiber (unmount w_open) = None ∧
  timers (surface (unmount w_open)) = [] ∧ listeners (surface (unmount w_open)) = [].
Proof. apply (unmount_releases models root p0 w_open), reachable_open. Defined.

Lemma unmounted_inert_witness :
  Runtime.step models root (MouseDown elsewhere) w_gone = w_gone.
Proof.
  apply (unmounted_inert models root p0 w_gone); [apply reachable_gone|done].
Defined.

Lemma mousedown_while_timer_pending_witness :
  mousedown elsewhere w_opening = w_opening.
Proof.
  apply (mousedown_while_timer_pending models root p0 w_opening);
    [apply reachable_opening|compute_done].
Defined.

Lemma click_trigger_toggles_witness :
  let w' := settle (click (root ++ button_path ++ [1]) w_closed) in
  quiescent w' ∧ trace w' = trace w_closed ∧
  (∃ f', fiber w' = Some f' ∧ isOpen f' = negb (isOpen f_closed) ∧
         props f' = props f_closed) ∧
  listeners (surface w') = [] ∧
  (timers (surface w') = [] ↔ isOpen f_closed = true).
Proof.
  apply (click_trigger_toggles models root p0 w_closed f_closed [1]);
    [apply reachable_closed|apply quiescent_closed|apply fiber_closed|compute_done].
Defined.

Lemma click_row_selects_witness :
  let target := root ++ row_path 0 ++ [] in
  let w' := settle (click target w_open) in
  ∃ m, models !! 0 = Some m ∧
       quiescent w' ∧
       trace w' = trace w_open ++ [Changed (onChange (props f_open)) (id m); Propagated target] ∧
       (∃ f', fiber w' = Some f' ∧ isOpen f' = false ∧ props f' = props f_open) ∧
       timers (surface w') = [] ∧ listeners (surface w') = [].
Proof.
  apply (click_row_selects models root p0 w_open f_open 0 []);
    [apply reachable_open|apply quiescent_open|apply fiber_open|compute_done].
Defined.

Lemma press_inside_keeps_witness : mousedown button_label w_open = w_open.
Proof.
  apply (press_inside_keeps models root p0 w_open button_label);
    [apply reachable_open|by left].
Defined.

Lemma press_outside_closes_witness :
  let w' := settle (mousedown elsewhere w_open) in
  quiescent w' ∧ trace w' = trace w_open ∧
  (∃ f', fiber w' = Some f' ∧ isOpen f' = false ∧ props f' = props f_open) ∧
  timers (surface w') = [] ∧ listeners (surface w') = [].
Proof.
  apply (press_outside_closes models root p0 w_open f_open elsewhere);
    [apply reachable_open|apply quiescent_open|apply fiber_open|compute_done|done|done].
Defined.

Lemma tick_arms_witness :
  fiber (tick w_opening) = fiber w_opening ∧ trace (tick w_opening) = trace w_opening ∧
  timers (surface (tick w_opening)) = [] ∧
  ∃ l, listeners (surface (tick w_opening)) = [l].
Proof.
  apply (tick_arms models root p0 w_opening); [apply reachable_opening|compute_done].
Defined.

Lemma refinement_witness :
  reachable (sync_step models root (Click row_a) w_open) ∧
  quiescent (sync_step models root (Click row_a) w_open) ∧
  abs (sync_step models root (Click row_a) w_open) =
    (spec_step (action_of root w_open (Click row_a)) (abs w_open)).1 ∧
  calls (trace (sync_step models root (Click row_a) w_open)) =
    calls (trace w_open) ++ (spec_step (action_of root w_open (Click row_a)) (abs w_open)).2.
Proof.
  apply (refinement models root p0 w_open (Click row_a));
    [apply reachable_open|apply quiescent_open].
Defined.

Lemma refinement_run_witness :
  let es := [Click button; Tick; Click row_a] in
  abs (sync_run models root es (init (B := Page) models root p0)) =
    (spec_run (actions_of models root es (init (B := Page) models root p0))
       (Live p0 Closed)).1 ∧
  calls (trace (sync_run models root es (init (B := Page) models root p0))) =
    (spec_run (actions_of models root es (init (B := Page) models root p0))
       (Live p0 Closed)).2.
Proof. by apply (refinement_run (B := Page) models root p0 (mkModel "b" "Beta")). Defined.

Lemma dropdown_rendered_iff_open_witness :
  node_at (view models p0 true "Beta") dropdown_path = Some (dropdown models p0) ∧
  ∃ m, currentModel models (value p0) = Some m ∧
       node_at (view models p0 true "Beta") button_path = Some (trigger (label m) true).
Proof. by apply (dropdown_rendered_iff_open models p0 true (view models p0 true "Beta")). Defined.

Lemma rows_in_registry_order_witness :
  node_at (view models p0 true "Beta") (row_path 1) = option_row p0 <$> models !! 1.
Proof. by apply (rows_in_registry_order models p0 true (view models p0 true "Beta") 1). Defined.

Lemma render_fallback_label_witness :
  node_at (view models (mkProps "zzz" 7) false "Alpha") (button_path ++ [1; 0])
    = Some (Text "Alpha").
Proof.
  apply (render_fallback_label models (mkProps "zzz" 7) false _ (mkModel "a" "Alpha"));
    [compute_done|done|done].
Defined.

Lemma effect_then_cleanup_witness :
  let s := mkPage [(3, 9)] [4] 5 in
  let c := mkCleanup 5 8 in
  let s' := mkPage [(3, 9); (5, 8)] [4] 6 in
  (timers (cleanup c s') = timers s ∧ listeners (cleanup c s') = listeners s) ∧
  (∀ s1 : Page, (listeners s1 = listeners s →
                 listeners (cleanup c (arm (listener c) s1)) = listeners s) ∧
                (timers s1 = timers s →
                 timers (cleanup c (arm (listener c) s1)) = timers s)).
Proof.
  apply (effect_then_cleanup 8 (mkPage [(3, 9)] [4] 5)); [done|compute_done|compute_done].
Defined.

Lemma toggle_twice_before_render_witness :
  let target := root ++ button_path ++ [] in
  let w' := settle (click target (click target w_closed)) in
  quiescent w' ∧ trace w' = trace w_closed ∧
  ∃ f', fiber w' = Some f' ∧ isOpen f' = negb (isOpen f_closed).
Proof.
  apply (toggle_twice_before_render models root p0 w_closed f_closed []);
    [apply reachable_closed|apply quiescent_closed|apply fiber_closed|compute_done].
Defined.

Lemma only_clicks_talk_witness :
  trace (Runtime.step models root (MouseDown elsewhere) w_open) = trace w_open.
Proof.
  apply (only_clicks_talk models root p0 w_open (MouseDown elsewhere));
    [apply reachable_open|done].
Defined.

Lemma new_props_keep_state_witness :
  let p' := mkProps "a" 9 in
  let w' := rerender_with models root p' w_open in
  ∃ m', currentModel models (value p') = Some m' ∧
        fiber w' = Some (committed root p' (isOpen f_open)
                           (view models p' (isOpen f_open) (label m'))
                           (effect_deps f_open) (effect_cleanup f_open)) ∧
        surface w' = surface w_open ∧ trace w' = trace w_open ∧ quiescent w'.
Proof.
  apply (new_props_keep_state models root p0 w_open f_open (mkProps "a" 9));
    [apply reachable_open|apply quiescent_open|apply fiber_open].
Defined.

Lemma can_always_close_witness :
  let w' := sync_run models root [Tick; MouseDown elsewhere] (settle w_opening) in
  reachable w' ∧ quiescent w' ∧
  abs w' = Live (props f_open) Closed ∧ calls (trace w') = calls (trace w_opening).
Proof.
  apply (can_always_close models root p0 w_opening f_open elsewhere);
    [apply reachable_opening|apply fiber_opening|done|done].
Defined.

(** ** The effect run again *)

(** The effect of the open selector runs again: the listener is gone, a
    new timer is pending, and the next turn registers a new listener. *)
Example scenario_reconnect :
  surface (reconnect w_open) = mkPage [(2, 2)] [] 3 ∧
  surface (Runtime.tick (reconnect w_open)) = mkPage [] [2] 3.
Proof. by vm_compute. Qed.

Lemma reconnect_rearms_witness :
  let w' := reconnect w_open in
  Invariant.wf models root w' ∧ quiescent w' ∧ trace w' = trace w_open ∧
  abs w' = Live (props f_open) (if isOpen f_open then Opening else Closed) ∧
  abs (sync_step models root Tick w') =
    Live (props f_open) (if isOpen f_open then Open else Closed) ∧
  calls (trace (sync_step models root Tick w')) = calls (trace w_open).
Proof.
  apply (reconnect_rearms models root w_open f_open);
    [apply (wf_reachable models root p0), reachable_open|by vm_compute|apply fiber_open].
Defined.

(** ** A run with bounds *)

Lemma run_bounds_witness :
  let es := [Click button; Render; Flush; Tick; Click row_a; Render; Flush] in
  length (trace (run es w_closed)) ≤ length (trace w_closed) + 2 * clicks es ∧
  length (calls (trace (run es w_closed))) ≤ length (calls (trace w_closed)) + clicks es ∧
  next_closure w_closed ≤ next_closure (run es w_closed) ≤ next_closure w_closed + flushes es.
Proof. apply (run_bounds models root p0), reachable_closed. Defined.

(** ** The component, hook by hook *)

(** The open selector after a press on its button, before the render. *)
Definition w_pressed : World Page := run [Click button] w_open.
Definition f_pressed : Fiber := queue false f_open.

Lemma fiber_pressed : fiber w_pressed = Some f_pressed.
Proof. done. Qed.

(** The first call of the component renders the closed selector; called
    on the store of the pressed selector it renders it closed again, and
    the commit that follows removes the listener. *)
Example scenario_component :
  (ModelSelect_component (B := Page) models p0 first_store).1 = Ok (tree f_closed) ∧
  (ModelSelect_component (B := Page) models p0 (store_of f_pressed first_render)).1 =
    Ok (tree f_closed) ∧
  state_cell (ModelSelect_component (B := Page) models p0
                (store_of f_pressed first_render)).2 = Some false ∧
  (commit_effect 3 (setIsOpen (B := Page) false (store_of f_open first_render))
                 (surface w_open)).1.2 = surface w_open.
Proof. by vm_compute. Qed.

Lemma life_cycle_runs_component_witness :
  (∃ cells0, cells_ok cells0 ∧
     (ModelSelect_component (B := Page) models p0 first_store).1 = render models p0 false ∧
     ∀ t, (ModelSelect_component (B := Page) models p0 first_store).2 =
            store_of (committed root p0 false t None None) cells0) ∧
  (∃ cells', cells_ok cells' ∧
     (ModelSelect_component (B := Page) models p0 (store_of f_pressed first_render)).1 =
       render models p0 (next_isOpen f_pressed) ∧
     ∀ t, (ModelSelect_component (B := Page) models p0 (store_of f_pressed first_render)).2 =
            store_of (committed root p0 (next_isOpen f_pressed) t (effect_deps f_pressed)
                                (effect_cleanup f_pressed)) cells') ∧
  (∃ f', fiber (flush_effects w_pressed) = Some f' ∧
     commit_effect (next_closure w_pressed) (store_of f_pressed first_render)
                   (surface w_pressed) =
       (store_of f' first_render, surface (flush_effects w_pressed),
        next_closure (flush_effects w_pressed))).
Proof.
  apply (life_cycle_runs_component models root p0 w_pressed f_pressed first_render);
    [apply fiber_pressed|apply cells_ok_first_render].
Defined.

(** The most work a world can have pending: the dropdown was opened and
    its timer is still pending, a press on the button was rendered but its
    effect has not run, and the button was pressed once more. *)
Definition w_busiest : World Page := run [Click button; Render; Click button] w_opening.

Example scenario_work :
  pending_work w_busiest = 7 ∧
  pending_work (run [Render] w_busiest) = 2 ∧
  pending_work (run [Render; Flush] w_busiest) = 1 ∧
  pending_work (run [Render; Flush; Tick] w_busiest) = 0.
Proof. by vm_compute. Qed.

Lemma comes_to_rest_witness :
  let es := [Tick; Render; Tick; Flush] in
  pending_work w_busiest ≤ 7 ∧
  (run es w_busiest = w_busiest ∨ pending_work (run es w_busiest) < pending_work w_busiest) ∧
  pending_work (run to_rest w_busiest) = 0.
Proof.
  apply (comes_to_rest models root p0);
    [apply reachable_run, reachable_opening|by repeat constructor].
Defined.

(** ** A page shared with other code *)

(** A page on which other code has a listener and a pending timer. *)
Definition busy_page : SharedPage := mkShared [(1, Foreign 5)] [Foreign 3] 2.

Definition busy_events : list SharedEvent :=
  [Component Flush; Component (Click button); OtherCode (FSetTimeout 6);
   Component Render; Component Flush; Component Tick; OtherCode (FAddListener 4);
   Component Tick; Component Tick; Component (MouseDown elsewhere);
   Component Render; Component Flush].

Definition w_busy : World SharedPage :=
  shared_run models root busy_events (mount models root p0 busy_page).

Lemma foreign_only_busy_page : foreign_only busy_page.
Proof. split_and!; [done..|]. by Forall_elems; simpl; lia. Qed.

Lemma shared_reachable_busy : shared_reachable models root p0 w_busy.
Proof. apply shared_reachable_run, shared_mount, foreign_only_busy_page. Qed.

(** The run opens the dropdown, arms the detector and closes on a press
    outside; what other code has on the page is what it put there, less
    the timers the event loop ran. *)
Example scenario_busy_page :
  isOpen <$> fiber w_busy = Some false ∧ trace w_busy = [] ∧
  pending (surface w_busy) = [] ∧
  registered (surface w_busy) = [Foreign 3; Foreign 4].
Proof. by vm_compute. Qed.

Lemma page_independent_witness :
  let es := [Flush; Click button; Render; Flush; Tick; Click row_a; Render; Flush] in
  observe (Runtime.run models root es (mount models root p0 empty_page)) =
  observe (Runtime.run models root es (mount models root p0 busy_page)).
Proof. by apply (page_independent models root p0). Defined.

Lemma shared_run_wf_witness :
  Invariant.wf models root w_busy ∧ ids_ok w_busy ∧
  length (own_timers (surface w_busy)) + length (own_listeners (surface w_busy)) ≤ 1.
Proof. apply (shared_run_wf models root p0), shared_reachable_busy. Defined.

(** The dropdown was opened and closed again before its timer fired, while
    other code has set timers before and after it: the effect flush runs
    the cleanup, which clears the widget's timer out of the middle of the
    queue and leaves the timers of other code. *)
Definition closing_events : list SharedEvent :=
  [Component Flush; Component (Click button); OtherCode (FSetTimeout 6);
   Component Render; Component Flush; OtherCode (FSetTimeout 8);
   Component (Click button); Component Render].

Definition w_closing : World SharedPage :=
  shared_run models root closing_events (mount models root p0 busy_page).

Example scenario_closing :
  pending (surface w_closing) = [(1, Foreign 5); (2, Foreign 6); (3, Own 1); (4, Foreign 8)] ∧
  pending (surface (shared_step models root (Component Flush) w_closing)) =
    [(1, Foreign 5); (2, Foreign 6); (4, Foreign 8)].
Proof. by vm_compute. Qed.

Lemma component_keeps_foreign_witness :
  let w' := shared_step models root (Component Flush) w_closing in
  foreign_listeners (surface w') = foreign_listeners (surface w_closing) ∧
  (foreign_timers (surface w') = foreign_timers (surface w_closing) ∨
   Flush = Tick ∧
   ∃ t k, head (pending (surface w_closing)) = Some (t, Foreign k) ∧
          foreign_timers (surface w_closing) = (t, k) :: foreign_timers (surface w')).
Proof.
  apply (component_keeps_foreign models root p0), shared_reachable_run, shared_mount,
    foreign_only_busy_page.
Defined.

Lemma shared_as_alone_witness :
  observe w_busy =
  observe (Runtime.run models root (seen_run models root busy_events
                                      (mount models root p0 busy_page))
             (mount models root p0 empty_page)).
Proof.
  apply (shared_as_alone models root p0 busy_events busy_page empty_page);
    [apply foreign_only_busy_page|done|done].
Defined.

End Scenarios.
