(* ===== verification/TwoSelectors.v ===== *)
(** * Two selectors on one page

    Two instances of the component side by side in one parent, with the
    registry of the specification's scenario, on a page where other code
    has a listener and sets a timer: the first is opened and its detector
    goes live; the user then presses and clicks the trigger of the second.
    The press closes the first, the click opens the second.
    The runs are evaluated, and the theorems of [Instances] and [Together]
    are applied to them. *)

From stdpp Require Import countable gmap.
From S2P Require Import Prelude Jsx Models Browser Shared ModelSelect Runtime.
From S2P Require Import Invariant Independence Morphism Multi Frame Behaviour Spec.
From S2P Require Import Bounds Instances Together.
Import Jsx Registry Browser Shared ModelSelect Runtime Invariant Independence.
From S2P Require Import ModelSelectFacts.
Import ModelSelectFacts.
Import Morphism Multi Frame Behaviour Spec Bounds Instances Together.

Module TwoSelectors.

Definition models : list Model := example_models.

(** The wrappers of the instances are the children of one node. *)
Definition root (j : nat) : Node := [4; j].

Definition pa : ModelSelectProps := mkProps "a" 7.
Definition pb : ModelSelectProps := mkProps "b" 8.

Definition button (j : nat) : Node := root j ++ button_path.

#[local] Abbreviation doc_run := (Instances.doc_run models root).
#[local] Abbreviation doc_reachable := (Instances.doc_reachable models root).

(** Other code listens to [mousedown].  React mounts the first selector
    and runs its effect; the user opens it and the timer fires. *)
Definition first_opens : list DocEvent :=
  [Elsewhere (FAddListener 3);
   MountAt 0 pa; At 0 Flush; ClickOn (button 0); At 0 Render; At 0 Flush; Turn].

(** The second selector is mounted. *)
Definition second_mounts : list DocEvent := [At 1 Flush].

(** The user presses and clicks the trigger of the second selector; React
    renders both, other code setting a timer in between, and both timers
    fire. *)
Definition user_switches : list DocEvent :=
  [PressOn (button 1); ClickOn (button 1);
   At 0 Render; At 0 Flush; Elsewhere (FSetTimeout 7); At 1 Render; At 1 Flush;
   Turn; Turn].

Definition d_first : Document := doc_run first_opens empty_document.
Definition d_both : Document := doc_run second_mounts (doc_step models root (MountAt 1 pb) d_first).
Definition d_switched : Document := doc_run user_switches d_both.

(** The first selector alone, clicked but not yet rendered, on a page
    where other code has set a timer. *)
Definition d_clicked : Document :=
  doc_run [MountAt 0 pa; At 0 Flush; Elsewhere (FSetTimeout 7); ClickOn (button 0)]
          empty_document.

(** The fiber of the first selector while it is open. *)
Definition f_first : Fiber :=
  committed (root 0) pa true (view models pa true "Alpha") (Some true)
            (Some (mkCleanup 1 1)).

(** Its fiber then: closed, with the update of the click queued. *)
Definition f_clicked : Fiber :=
  mkFiber pa false [true] (view models pa false "Alpha") (Some (button 0)) None
          (Some false) None.

Lemma reachable_clicked : doc_reachable d_clicked.
Proof. apply doc_reachable_run, doc_empty. Qed.

Lemma reachable_first : doc_reachable d_first.
Proof. apply doc_reachable_run, doc_empty. Qed.

Lemma reachable_both : doc_reachable d_both.
Proof. apply doc_reachable_run, doc_next, reachable_first. Qed.

Lemma reachable_switched : doc_reachable d_switched.
Proof. apply doc_reachable_run, reachable_both. Qed.

(** ** The runs *)

(** The first selector is open and its listener is registered; the second
    is closed and has nothing on the page. *)
Example scenario_first_open :
  isOpen <$> fiber (proj 0 d_both) = Some true ∧
  isOpen <$> fiber (proj 1 d_both) = Some false ∧
  page d_both = mkMulti [] [(None, 3); (Some 0, 1)] 2.
Proof. by vm_compute. Qed.

(** After the press and the click on the second trigger the first selector
    is closed and the second is open: the listener on the page is the
    second's, and no [onChange] was called. *)
Example scenario_switch :
  isOpen <$> fiber (proj 0 d_switched) = Some false ∧
  isOpen <$> fiber (proj 1 d_switched) = Some true ∧
  page d_switched = mkMulti [] [(None, 3); (Some 1, 1)] 4 ∧
  trace (proj 0 d_switched) = [] ∧ trace (proj 1 d_switched) = [].
Proof. by vm_compute. Qed.

(** A click on the second trigger that no press precedes (an activation
    from the keyboard) opens the second selector and leaves the first
    open: both listeners are registered. *)
Example scenario_click_without_press :
  let d := doc_run [ClickOn (button 1); At 1 Render; At 1 Flush; Turn] d_both in
  isOpen <$> fiber (proj 0 d) = Some true ∧ isOpen <$> fiber (proj 1 d) = Some true ∧
  hearing (page d) = [(None, 3); (Some 0, 1); (Some 1, 1)].
Proof. by vm_compute. Qed.

(** What the second selector sees of the run is its own clicks, renders
    and timer, not the timer of other code; the press reaches it, but it
    has no listener yet. *)
Example scenario_seen_by_second :
  events_of_run models root 1 (second_mounts ++ user_switches)
    (doc_step models root (MountAt 1 pb) d_first) =
  [Flush; MouseDown (button 1); Click (button 1); Render; Flush; Tick].
Proof. by vm_compute. Qed.

(** ** The theorems at these documents *)

Lemma instances_wf_witness :
  Invariant.wf models (root 1) (proj 1 d_switched) ∧ ids_ok (proj 1 d_switched) ∧
  length (timers_by 1 (page d_switched)) + length (listeners_by 1 (page d_switched)) ≤ 1.
Proof. apply (instances_wf models root d_switched 1), reachable_switched. Defined.

Lemma instance_as_alone_witness :
  let d0 := doc_step models root (MountAt 1 pb) d_first in
  observe (proj 1 (doc_run (second_mounts ++ user_switches) d0)) =
  observe (Runtime.run models (root 1)
             (events_of_run models root 1 (second_mounts ++ user_switches) d0)
             (mount models (root 1) pb empty_page)).
Proof.
  apply (instance_as_alone models root 1 pb (second_mounts ++ user_switches) d_first
           empty_page); [apply reachable_first|done..].
Defined.

Lemma instances_frame_witness :
  let d' := doc_step models root (At 0 Unmount) d_switched in
  (instances d' !! 1 = instances d_switched !! 1 ∧
   timers_by 1 (page d') = timers_by 1 (page d_switched) ∧
   listeners_by 1 (page d') = listeners_by 1 (page d_switched)) ∧
  proj 1 (doc_step models root (ClickOn (button 0)) d_switched) = proj 1 d_switched.
Proof.
  apply (instances_frame models root 1 (At 0 Unmount) (button 0) d_switched);
    [apply reachable_switched|compute_done|done|done].
Defined.

Lemma press_elsewhere_closes_witness :
  let d' := doc_run (press_and_settle 0 (button 1)) d_both in
  (∃ f', fiber (proj 0 d') = Some f' ∧ isOpen f' = false ∧ props f' = props f_first) ∧
  trace (proj 0 d') = trace (proj 0 d_both) ∧
  timers_by 0 (page d') = [] ∧ listeners_by 0 (page d') = [].
Proof.
  apply (press_elsewhere_closes models root 0 (button 1) d_both f_first);
    [apply reachable_both|by vm_compute|by vm_compute|compute_done|done].
Defined.

Lemma page_bounded_witness :
  length (waiting (page d_switched)) + length (hearing (page d_switched)) ≤
    size (open_instances d_switched) +
    (length (timers_elsewhere (page d_switched)) +
     length (listeners_elsewhere (page d_switched))) ∧
  size (open_instances d_switched) ≤ size (instances d_switched).
Proof. apply (page_bounded models root d_switched), reachable_switched. Defined.

(** Unmounting both selectors leaves the listener of other code. *)
Example scenario_unmount_all :
  unmount_all d_switched = [At 1 Unmount; At 0 Unmount] ∧
  page (doc_run (unmount_all d_switched) d_switched) = mkMulti [] [(None, 3)] 4.
Proof. by vm_compute. Qed.

Lemma unmount_all_releases_witness :
  let d' := doc_run (unmount_all d_switched) d_switched in
  (∀ i, fiber (proj i d') = None) ∧
  waiting (page d') = timers_elsewhere (page d') ∧
  hearing (page d') = listeners_elsewhere (page d').
Proof. apply (unmount_all_releases models root d_switched), reachable_switched. Defined.

(** The unmount of the open selector, with its cleanup, leaves the
    listener of other code. *)
Lemma instances_keep_elsewhere_witness :
  let d' := doc_step models root (At 1 Unmount) d_switched in
  listeners_elsewhere (page d') = listeners_elsewhere (page d_switched) ∧
  (timers_elsewhere (page d') = timers_elsewhere (page d_switched) ∨
   At 1 Unmount = Turn ∧
   ∃ t k, head (waiting (page d_switched)) = Some (t, (None, k)) ∧
          timers_elsewhere (page d_switched) = (t, (None, k)) :: timers_elsewhere (page d')).
Proof.
  apply (instances_keep_elsewhere models root (At 1 Unmount) d_switched);
    [apply reachable_switched|done].
Defined.

(** The plan that closes the clicked selector: it opens, the timer of other
    code and its own fire, the press closes it; what stays on the page is
    nothing. *)
Example scenario_close_plan :
  fiber (proj 0 d_clicked) = Some f_clicked ∧
  close_plan models root 0 (button 1) d_clicked =
    [At 0 Render; At 0 Flush; Turn; Turn; PressOn (button 1); At 0 Render; At 0 Flush] ∧
  page (doc_run (close_plan models root 0 (button 1) d_clicked) d_clicked) = mkMulti [] [] 3.
Proof. by vm_compute. Qed.

(** The detector is not live in the turn after the opening when a timer
    of other code is queued before that of the selector: after one turn a
    press outside leaves it open, its timer still pending. *)
Example scenario_detector_late :
  let d := doc_run ([At 0 Render; At 0 Flush; Turn] ++ press_and_settle 0 (button 1))
                   d_clicked in
  isOpen <$> fiber (proj 0 d) = Some true ∧
  waiting (page d) = [(2, (Some 0, 1))] ∧ hearing (page d) = [].
Proof. by vm_compute. Qed.

Lemma instance_can_close_witness :
  let d' := doc_run (close_plan models root 0 (button 1) d_clicked) d_clicked in
  quiescent (proj 0 d') ∧ abs (proj 0 d') = Live (props f_clicked) Closed ∧
  calls (trace (proj 0 d')) = calls (trace (proj 0 d_clicked)) ∧
  timers_by 0 (page d') = [] ∧ listeners_by 0 (page d') = [].
Proof.
  apply (instance_can_close models root 0 (button 1) d_clicked f_clicked);
    [apply reachable_clicked|by vm_compute|done].
Defined.

(** The press on the second trigger is, for the first instance, the
    specification's press outside. *)
Example scenario_press_is_outside :
  action_of (root 0) (proj 0 d_both) <$> events_of 0 (PressOn (button 1)) d_both
  = [PressOutside] ∧
  spec_run [PressOutside] (abs (proj 0 d_both)) = (Live pa Closed, []).
Proof. by vm_compute. Qed.

Lemma document_refines_witness :
  let ev := PressOn (button 1) in
  let d' := doc_run [ev; At 0 Render; At 0 Flush] d_both in
  let acts := action_of (root 0) (proj 0 d_both) <$> events_of 0 ev d_both in
  quiescent (proj 0 d') ∧
  abs (proj 0 d') = (spec_run acts (abs (proj 0 d_both))).1 ∧
  calls (trace (proj 0 d')) =
    calls (trace (proj 0 d_both)) ++ (spec_run acts (abs (proj 0 d_both))).2.
Proof.
  apply (document_refines models root 0 (PressOn (button 1)) d_both);
    [apply reachable_both|compute_done|by vm_compute].
Defined.

(** One of the two selectors is open, and the page holds its listener and
    that of other code. *)
Example scenario_one_listener :
  size (open_instances d_switched) = 1 ∧ size (instances d_switched) = 2 ∧
  length (hearing (page d_switched)) = 2 ∧
  length (listeners_elsewhere (page d_switched)) = 1.
Proof. by vm_compute. Qed.

End TwoSelectors.
